(** * electric_tower_utils: region partitioning, tower decomposition, subsetting

    A shallow embedding of [electric_tower_utils.py].  The three operations
    that the pipeline is made of are embedded as executable functions:

    - [split_txlines_by_region] (lines 38-99 of the source),
    - [get_tower_coords]        (lines 101-153),
    - [df_subset]               (lines 156-168).

    Python exceptions are values of [exn]; a call either returns ([Ok]) or
    raises ([Raise]), and stateful code threads its state explicitly, the
    state being kept when an exception leaves the function. *)

From Stdlib Require Import List String Ascii Bool Arith ZArith QArith Lia.
From Stdlib Require Import DecimalString.
Import ListNotations.

Local Open Scope string_scope.
Local Open Scope list_scope.
Local Open Scope nat_scope.

Set Implicit Arguments.

(* ------------------------------------------------------------------ *)
(** ** Python: exceptions, results, and a state-and-exception monad    *)
(* ------------------------------------------------------------------ *)

Module Py.

(** The exceptions that the embedded code can raise.  The payload is the
    piece of data the Python message is built from. *)
Inductive exn : Type :=
| IndexError                     (* [.values[0]] on an empty selection   *)
| ValueError (msg : string) (arg : string)
                                 (* [raise ValueError(msg, arg)], and
                                    [pd.concat([])]                       *)
| UnboundLocalError (var : string)
                                 (* a local read before its first binding *)
| KeyError (key : string)        (* [df[feature]] on a missing column    *)
| TypeError                      (* [str >= float]                       *)
| WKTReadingError (text : string)(* [wkt.loads] on text that is not WKT  *)
| NotImplementedError            (* [.coords] of a multi-part geometry   *)
| OSError (strerror : string)    (* [to_csv] on a file it cannot write   *).

Inductive result (A : Type) : Type :=
| Ok (a : A)
| Raise (e : exn).

Arguments Ok {A} a.
Arguments Raise {A} e.

Definition is_ok {A} (r : result A) : bool :=
  match r with Ok _ => true | Raise _ => false end.

Definition rbind {A B} (r : result A) (k : A -> result B) : result B :=
  match r with
  | Ok a => k a
  | Raise e => Raise e
  end.

(** [map_result f xs] applies [f] from left to right and stops at the
    first exception, as an element-wise pandas operation does. *)
Fixpoint map_result {A B} (f : A -> result B) (xs : list A) : result (list B) :=
  match xs with
  | [] => Ok []
  | x :: xs' =>
      rbind (f x) (fun y => rbind (map_result f xs') (fun ys => Ok (y :: ys)))
  end.

(** Stateful code that may raise: the state at the point of the raise is
    returned together with the exception. *)
Definition M (S A : Type) : Type := S -> result A * S.

Definition ret {S A} (a : A) : M S A := fun s => (Ok a, s).

Definition bind {S A B} (c : M S A) (k : A -> M S B) : M S B :=
  fun s =>
    match c s with
    | (Ok a, s') => k a s'
    | (Raise e, s') => (Raise e, s')
    end.

Definition raise {S A} (e : exn) : M S A := fun s => (Raise e, s).

Definition get {S} : M S S := fun s => (Ok s, s).

Definition modify {S} (f : S -> S) : M S unit := fun s => (Ok tt, f s).

Definition lift {S A} (r : result A) : M S A := fun s => (r, s).

(** [for x in xs: body(x)] *)
Fixpoint for_each {S A} (xs : list A) (body : A -> M S unit) : M S unit :=
  match xs with
  | [] => ret tt
  | x :: xs' => bind (body x) (fun _ => for_each xs' body)
  end.

(** [str(n)] for a Python int *)
Definition str_nat (n : nat) : string := NilZero.string_of_uint (Nat.to_uint n).
Definition str_int (z : Z) : string := NilZero.string_of_int (Z.to_int z).

End Py.

Import Py.

Declare Scope py_scope.
Delimit Scope py_scope with py.
Notation "x <- c ;; k" := (bind c (fun x => k))
  (at level 61, c at next level, right associativity) : py_scope.
Notation "c ;;; k" := (bind c (fun _ => k))
  (at level 61, right associativity) : py_scope.

(* ------------------------------------------------------------------ *)
(** ** Numbers and cells                                               *)
(* ------------------------------------------------------------------ *)

Module Num.

(** A float: the bounds of [df_subset] ([min_value: float],
    [max_value: float]), the cells of a float64 column, the attributes of
    a line.  A finite float is the rational it denotes, and two floats
    compare as these rationals do; the infinities are the default bounds
    of [df_subset]; [NaN] is what pandas stores for a missing numeric
    cell.  The code only carries and compares numbers, it never does
    arithmetic on them. *)
Inductive num : Type :=
| NaN
| NegInf
| Fin (q : Q)
| PosInf.

(** The float64 nearest to the integer [z], ties to the even significand:
    the conversion that numpy applies to the elements of an int64 column
    when the column is compared with a float.  It is the integer itself up
    to [2^53] in absolute value; above, the integer is rounded to 53
    significant bits. *)
Definition float64_of_int (z : Z) : Z :=
  let m := Z.abs z in
  if (m <=? 2 ^ 53)%Z then z
  else
    let e := (Z.log2 m - 52)%Z in
    let q := Z.shiftr m e in
    let r := (m - Z.shiftl q e)%Z in
    let h := Z.shiftl 1 (e - 1) in
    let q' := if (r <? h)%Z then q
              else if (h <? r)%Z then (q + 1)%Z
              else if Z.even q then q else (q + 1)%Z in
    (Z.sgn z * Z.shiftl q' e)%Z.

(** [a <= b]; every comparison with NaN is False. *)
Definition leb (a b : num) : bool :=
  match a, b with
  | NaN, _ | _, NaN => false
  | NegInf, _ => true
  | _, PosInf => true
  | Fin p, Fin q => Qle_bool p q
  | _, _ => false
  end.

(** [a >= b] *)
Definition geb (a b : num) : bool := leb b a.

(** [a == b] *)
Definition eqb (a b : num) : bool :=
  match a, b with
  | NegInf, NegInf => true
  | PosInf, PosInf => true
  | Fin p, Fin q => Qeq_bool p q
  | _, _ => false
  end.

End Num.

(* ------------------------------------------------------------------ *)
(** ** pandas: a data frame with named columns                         *)
(* ------------------------------------------------------------------ *)

Module Pandas.

(** A cell of a data frame: an element of a float64 column (a missing
    value is [NaN]), an element of an int64 column, or a Python string
    in a column of objects. *)
Inductive cell : Type :=
| VNum (n : Num.num)
| VInt (z : Z)
| VStr (s : string).

(** A record of named cells. *)
Definition record : Type := list (string * cell).

(** [columns] is the schema; a row is its index label and its record. *)
Record DataFrame : Type := mkDataFrame {
  columns : list string;
  rows : list (nat * record)
}.

Definition has_column (df : DataFrame) (f : string) : bool :=
  existsb (String.eqb f) (columns df).

(** The cell of column [f] in a record; pandas shows a cell that a record
    does not have as NaN. *)
Definition record_get (f : string) (r : record) : cell :=
  match find (fun kv => String.eqb (fst kv) f) r with
  | Some kv => snd kv
  | None => VNum Num.NaN
  end.

(** The cell of column [f] in a row. *)
Definition cell_of (f : string) (r : nat * record) : cell :=
  record_get f (snd r).

(** The cells of column [f], row after row. *)
Definition column_values (df : DataFrame) (f : string) : list cell :=
  map (cell_of f) (rows df).

(** [df[f]] : the column as a series, [KeyError] when [f] is no column. *)
Definition getitem (df : DataFrame) (f : string) : result (list cell) :=
  if has_column df f
  then Ok (column_values df f)
  else Raise (KeyError f).

(** The operand that a comparison of the cell with a float works on: a
    float as it is, an element of an int64 column after its conversion to
    float64; a string against a float raises. *)
Definition as_float (v : cell) : result Num.num :=
  match v with
  | VNum n => Ok n
  | VInt z => Ok (Num.Fin (inject_Z (Num.float64_of_int z)))
  | VStr _ => Raise TypeError
  end.

(** [v >= bound] and [v <= bound] on one cell. *)
Definition cell_ge (bound : Num.num) (v : cell) : result bool :=
  rbind (as_float v) (fun n => Ok (Num.geb n bound)).

Definition cell_le (bound : Num.num) (v : cell) : result bool :=
  rbind (as_float v) (fun n => Ok (Num.leb n bound)).

(** [v == bound] never raises: a string is not equal to a number. *)
Definition cell_eq (bound : Num.num) (v : cell) : bool :=
  match as_float v with
  | Ok n => Num.eqb n bound
  | Raise _ => false
  end.

(** [series >= bound], [series <= bound], [series == bound] *)
Definition series_ge (s : list cell) (bound : Num.num) : result (list bool) :=
  map_result (cell_ge bound) s.

Definition series_le (s : list cell) (bound : Num.num) : result (list bool) :=
  map_result (cell_le bound) s.

Definition series_eq (s : list cell) (bound : Num.num) : list bool :=
  map (cell_eq bound) s.

(** [m1 & m2] on two boolean series of one frame *)
Definition series_and (m1 m2 : list bool) : list bool :=
  map (fun p => andb (fst p) (snd p)) (combine m1 m2).

(** Selection of the rows whose mask entry is True, order and index labels
    kept. *)
Fixpoint select {A} (xs : list A) (mask : list bool) : list A :=
  match xs, mask with
  | x :: xs', b :: mask' => if b then x :: select xs' mask' else select xs' mask'
  | _, _ => []
  end.

(** [df.loc[mask]] *)
Definition loc (df : DataFrame) (mask : list bool) : DataFrame :=
  mkDataFrame (columns df) (select (rows df) mask).

End Pandas.

Import Pandas.

(* ------------------------------------------------------------------ *)
(** ** [df_subset]                                                     *)
(* ------------------------------------------------------------------ *)

(** [[
    return df.loc[(df[feature] >= min_value) & (df[feature] <= max_value)]
    ]] *)
Definition df_subset (df : DataFrame) (feature : string)
                     (min_value max_value : Num.num) : result DataFrame :=
  rbind (getitem df feature) (fun c1 =>
  rbind (series_ge c1 min_value) (fun m1 =>
  rbind (getitem df feature) (fun c2 =>
  rbind (series_le c2 max_value) (fun m2 =>
  Ok (loc df (series_and m1 m2)))))).

(** The defaults of the signature: [feature='voltage'],
    [min_value=-inf], [max_value=inf]. *)
Definition df_subset_default (df : DataFrame) : result DataFrame :=
  df_subset df "voltage" Num.NegInf Num.PosInf.

(** The rows [l] hold numbers only (floats, NaN included, or integers)
    in column [f]. *)
Definition numeric_rows (f : string) (l : list (nat * record)) : Prop :=
  Forall (fun r => exists n, as_float (record_get f (snd r)) = Ok n) l.

(** Column [f] of [df] holds numbers only. *)
Definition numeric_column (df : DataFrame) (f : string) : Prop :=
  numeric_rows f (rows df).

(** The mask that the filter computes on a record. *)
Definition in_range (f : string) (lo hi : Num.num) (r : nat * record) : bool :=
  match as_float (record_get f (snd r)) with
  | Ok n => Num.geb n lo && Num.leb n hi
  | Raise _ => false
  end.

(** The cell can be compared with a float. *)
Definition comparable (v : cell) : bool := is_ok (as_float v).

(* ------------------------------------------------------------------ *)
(** ** shapely: geometries                                             *)
(* ------------------------------------------------------------------ *)

Module Shapely.

(** A vertex [(x, y)] = (lon, lat). *)
Definition coord : Type := (Q * Q)%type.

Definition ring : Type := list coord.

#[warnings="-register-all"]
Inductive geometry : Type :=
| Point (c : coord)
| LineString (cs : list coord)
| LinearRing (cs : ring)
| Polygon (shell : ring) (holes : list ring)
| MultiPoint (cs : list coord)
| MultiLineString (ls : list (list coord))
| MultiPolygon (ps : list (ring * list ring))
| GeometryCollection (gs : list geometry).

(** [g.geom_type] *)
Definition geom_type (g : geometry) : string :=
  match g with
  | Point _ => "Point"
  | LineString _ => "LineString"
  | LinearRing _ => "LinearRing"
  | Polygon _ _ => "Polygon"
  | MultiPoint _ => "MultiPoint"
  | MultiLineString _ => "MultiLineString"
  | MultiPolygon _ => "MultiPolygon"
  | GeometryCollection _ => "GeometryCollection"
  end.

(** [g.coords]: the coordinate sequence of a single-part geometry. *)
Definition coords (g : geometry) : result (list coord) :=
  match g with
  | Point c => Ok [c]
  | LineString cs => Ok cs
  | LinearRing cs => Ok cs
  | _ => Raise NotImplementedError
  end.

(** [seq.xy]: the array of the x and the array of the y. *)
Definition xy (cs : list coord) : list Q * list Q :=
  (map fst cs, map snd cs).

End Shapely.

Import Shapely.

(* ------------------------------------------------------------------ *)
(** ** The tables of the pipeline                                      *)
(* ------------------------------------------------------------------ *)

(** A feature of the input shapefile: the attributes the pipeline reads
    ([ID], [SHAPE_Leng], [VOLTAGE], [OWNER]) and the geometry.  The other
    attributes of the shapefile travel with the row untouched and are left
    out. *)
Module Line.
Record row : Type := mk {
  ID : Z;
  SHAPE_Leng : Num.num;
  VOLTAGE : Num.num;
  OWNER : string;
  geometry : Shapely.geometry
}.
End Line.

(** A row of the reference table [US_STATES]. *)
Module UsState.
Record row : Type := mk {
  STATE_NAME : string;
  geometry : Shapely.geometry
}.
End UsState.

(** A row of a frame that [split_txlines_by_region] builds: the index
    label the feature had in the input, the feature, the [state] column,
    and the [region] column once it has been assigned. *)
Module Part.
Record row : Type := mk {
  index : nat;
  feature : Line.row;
  state : string;
  region : option string
}.
End Part.

(** A row of [tx_lines.csv].  [G] is the type of the geometry column:
    [string] in the file (well-known text), [Shapely.geometry] once
    [wkt.loads] has been applied.  An absent [region] is written as the
    empty field. *)
Module Tx.
Record row (G : Type) : Type := mk {
  ID : Z;
  SHAPE_Leng : Num.num;
  VOLTAGE : Num.num;
  OWNER : string;
  geometry : G;
  state : string;
  region : string
}.
End Tx.

(** A row of the tower table. *)
Module Tower.
Record row : Type := mk {
  id : Z;
  tx_line_length : Num.num;
  voltage : Num.num;
  state : string;
  region : string;
  owner : string;
  lon : Q;
  lat : Q
}.
End Tower.

(** A frame with typed rows: the index label of each row and the row. *)
Definition frame (A : Type) : Type := list (nat * A).

(** The [RangeIndex] that [gpd.read_file] and [pd.read_csv] give a table:
    the label of a row is its position. *)
Definition range_index {A} (xs : list A) : frame A :=
  combine (seq 0 (List.length xs)) xs.

(* ------------------------------------------------------------------ *)
(** ** The output directory: log file and the two tables               *)
(* ------------------------------------------------------------------ *)

(** [error.log] and the handle [logf] on it.  What has been written and
    not yet flushed is in [buffered]; [flush] and [close] move it to
    [on_disk].  (The run-time may write a full buffer earlier; [on_disk]
    is what the code has made sure of.) *)
Record LogFile : Type := mkLog {
  on_disk : list string;
  buffered : list string;
  is_open : bool
}.

Record Files : Type := mkFiles {
  error_log : LogFile;
  tx_lines_csv : option (list (Tx.row string));
  tower_coordinates_csv : option (list Tower.row)
}.

(** [open(path, 'w')] truncates the file. *)
Definition log_open (fs : Files) : Files :=
  mkFiles (mkLog [] [] true) (tx_lines_csv fs) (tower_coordinates_csv fs).

Definition log_write (s : string) (fs : Files) : Files :=
  let l := error_log fs in
  mkFiles (mkLog (on_disk l) (buffered l ++ [s]) (is_open l))
          (tx_lines_csv fs) (tower_coordinates_csv fs).

Definition log_flush (fs : Files) : Files :=
  let l := error_log fs in
  mkFiles (mkLog (on_disk l ++ buffered l) [] (is_open l))
          (tx_lines_csv fs) (tower_coordinates_csv fs).

Definition log_close (fs : Files) : Files :=
  let l := error_log fs in
  mkFiles (mkLog (on_disk l ++ buffered l) [] false)
          (tx_lines_csv fs) (tower_coordinates_csv fs).

(** What [to_csv] does to the directory when it writes its file; [Disk]
    below has the two operations on a directory that may refuse it. *)
Definition write_tx_lines (t : list (Tx.row string)) (fs : Files) : Files :=
  mkFiles (error_log fs) (Some t) (tower_coordinates_csv fs).

Definition write_tower_coordinates (t : list Tower.row) (fs : Files) : Files :=
  mkFiles (error_log fs) (tx_lines_csv fs) (Some t).

(** Everything that has been written to the log, flushed or not. *)
Definition log_written (fs : Files) : list string :=
  on_disk (error_log fs) ++ buffered (error_log fs).

(* ------------------------------------------------------------------ *)
(** ** The state of the two stateful operations                        *)
(* ------------------------------------------------------------------ *)

(** The locals of [get_tower_coords] that change while it runs, and the
    output directory. *)
Module TowerSt.
Record t : Type := mk {
  files : Files;
  temp_df : frame Tower.row;
  pbar : nat
}.
Definition on_files (f : Files -> Files) (st : t) : t :=
  mk (f (files st)) (temp_df st) (pbar st).
Definition append (df : frame Tower.row) (st : t) : t :=
  mk (files st) (temp_df st ++ df) (pbar st).
Definition update_pbar (n : nat) (st : t) : t :=
  mk (files st) (temp_df st) (pbar st + n).
End TowerSt.

(** The locals of [split_txlines_by_region] and the output directory.
    A frame that the function builds per region is an object: it is
    allocated in [heap], and [region_df] and the elements of [tx_lines]
    are references to it (positions in [heap]), so that an assignment to
    a column of [region_df] is seen through every reference to the same
    object.  [region_df = None] is the local before its first binding. *)
Module SplitSt.
Record t : Type := mk {
  files : Files;
  heap : list (list Part.row);
  region_list : list (list Part.row);
  region_df : option nat;
  tx_lines : list nat
}.
Definition on_files (f : Files -> Files) (st : t) : t :=
  mk (f (files st)) (heap st) (region_list st) (region_df st) (tx_lines st).
Definition set_region_list (l : list (list Part.row)) (st : t) : t :=
  mk (files st) (heap st) l (region_df st) (tx_lines st).
(** [region_df = <new frame>]: allocation and binding of the local *)
Definition bind_region_df (df : list Part.row) (st : t) : t :=
  mk (files st) (heap st ++ [df]) (region_list st)
     (Some (List.length (heap st))) (tx_lines st).
Definition set_heap (h : list (list Part.row)) (st : t) : t :=
  mk (files st) h (region_list st) (region_df st) (tx_lines st).
Definition set_tx_lines (l : list nat) (st : t) : t :=
  mk (files st) (heap st) (region_list st) (region_df st) l.
Definition init (fs : Files) : t := mk fs [] [] None [].
(** The object a reference points to. *)
Definition deref (st : t) (r : nat) : list Part.row := nth r (heap st) [].
End SplitSt.

(** In-place update of the object at position [n]. *)
Fixpoint update {A} (n : nat) (f : A -> A) (l : list A) : list A :=
  match l, n with
  | [], _ => []
  | x :: l', O => f x :: l'
  | x :: l', S n' => x :: update n' f l'
  end.

(** [pd.concat(frames)]: the rows of the frames in order; an empty list
    of frames is an error. *)
Definition pd_concat {A} (frames : list (list A)) : result (list A) :=
  match frames with
  | [] => Raise (ValueError "No objects to concatenate" "")
  | _ => Ok (List.concat frames)
  end.

(** The row [r] with the geometry cell replaced by [g]. *)
Definition with_geometry {G H} (r : Tx.row G) (g : H) : Tx.row H :=
  Tx.mk (Tx.ID r) (Tx.SHAPE_Leng r) (Tx.VOLTAGE r) (Tx.OWNER r)
        g (Tx.state r) (Tx.region r).

(** The index labels [k], [k+1], ... on the rows [xs]. *)
Definition indexed_from {A} (k : nat) (xs : list A) : frame A :=
  combine (seq k (List.length xs)) xs.

(** [f"Logging at {current_time}\n"] *)
Definition start_line (current_time : string) : string :=
  "Logging at " ++ current_time ++ String "010" "".

Local Open Scope py_scope.

Section Code.

(** [shapely.wkt.loads]; [None] when it raises. *)
Variable wkt_loads : string -> option geometry.
(** The well-known text of a geometry, as [to_csv] writes it. *)
Variable wkt_dumps : geometry -> string.
(** [a.contains(b)] of shapely. *)
Variable contains : geometry -> geometry -> bool.
(** The reference table imported from [CONSTANTS]. *)
Variable US_STATES : list UsState.row.

(* ------------------------------------------------------------------ *)
(** *** [get_tower_coords]                                             *)
(* ------------------------------------------------------------------ *)

(** [wkt.loads] on the geometry cell of one row. *)
Definition loads_row (r : Tx.row string) : result (Tx.row geometry) :=
  match wkt_loads (Tx.geometry r) with
  | Some g => Ok (with_geometry r g)
  | None => Raise (WKTReadingError (Tx.geometry r))
  end.

(** [df['geometry'] = df['geometry'].apply(wkt.loads)] *)
Definition loads_geometry (df : list (Tx.row string))
  : result (list (Tx.row geometry)) :=
  map_result loads_row df.

(** [[
    pd.DataFrame({'id':row['ID'], 'tx_line_length':row['SHAPE_Leng'],
                  'voltage':row['VOLTAGE'], 'state':row['state'],
                  'region':row['region'], 'owner':row['OWNER'],
                  'lon':x, 'lat':y})
    ]]
    The scalars are broadcast along the two arrays; the new frame has a
    [RangeIndex]. *)
Definition tower_point (row : Tx.row geometry) (p : Q * Q) : Tower.row :=
  Tower.mk (Tx.ID row) (Tx.SHAPE_Leng row) (Tx.VOLTAGE row)
           (Tx.state row) (Tx.region row) (Tx.OWNER row) (fst p) (snd p).

Definition tower_frame (row : Tx.row geometry) (x y : list Q) : frame Tower.row :=
  range_index (map (tower_point row) (combine x y)).

(** The line the [else] branch writes to the log. *)
Definition skip_message (row : Tx.row geometry) (index : nat) : string :=
  str_int (Tx.ID row) ++ " with index " ++ str_nat index
  ++ " has the following geom type: " ++ geom_type (Tx.geometry row)
  ++ String "010" "".

(** The body of [for index, row in gdf.iterrows()] (lines 131-148). *)
Definition tower_step (ir : nat * Tx.row geometry) : M TowerSt.t unit :=
  let index := fst ir in
  let row := snd ir in
  modify (TowerSt.update_pbar 1) ;;;
  if String.eqb (geom_type (Tx.geometry row)) "LineString" then
    cs <- lift (coords (Tx.geometry row)) ;;
    let x := fst (xy cs) in
    let y := snd (xy cs) in
    modify (TowerSt.append (tower_frame row x y))
  else
    modify (TowerSt.on_files (log_write (skip_message row index))) ;;;
    modify (TowerSt.on_files log_flush).

(** Lines 111-153, on the locals and the output directory. *)
Definition get_tower_coords_body (current_time : string)
    (csv : list (Tx.row string)) : M TowerSt.t (frame Tower.row) :=
  modify (TowerSt.on_files log_open) ;;;
  modify (TowerSt.on_files (log_write (start_line current_time))) ;;;
  df <- lift (loads_geometry csv) ;;
  let gdf := range_index df in
  for_each gdf tower_step ;;;
  modify (TowerSt.on_files log_close) ;;;
  st <- get ;;
  modify (TowerSt.on_files
            (write_tower_coordinates (map snd (TowerSt.temp_df st)))) ;;;
  ret (TowerSt.temp_df st).

(** [get_tower_coords(filename)]: [csv] is the table [pd.read_csv] reads
    from [filename], [fs] the directory of [filename] before the call,
    [current_time] the clock reading.  The result is the returned frame,
    or the exception, and the directory after the call. *)
Definition get_tower_coords (current_time : string)
    (csv : list (Tx.row string)) (fs : Files)
  : result (frame Tower.row) * Files :=
  let out := get_tower_coords_body current_time csv (TowerSt.mk fs [] 0) in
  (fst out, TowerSt.files (snd out)).

(** What one row of the loaded table contributes: the frame of its
    vertices if it is a LineString, else one line of the log. *)
Definition row_points (row : Tx.row geometry) : frame Tower.row :=
  match Tx.geometry row with
  | LineString cs => range_index (map (tower_point row) cs)
  | _ => []
  end.

Definition row_skips (ir : nat * Tx.row geometry) : list string :=
  match Tx.geometry (snd ir) with
  | LineString _ => []
  | _ => [skip_message (snd ir) (fst ir)]
  end.

(** The skip lines of the rows [rows] when the first of them has the
    positional index [k]. *)
Definition skip_entries (k : nat) (rows : list (Tx.row geometry)) : list string :=
  flat_map row_skips (indexed_from k rows).

(** One [write] followed by [flush] per message. *)
Definition log_lines (msgs : list string) (fs : Files) : Files :=
  fold_left (fun fs m => log_flush (log_write m fs)) msgs fs.

(* ------------------------------------------------------------------ *)
(** *** [split_txlines_by_region]                                      *)
(* ------------------------------------------------------------------ *)

(** [US_STATES[US_STATES.STATE_NAME == state]['geometry'].values[0]] *)
Definition state_polygon (state : string) : result geometry :=
  match filter (fun r => String.eqb (UsState.STATE_NAME r) state) US_STATES with
  | [] => Raise IndexError
  | r :: _ => Ok (UsState.geometry r)
  end.

(** Lines 80-83. *)
Definition valid_area_of (polygon : geometry) : result geometry :=
  if String.eqb (geom_type polygon) "Polygon"
     || String.eqb (geom_type polygon) "MultiPolygon"
  then Ok polygon
  else Raise (ValueError "invalid polygon:" (geom_type polygon)).

(** Lines 84-88: the frame of the rows whose line the area contains,
    built by appending row after row. *)
Definition contained_rows (valid_area : geometry) (tmp_gdf : frame Line.row)
  : frame Line.row :=
  fold_left
    (fun temp_df ir =>
       if contains valid_area (Line.geometry (snd ir))
       then temp_df ++ [ir]
       else temp_df)
    tmp_gdf [].

(** [temp_df['state'] = state] *)
Definition set_state (state : string) (temp_df : frame Line.row) : list Part.row :=
  map (fun ir => Part.mk (fst ir) (snd ir) state None) temp_df.

(** [region_df['region'] = region_name] on the rows of one frame *)
Definition set_region (region_name : string) (df : list Part.row) : list Part.row :=
  map (fun r => Part.mk (Part.index r) (Part.feature r) (Part.state r)
                        (Some region_name)) df.

Definition state_count_message (state : string) (n : nat) : string :=
  "The state of " ++ state ++ " has " ++ str_nat n ++ " records" ++ String "010" "".

Definition region_header (region_name : string) : string :=
  String "010" "" ++ "***" ++ region_name ++ "***" ++ String "010" "".

(** The body of [for state in region_state] (lines 78-93). *)
Definition state_step (tmp_gdf : frame Line.row) (state : string)
  : M SplitSt.t unit :=
  polygon <- lift (state_polygon state) ;;
  valid_area <- lift (valid_area_of polygon) ;;
  let temp_df := set_state state (contained_rows valid_area tmp_gdf) in
  modify (SplitSt.on_files
            (log_write (state_count_message state (List.length temp_df)))) ;;;
  modify (SplitSt.on_files log_flush) ;;;
  st <- get ;;
  modify (SplitSt.set_region_list (SplitSt.region_list st ++ [temp_df])) ;;;
  st <- get ;;
  modify (SplitSt.bind_region_df (List.concat (SplitSt.region_list st))).

(** The body of [for region_name, region_state in zip(...)] (lines 74-95). *)
Definition region_step (tmp_gdf : frame Line.row) (rs : string * list string)
  : M SplitSt.t unit :=
  let region_name := fst rs in
  let region_state := snd rs in
  modify (SplitSt.on_files (log_write (region_header region_name))) ;;;
  modify (SplitSt.set_region_list []) ;;;
  for_each region_state (state_step tmp_gdf) ;;;
  st <- get ;;
  match SplitSt.region_df st with
  | None => raise (UnboundLocalError "region_df")
  | Some r =>
      modify (SplitSt.set_heap (update r (set_region region_name) (SplitSt.heap st))) ;;;
      st <- get ;;
      modify (SplitSt.set_tx_lines (SplitSt.tx_lines st ++ [r]))
  end.

(** A row of the written table: [to_csv(..., index=False)] drops the
    index label and writes the geometry as text. *)
Definition csv_row (r : Part.row) : Tx.row string :=
  let f := Part.feature r in
  Tx.mk (Line.ID f) (Line.SHAPE_Leng f) (Line.VOLTAGE f) (Line.OWNER f)
        (wkt_dumps (Line.geometry f)) (Part.state r)
        (match Part.region r with Some n => n | None => "" end).

(** The frames that [tx_lines] refers to, as they are at this point. *)
Definition tx_frames (st : SplitSt.t) : list (list Part.row) :=
  map (SplitSt.deref st) (SplitSt.tx_lines st).

(** The loop of lines 73-95 alone. *)
Definition partition_loop (tmp_gdf : frame Line.row)
    (region_names : list string) (region_states : list (list string))
  : M SplitSt.t unit :=
  for_each (combine region_names region_states) (region_step tmp_gdf).

(** Lines 64-98, on the locals and the output directory.  [tmp_gdf] is the
    feature table after line 58, in the longitude/latitude frame; reading
    the shapefile and reprojecting it (lines 51-58) and creating the
    directory (lines 60-61) come before the log is opened and are not
    part of the embedding. *)
Definition split_body (current_time : string) (tmp_gdf : frame Line.row)
    (region_names : list string) (region_states : list (list string))
  : M SplitSt.t unit :=
  modify (SplitSt.on_files log_open) ;;;
  modify (SplitSt.on_files (log_write (start_line current_time))) ;;;
  modify (SplitSt.set_tx_lines []) ;;;
  partition_loop tmp_gdf region_names region_states ;;;
  st <- get ;;
  table <- lift (pd_concat (tx_frames st)) ;;
  modify (SplitSt.on_files (write_tx_lines (map csv_row table))) ;;;
  modify (SplitSt.on_files log_close).

(** [split_txlines_by_region(filepath, output_dir, region_names,
    region_states)]: [features] are the rows of the shapefile after the
    normalisation of lines 51-58, [fs] is [output_dir] before the call. *)
Definition split_txlines_by_region (current_time : string)
    (features : list Line.row)
    (region_names : list string) (region_states : list (list string))
    (fs : Files) : result unit * Files :=
  let out := split_body current_time (range_index features)
                        region_names region_states (SplitSt.init fs) in
  (fst out, SplitSt.files (snd out)).

(** The locals when the call has returned or raised. *)
Definition split_locals (current_time : string)
    (features : list Line.row)
    (region_names : list string) (region_states : list (list string))
    (fs : Files) : SplitSt.t :=
  snd (split_body current_time (range_index features)
                  region_names region_states (SplitSt.init fs)).

(** The table handed to [to_csv] when the loop has left the locals [st]. *)
Definition output_table (st : SplitSt.t) : list Part.row :=
  List.concat (tx_frames st).

(** Lines 79-83 together: the area of a declared state. *)
Definition resolve (state : string) : result geometry :=
  rbind (state_polygon state) valid_area_of.

(** The line [l] is contained by the area of [state]. *)
Definition contained_by (state : string) (l : Line.row) : bool :=
  match resolve state with
  | Ok area => contains area (Line.geometry l)
  | Raise _ => false
  end.

(** The frame [temp_df] of a state that resolves, after line 89: the
    rows of the input whose line the state contains, in input order,
    with the [state] column. *)
Definition state_rows (tmp_gdf : frame Line.row) (state : string) : list Part.row :=
  set_state state (filter (fun ir => contained_by state (snd ir)) tmp_gdf).

(** The rows of one region when each of its states is processed in turn
    and the result is given the region's name. *)
Definition region_rows (tmp_gdf : frame Line.row) (rs : string * list string)
  : list Part.row :=
  set_region (fst rs) (flat_map (state_rows tmp_gdf) (snd rs)).

(** What the loop writes to the log for one region, and for all. *)
Definition region_log (tmp_gdf : frame Line.row) (rs : string * list string)
  : list string :=
  region_header (fst rs)
  :: map (fun s => state_count_message s (List.length (state_rows tmp_gdf s)))
         (snd rs).

Definition partition_log (tmp_gdf : frame Line.row)
    (regions : list (string * list string)) : list string :=
  flat_map (region_log tmp_gdf) regions.

(** Every state of the list resolves to a Polygon or MultiPolygon. *)
Definition all_resolve (states : list string) : Prop :=
  Forall (fun s => is_ok (resolve s) = true) states.

End Code.

(* ------------------------------------------------------------------ *)
(** ** The two operations on a directory that may refuse a table       *)
(* ------------------------------------------------------------------ *)

(** [DataFrame.to_csv] opens its file and writes it, and the operating
    system can refuse either (a directory that has become read-only, a
    full disk).  [to_csv_error name fs] is the exception that [to_csv]
    raises when it is asked for the file [name] in the directory as it is
    in [fs], and [None] when the file gets written.  Everything else is
    as above; with a directory that never refuses, these are the
    operations of above. *)
Module Disk.

Section Disk.

Variable wkt_loads : string -> option geometry.
Variable wkt_dumps : geometry -> string.
Variable contains : geometry -> geometry -> bool.
Variable US_STATES : list UsState.row.
Variable to_csv_error : string -> Files -> option exn.

(** [frame.to_csv(os.path.join(output_dir, name), index=False)], [write]
    being what it does to the directory when it succeeds. *)
Definition to_csv {S} (files : S -> Files) (name : string) (write : S -> S)
  : M S unit :=
  fun st =>
    match to_csv_error name (files st) with
    | Some e => (Raise e, st)
    | None => (Ok tt, write st)
    end.

(** Lines 64-98: [to_csv] (lines 96-97) comes before [logf.close()]
    (line 98). *)
Definition split_body (current_time : string) (tmp_gdf : frame Line.row)
    (region_names : list string) (region_states : list (list string))
  : M SplitSt.t unit :=
  modify (SplitSt.on_files log_open) ;;;
  modify (SplitSt.on_files (log_write (start_line current_time))) ;;;
  modify (SplitSt.set_tx_lines []) ;;;
  partition_loop contains US_STATES tmp_gdf region_names region_states ;;;
  st <- get ;;
  table <- lift (pd_concat (tx_frames st)) ;;
  to_csv SplitSt.files "tx_lines.csv"
         (SplitSt.on_files (write_tx_lines (map (csv_row wkt_dumps) table))) ;;;
  modify (SplitSt.on_files log_close).

Definition split_txlines_by_region (current_time : string)
    (features : list Line.row)
    (region_names : list string) (region_states : list (list string))
    (fs : Files) : result unit * Files :=
  let out := split_body current_time (range_index features)
                        region_names region_states (SplitSt.init fs) in
  (fst out, SplitSt.files (snd out)).

(** Lines 111-153: [logf.close()] (line 150) comes before [to_csv]
    (lines 151-152). *)
Definition get_tower_coords_body (current_time : string)
    (csv : list (Tx.row string)) : M TowerSt.t (frame Tower.row) :=
  modify (TowerSt.on_files log_open) ;;;
  modify (TowerSt.on_files (log_write (start_line current_time))) ;;;
  df <- lift (loads_geometry wkt_loads csv) ;;
  let gdf := range_index df in
  for_each gdf tower_step ;;;
  modify (TowerSt.on_files log_close) ;;;
  st <- get ;;
  to_csv TowerSt.files "tower_coordinates.csv"
         (TowerSt.on_files
            (write_tower_coordinates (map snd (TowerSt.temp_df st)))) ;;;
  ret (TowerSt.temp_df st).

Definition get_tower_coords (current_time : string)
    (csv : list (Tx.row string)) (fs : Files)
  : result (frame Tower.row) * Files :=
  let out := get_tower_coords_body current_time csv (TowerSt.mk fs [] 0) in
  (fst out, TowerSt.files (snd out)).

End Disk.

(** The directory that never refuses, and one that refuses every
    table. *)
Definition writable (name : string) (fs : Files) : option exn := None.

Definition read_only (name : string) (fs : Files) : option exn :=
  Some (OSError "Read-only file system").

End Disk.

(** The two tables of the directory and the state of the log handle are
    the same in [fs] and [fs']. *)
Definition same_tables (fs fs' : Files) : Prop :=
  tx_lines_csv fs' = tx_lines_csv fs
  /\ tower_coordinates_csv fs' = tower_coordinates_csv fs
  /\ is_open (error_log fs') = is_open (error_log fs).

(** The exceptions of lines 79-83: no row for the state, or a geometry
    that is no (Multi)Polygon. *)
Definition resolve_error (e : exn) : Prop :=
  e = IndexError \/ exists t, e = ValueError "invalid polygon:" t.

(** What the reference table holds for a declared state, read off the
    table alone.  The state [s] has a polygon: the first row of the table
    that is named [s] holds a Polygon or a MultiPolygon. *)
Definition usable (US_STATES : list UsState.row) (s : string) : Prop :=
  exists pre r post,
    US_STATES = pre ++ r :: post
    /\ (forall r', In r' pre -> UsState.STATE_NAME r' <> s)
    /\ UsState.STATE_NAME r = s
    /\ (geom_type (UsState.geometry r) = "Polygon"
        \/ geom_type (UsState.geometry r) = "MultiPolygon").

(** The state [s] has none, and [e] is the exception that belongs to the
    case: no row of the table is named [s] (the [IndexError] of
    [.values[0]] on the empty selection), or the first row named [s] holds
    a geometry that is neither a Polygon nor a MultiPolygon (the
    [ValueError] of line 83, with the type of the geometry). *)
Inductive unusable (US_STATES : list UsState.row) (s : string) : exn -> Prop :=
| unknown_state :
    (forall r, In r US_STATES -> UsState.STATE_NAME r <> s) ->
    unusable US_STATES s IndexError
| invalid_polygon_type (pre : list UsState.row) (r : UsState.row)
                       (post : list UsState.row) :
    US_STATES = pre ++ r :: post ->
    (forall r', In r' pre -> UsState.STATE_NAME r' <> s) ->
    UsState.STATE_NAME r = s ->
    geom_type (UsState.geometry r) <> "Polygon" ->
    geom_type (UsState.geometry r) <> "MultiPolygon" ->
    unusable US_STATES s
      (ValueError "invalid polygon:" (geom_type (UsState.geometry r))).

(** Every reference held by the locals points into the heap. *)
Definition refs_valid (st : SplitSt.t) : Prop :=
  Forall (fun r => r < List.length (SplitSt.heap st)) (SplitSt.tx_lines st)
  /\ (forall r, SplitSt.region_df st = Some r ->
                r < List.length (SplitSt.heap st)).

(** A row without its [region] cell. *)
Definition erase (r : Part.row) : nat * Line.row * string :=
  (Part.index r, Part.feature r, Part.state r).

(* ------------------------------------------------------------------ *)
(** ** Concrete data for the examples                                  *)
(* ------------------------------------------------------------------ *)

Module Example.

(** A stand-in for shapely's [contains], exact on the axis-parallel
    rectangles used below: every vertex of the line lies in the bounding
    box of the polygon's shell. *)
Definition in_box (shell : ring) (c : coord) : bool :=
  existsb (fun v => Qle_bool (fst v) (fst c)) shell
  && existsb (fun v => Qle_bool (fst c) (fst v)) shell
  && existsb (fun v => Qle_bool (snd v) (snd c)) shell
  && existsb (fun v => Qle_bool (snd c) (snd v)) shell.

Definition box_contains (area line : geometry) : bool :=
  match area, line with
  | Polygon shell _, LineString cs => forallb (in_box shell) cs
  | _, _ => false
  end.

Definition square (x0 y0 x1 y1 : Q) : geometry :=
  Polygon [(x0, y0); (x1, y0); (x1, y1); (x0, y1); (x0, y0)] [].

(** Two states whose rectangles overlap on [5,10] x [0,10], and a row
    whose geometry is no polygon. *)
Definition states : list UsState.row :=
  [ UsState.mk "VT" (square 0 0 10 10);
    UsState.mk "NH" (square 5 0 15 10);
    UsState.mk "XX" (Point (0, 0)) ]%Q.

(** In VT only, 3 vertices. *)
Definition line1 : Line.row :=
  Line.mk 1 (Num.Fin 12.5) (Num.Fin 230) "OWNER A"
          (LineString [(1, 1); (2, 2); (3, 3)])%Q.
(** In VT and in NH. *)
Definition line2 : Line.row :=
  Line.mk 2 (Num.Fin 3) (Num.Fin 115) "OWNER B"
          (LineString [(6, 1); (7, 2)])%Q.
(** In no state. *)
Definition line3 : Line.row :=
  Line.mk 3 (Num.Fin 4) (Num.Fin 69) "OWNER C"
          (LineString [(20, 20); (21, 21)])%Q.

(** Well-known text, for the three geometries the examples use. *)
Definition dumps (g : geometry) : string :=
  match g with
  | LineString [(1#1, 1#1); (2#1, 2#1); (3#1, 3#1)] => "LINESTRING (1 1, 2 2, 3 3)"
  | LineString [(6#1, 1#1); (7#1, 2#1)] => "LINESTRING (6 1, 7 2)"
  | LineString [(20#1, 20#1); (21#1, 21#1)] => "LINESTRING (20 20, 21 21)"
  | _ => geom_type g
  end.

Definition loads (s : string) : option geometry :=
  if String.eqb s "LINESTRING (1 1, 2 2, 3 3)"
  then Some (LineString [(1, 1); (2, 2); (3, 3)])%Q
  else if String.eqb s "LINESTRING (6 1, 7 2)"
  then Some (LineString [(6, 1); (7, 2)])%Q
  else if String.eqb s "MULTILINESTRING ((0 0, 1 1), (2 2, 3 3))"
  then Some (MultiLineString [[(0, 0); (1, 1)]; [(2, 2); (3, 3)]])%Q
  else None.

Definition empty_dir : Files := mkFiles (mkLog [] [] false) None None.

(** Rows of a [tx_lines.csv]. *)
Definition tx1 : Tx.row string :=
  Tx.mk 1 (Num.Fin 12.5) (Num.Fin 230) "OWNER A"
        "LINESTRING (1 1, 2 2, 3 3)" "VT" "NE".
Definition tx2 : Tx.row string :=
  Tx.mk 7 (Num.Fin 9) (Num.Fin 345) "OWNER D"
        "MULTILINESTRING ((0 0, 1 1), (2 2, 3 3))" "NH" "NE".
Definition tx3 : Tx.row string :=
  Tx.mk 2 (Num.Fin 3) (Num.Fin 115) "OWNER B"
        "LINESTRING (6 1, 7 2)" "NH" "NE".
Definition tx_bad : Tx.row string :=
  Tx.mk 9 (Num.Fin 1) (Num.Fin 1) "OWNER E" "not a geometry" "NH" "NE".

(** A point table with a numeric and a string column. *)
Definition points : DataFrame :=
  mkDataFrame ["id"; "voltage"; "state"]
    [ (0, [("id", VInt 1); ("voltage", VNum (Num.Fin 230)); ("state", VStr "VT")]);
      (1, [("id", VInt 1); ("voltage", VNum (Num.Fin 115)); ("state", VStr "VT")]);
      (0, [("id", VInt 2); ("voltage", VNum Num.NaN); ("state", VStr "NH")]);
      (1, [("id", VInt 2); ("voltage", VNum (Num.Fin 345)); ("state", VStr "NH")]) ].

End Example.

(* ------------------------------------------------------------------ *)
(** ** The rest of [electric_tower_utils.py]: lines 27-36 and 51-61    *)
(* ------------------------------------------------------------------ *)

(** [gdf.crs]: the EPSG code that [to_epsg()] returns ([None] when pyproj
    finds none) and the abbreviations of [axis_info], in order. *)
Module Crs.
Record t : Type := mk {
  to_epsg : option Z;
  axis_info : list string
}.
End Crs.

(** A [GeoDataFrame] as [gpd.read_file] returns it: the reference frame,
    if the file has one, and the rows. *)
Module Gdf.
Record t : Type := mk {
  crs : option Crs.t;
  rows : list Line.row
}.
End Gdf.

(** Exceptions of the code added here: those of [exn], and any other
    Python exception by the name of its class and its message. *)
Inductive exn_ext : Type :=
| Core (e : exn)
| Other (class_name : string) (message : string).

Inductive outcome (A : Type) : Type :=
| Returned (a : A)
| Raised (e : exn_ext).

Arguments Returned {A} a.
Arguments Raised {A} e.

Definition returned {A} (o : outcome A) : bool :=
  match o with Returned _ => true | Raised _ => false end.

Definition of_result {A} (r : result A) : outcome A :=
  match r with Ok a => Returned a | Raise e => Raised (Core e) end.

(** Stateful code over [outcome]. *)
Definition X (S A : Type) : Type := S -> outcome A * S.

Definition retx {S A} (a : A) : X S A := fun s => (Returned a, s).

Definition bindx {S A B} (c : X S A) (k : A -> X S B) : X S B :=
  fun s =>
    match c s with
    | (Returned a, s') => k a s'
    | (Raised e, s') => (Raised e, s')
    end.

Definition liftx {S A} (o : outcome A) : X S A := fun s => (o, s).

Definition modifyx {S} (f : S -> S) : X S unit := fun s => (Returned tt, f s).

Definition getx {S} : X S S := fun s => (Returned s, s).

(** [try: c  except: pass] : whatever [c] raises is dropped, what [c] has
    done before raising stays done. *)
Definition try_pass {S} (c : X S unit) : X S unit :=
  fun s =>
    match c s with
    | (Returned _, s') => (Returned tt, s')
    | (Raised _, s') => (Returned tt, s')
    end.

(** [for x in xs: body(x)] *)
Fixpoint for_eachx {S A} (xs : list A) (body : A -> X S unit) : X S unit :=
  match xs with
  | [] => retx tt
  | x :: xs' => bindx (body x) (fun _ => for_eachx xs' body)
  end.

Declare Scope pyx_scope.
Delimit Scope pyx_scope with pyx.
Notation "x <-- c ;; k" := (bindx c (fun x => k))
  (at level 61, c at next level, right associativity) : pyx_scope.
Notation "c ;;;; k" := (bindx c (fun _ => k))
  (at level 61, right associativity) : pyx_scope.

(** A directory that [os.makedirs] has just created. *)
Definition fresh_dir : Files := mkFiles (mkLog [] [] false) None None.

Section Prelude.

Variable wkt_dumps : geometry -> string.
Variable contains : geometry -> geometry -> bool.
Variable US_STATES : list UsState.row.
(** [gdf.to_crs({'proj':'longlat','ellps':'WGS84','datum':'WGS84'})]: the
    rows reprojected from the frame [c], and the frame of the result. *)
Variable to_crs : Crs.t -> list Line.row -> list Line.row.
Variable longlat : Crs.t.

(** Lines 27-36.  [to_crs] raises on a frame without [crs]. *)
Definition convert_to_EPSG4326 (gdf : Gdf.t) : result Gdf.t :=
  match Gdf.crs gdf with
  | None =>
      Raise (ValueError
               "Cannot transform naive geometries.  Please set a crs on the object first."
               "")
  | Some c => Ok (Gdf.mk (Some longlat) (to_crs c (Gdf.rows gdf)))
  end.

(** The test of lines 55-56,
    [[
    not (crs.axis_info[0].abbrev == 'Lat') or (crs.axis_info[1].abbrev == 'Lon')
    ]]
    [not] binds tighter than [or], and [or] does not evaluate its right
    operand when the left one is true. *)
Definition conversion_test (c : Crs.t) : result bool :=
  match nth_error (Crs.axis_info c) 0 with
  | None => Raise IndexError
  | Some a0 =>
      if negb (String.eqb a0 "Lat") then Ok true
      else match nth_error (Crs.axis_info c) 1 with
           | None => Raise IndexError
           | Some a1 => Ok (String.eqb a1 "Lon")
           end
  end.

(** Lines 51-61: the table that reaches the loop.  [None] for [crs] makes
    [tmp_gdf.crs.to_epsg()] of line 53 raise. *)
Definition normalised (tmp_gdf : Gdf.t) : outcome Gdf.t :=
  match Gdf.crs tmp_gdf with
  | None =>
      Raised (Other "AttributeError"
                    "'NoneType' object has no attribute 'to_epsg'")
  | Some c =>
      match conversion_test c with
      | Raise e => Raised (Core e)
      | Ok true => of_result (convert_to_EPSG4326 tmp_gdf)
      | Ok false => Returned tmp_gdf
      end
  end.

(** [split_txlines_by_region(filepath, output_dir, region_names,
    region_states)] from its first line: [tmp_gdf] is what
    [gpd.read_file(filepath)] returns, [dir] is [output_dir] before the
    call, [None] when it does not exist. *)
Definition split_txlines_by_region_from_file (current_time : string)
    (tmp_gdf : Gdf.t)
    (region_names : list string) (region_states : list (list string))
    (dir : option Files) : outcome unit * option Files :=
  match normalised tmp_gdf with
  | Raised e => (Raised e, dir)
  | Returned gdf =>
      let fs := match dir with Some fs => fs | None => fresh_dir end in
      let out := split_txlines_by_region wkt_dumps contains US_STATES
                   current_time (Gdf.rows gdf) region_names region_states fs in
      (of_result (fst out), Some (snd out))
  end.

End Prelude.

(** The number of vertices a row adds to the tower table. *)
Definition vertex_count (row : Tx.row geometry) : nat :=
  match Tx.geometry row with
  | LineString cs => List.length cs
  | _ => 0
  end.

(** A row of the partition table as [get_tower_coords] has it after
    [read_csv] and [wkt.loads], when [read_csv] returns the cells that
    were written and the text of the geometry loads as that geometry. *)
Definition loaded_row (r : Part.row) : Tx.row geometry :=
  let f := Part.feature r in
  Tx.mk (Line.ID f) (Line.SHAPE_Leng f) (Line.VOLTAGE f) (Line.OWNER f)
        (Line.geometry f) (Part.state r)
        (match Part.region r with Some n => n | None => "" end).

(* ------------------------------------------------------------------ *)
(** ** [stack_and_format_images.py]                                    *)
(* ------------------------------------------------------------------ *)

Module Images.

(** [os.path.split(p)[-1]] on a POSIX path: what follows the last ['/']. *)
Fixpoint has_sep (p : string) : bool :=
  match p with
  | EmptyString => false
  | String c rest => Ascii.eqb c "/" || has_sep rest
  end.

Fixpoint path_tail (p : string) : string :=
  match p with
  | EmptyString => EmptyString
  | String c rest =>
      if has_sep rest then path_tail rest
      else if Ascii.eqb c "/" then rest
      else p
  end.

(** A [dict], and the files of a directory tree: [d[k] = v] replaces the
    value of a key that is there and appends a new key. *)
Fixpoint dict_set {V} (k : string) (v : V) (d : list (string * V))
  : list (string * V) :=
  match d with
  | [] => [(k, v)]
  | (k', v') :: d' =>
      if String.eqb k' k then (k, v) :: d' else (k', v') :: dict_set k v d'
  end.

Fixpoint dict_get {V} (k : string) (d : list (string * V)) : option V :=
  match d with
  | [] => None
  | (k', v') :: d' => if String.eqb k' k then Some v' else dict_get k d'
  end.

(** The crop box of lines 54-57, [(left, top, right, bottom)].  The
    operands are Python ints and [/] is the true division, so the
    coordinates are integers or half-integers; they are exact as floats
    and are taken as rationals. *)
Definition crop_box (width height : Z) (new_squared_size : Z)
    (hshift vshift : Z) : Q * Q * Q * Q :=
  let new_width := new_squared_size in
  let new_height := new_width in
  let left := (inject_Z (width - new_width) / 2 + inject_Z hshift)%Q in
  let top := (inject_Z (height - new_height) / 2 + inject_Z vshift)%Q in
  let right := (inject_Z (width + new_width) / 2 + inject_Z hshift)%Q in
  let bottom := (inject_Z (height + new_height) / 2 + inject_Z vshift)%Q in
  (left, top, right, bottom).

Definition box_left (b : Q * Q * Q * Q) : Q := fst (fst (fst b)).
Definition box_top (b : Q * Q * Q * Q) : Q := snd (fst (fst b)).
Definition box_right (b : Q * Q * Q * Q) : Q := snd (fst b).
Definition box_bottom (b : Q * Q * Q * Q) : Q := snd b.

(** The arguments of the command line that the loop reads. *)
Record Args : Type := mkArgs {
  out_dir : string;
  meta_file : string;
  image_size : Z;
  random_crop : bool;
  rdist : Z
}.

Section Lib.

(** A PIL image, [img.size] = (width, height), and [img.crop(box)], which
    accepts a box that leaves the image. *)
Variable Image : Type.
Variable size : Image -> Z * Z.
Variable crop : Image -> Q * Q * Q * Q -> Image.

(** The state of the module [random], and what [randint(a, b)] returns on
    a range that is not empty together with the next state. *)
Variable rng : Type.
Variable draw : rng -> Z -> Z -> Z * rng.

(** [random.randint(a, b)] *)
Definition randint (a b : Z) : M rng Z :=
  fun g =>
    if (a <=? b)%Z
    then (Ok (fst (draw g a b)), snd (draw g a b))
    else (Raise (ValueError "empty range for randrange()" ""), g).

(** Lines 47-51. *)
Definition shifts (random_crop : bool) (rdist : Z) : M rng (Z * Z) :=
  if random_crop then
    (hshift <- randint (- rdist) rdist ;;
     vshift <- randint (- rdist) rdist ;;
     ret (hshift, vshift))%py
  else ret (0%Z, 0%Z).

(** Lines 35-59. *)
Definition crop_image (img : Image) (new_squared_size : Z)
    (random_crop : bool) (rdist : Z) : M rng Image :=
  (hv <- shifts random_crop rdist ;;
   ret (crop img (crop_box (fst (size img)) (snd (size img)) new_squared_size
                           (fst hv) (snd hv))))%py.

(** An array as [imread] returns it, the stacked array, the metadata of
    a raster. *)
Variable band : Type.
Variable array : Type.
Variable meta : Type.

(** The library calls, each of which may raise: [imread(path)],
    [np.stack(bands, -1)], [Image.fromarray(a)], [rasterio.open(path)]
    read as ([src.meta], [src.res]). *)
Variable imread : string -> outcome band.
Variable np_stack : list band -> outcome array.
Variable fromarray : array -> outcome Image.
Variable rasterio_open : string -> outcome (meta * (Q * Q)).

(** A written file. *)
Inductive blob : Type :=
| Jpeg (img : Image)                      (* [img.save(path)]           *)
| JpegBand (b : band)                     (* [imsave(path, b)]          *)
| Pickle (d : list (string * (meta * Q * Q))) (* [pickle.dump(d, f)]    *).

(** The file system as the script sees it: the paths [os.path.exists]
    answers True for, and the files written. *)
Record World : Type := mkWorld {
  existing : list string;
  written : list (string * blob)
}.

(** Writing to the file system may fail, depending on its state:
    [img.save(path)], [imsave(path, b)], [os.makedirs(path)],
    [open(path, 'wb')].  [None]: the call succeeds. *)
Variable save_error : World -> string -> Image -> option exn_ext.
Variable imsave_error : World -> string -> band -> option exn_ext.
Variable makedirs_error : World -> string -> option exn_ext.
Variable open_error : World -> string -> option exn_ext.

(** The globals of the script that change. *)
Record State : Type := mkState {
  world : World;
  gen : rng;
  meta_dict : list (string * (meta * Q * Q))
}.

Definition exists_ (path : string) (st : State) : bool :=
  existsb (String.eqb path) (existing (world st)).

Definition write_file (path : string) (b : blob) (st : State) : State :=
  mkState (mkWorld (existing (world st)) (dict_set path b (written (world st))))
          (gen st) (meta_dict st).

(** Lines 20-24: the three bands are read in the order R, G, B. *)
Definition stack_RGB_bands (directory : string) : outcome array :=
  match imread (directory ++ "/download.R.tif") with
  | Raised e => Raised e
  | Returned r =>
      match imread (directory ++ "/download.G.tif") with
      | Raised e => Raised e
      | Returned g =>
          match imread (directory ++ "/download.B.tif") with
          | Raised e => Raised e
          | Returned b => np_stack [r; g; b]
          end
      end
  end.

(** Lines 27-32. *)
Definition read_tiff_meta (geotiff_path : string) : outcome (meta * Q * Q) :=
  match rasterio_open geotiff_path with
  | Raised e => Raised e
  | Returned src => Returned (fst src, fst (snd src), snd (snd src))
  end.

Local Open Scope pyx_scope.

Definition makedirs (path : string) : X State unit :=
  fun st =>
    match makedirs_error (world st) path with
    | Some e => (Raised e, st)
    | None =>
        (Returned tt,
         mkState (mkWorld (existing (world st) ++ [path]) (written (world st)))
                 (gen st) (meta_dict st))
    end.

Definition save (img : Image) (path : string) : X State unit :=
  fun st =>
    match save_error (world st) path img with
    | Some e => (Raised e, st)
    | None => (Returned tt, write_file path (Jpeg img) st)
    end.

Definition imsave (path : string) (b : band) : X State unit :=
  fun st =>
    match imsave_error (world st) path b with
    | Some e => (Raised e, st)
    | None => (Returned tt, write_file path (JpegBand b) st)
    end.

(** [crop_image] on the generator of the script. *)
Definition crop_image_x (img : Image) (a : Args) : X State Image :=
  fun st =>
    let out := crop_image img (image_size a) (random_crop a) (rdist a) (gen st) in
    (of_result (fst out), mkState (world st) (snd out) (meta_dict st)).

(** Lines 109-116, inside the [try]. *)
Definition infrared (a : Args) (directory filename : string) : X State unit :=
  st <-- getx ;;
  (if negb (exists_ (out_dir a ++ "/infrared") st)
   then makedirs (out_dir a ++ "/infrared")
   else retx tt) ;;;;
  b <-- liftx (imread (directory ++ "/download.N.tif")) ;;
  imsave (out_dir a ++ "/infrared" ++ "/" ++ filename ++ "_N.jpg") b.

(** The body of the loop, lines 99-119. *)
Definition process (a : Args) (directory : string) : X State unit :=
  img <-- liftx (stack_RGB_bands directory) ;;
  img <-- liftx (fromarray img) ;;
  img <-- crop_image_x img a ;;
  let filename := path_tail directory in
  save img (out_dir a ++ "/" ++ filename ++ ".jpg") ;;;;
  try_pass (infrared a directory filename) ;;;;
  m <-- liftx (read_tiff_meta (directory ++ "/download.R.tif")) ;;
  modifyx (fun st => mkState (world st) (gen st)
                             (dict_set filename m (meta_dict st))).

(** Lines 122-123. *)
Definition dump_meta (a : Args) : X State unit :=
  fun st =>
    match open_error (world st) (meta_file a) with
    | Some e => (Raised e, st)
    | None => (Returned tt, write_file (meta_file a) (Pickle (meta_dict st)) st)
    end.

(** The script from line 88 on: [img_dirs] is what
    [glob("{}/*".format(args.in_dir))] returns. *)
Definition main (a : Args) (img_dirs : list string) : X State unit :=
  modifyx (fun st => mkState (world st) (gen st) []) ;;;;
  st <-- getx ;;
  (if negb (exists_ (out_dir a) st) then makedirs (out_dir a) else retx tt) ;;;;
  for_eachx img_dirs (process a) ;;;;
  dump_meta a.

End Lib.

End Images.

(** Concrete library stand-ins for the examples: an image is its size,
    [crop] gives the size of the box when its corners are integers, the
    generator is a counter and [randint(a, b)] returns [a]. *)
Module ImagesExample.

Definition Image : Type := (Z * Z)%type.
Definition size (img : Image) : Z * Z := img.
Definition floor (q : Q) : Z := (Qnum q / Z.pos (Qden q))%Z.
Definition crop (img : Image) (b : Q * Q * Q * Q) : Image :=
  (floor (Images.box_right b - Images.box_left b),
   floor (Images.box_bottom b - Images.box_top b)).
Definition draw (g : nat) (a b : Z) : Z * nat := (a, S g).

(** Directories ["in/a"] and ["in/b"] have the three bands and a raster
    header; only ["in/a"] has an infrared band; ["in/c"] has no red
    band. *)
Definition imread (path : string) : outcome nat :=
  if existsb (String.eqb path)
       ["in/a/download.R.tif"; "in/a/download.G.tif"; "in/a/download.B.tif";
        "in/a/download.N.tif";
        "in/b/download.R.tif"; "in/b/download.G.tif"; "in/b/download.B.tif";
        "in/c/download.G.tif"; "in/c/download.B.tif"]
  then Returned (String.length path)
  else Raised (Other "FileNotFoundError" path).
Definition np_stack (bands : list nat) : outcome (list nat) := Returned bands.
Definition fromarray (a : list nat) : outcome Image := Returned (2000, 1500)%Z.
Definition rasterio_open (path : string) : outcome (string * (Q * Q)) :=
  if existsb (String.eqb path) ["in/a/download.R.tif"; "in/b/download.R.tif"]
  then Returned (path, (0.6, 0.6)%Q)
  else Raised (Other "RasterioIOError" path).

Definition no_error {A B C : Type} (w : A) (p : B) (x : C) : option exn_ext := None.
Definition no_error2 {A B : Type} (w : A) (p : B) : option exn_ext := None.

Definition args : Images.Args :=
  Images.mkArgs "images/JPG" "images/meta.pkl" 1300 false 70.

End ImagesExample.

(* ------------------------------------------------------------------ *)
(** ** Notions used to state further properties                        *)
(* ------------------------------------------------------------------ *)

(** The cell is a number other than NaN. *)
Definition is_number (v : cell) : bool :=
  match as_float v with
  | Ok Num.NaN => false
  | Ok _ => true
  | Raise _ => false
  end.

(** The row [r] of a frame of the partition comes from the input [gdf] and
    carries a state that contains its line. *)
Definition row_contained (contains : geometry -> geometry -> bool)
    (US_STATES : list UsState.row) (gdf : frame Line.row) (r : Part.row) : Prop :=
  In (Part.index r, Part.feature r) gdf
  /\ contained_by contains US_STATES (Part.state r) (Part.feature r) = true.

(** Every frame of the heap and of [region_list] holds contained rows
    only. *)
Definition frames_contained (contains : geometry -> geometry -> bool)
    (US_STATES : list UsState.row) (gdf : frame Line.row) (st : SplitSt.t)
  : Prop :=
  Forall (Forall (row_contained contains US_STATES gdf)) (SplitSt.heap st)
  /\ Forall (Forall (row_contained contains US_STATES gdf))
            (SplitSt.region_list st).

(** The number of input lines that the states of the regions contain,
    counted per declared state. *)
Definition contained_count (contains : geometry -> geometry -> bool)
    (US_STATES : list UsState.row) (features : list Line.row)
    (regions : list (string * list string)) : nat :=
  list_sum
    (map (fun rs =>
            list_sum
              (map (fun s =>
                      List.length
                        (filter (contained_by contains US_STATES s) features))
                   (snd rs)))
         regions).

(** Every state declared in the regions contains at least one of the
    lines.  Then no frame of lines 84-89 is left without rows: a frame
    gets the columns of the input from the rows appended to it, a frame
    without rows has the column [state] alone and, concatenated with the
    others, turns their integer column into floats, and a table without
    any row is written under the header [state,region]. *)
Definition every_state_has_a_line (contains : geometry -> geometry -> bool)
    (US_STATES : list UsState.row) (features : list Line.row)
    (regions : list (string * list string)) : Prop :=
  Forall (fun rs =>
            Forall (fun s =>
                      exists l, In l features
                                /\ contained_by contains US_STATES s l = true)
                   (snd rs))
         regions.

(** The box lies in the image of the given size. *)
Definition inside_image (width height : Z) (b : Q * Q * Q * Q) : Prop :=
  (0 <= Images.box_left b /\ Images.box_right b <= inject_Z width
   /\ 0 <= Images.box_top b /\ Images.box_bottom b <= inject_Z height)%Q.

(** No pickle is in [w] that was not in [w0]. *)
Definition no_new_pickle {Image band meta : Type}
    (w0 w : Images.World Image band meta) : Prop :=
  forall p d,
    Images.dict_get p (Images.written w) = Some (Images.Pickle Image band d) ->
    Images.dict_get p (Images.written w0) = Some (Images.Pickle Image band d).

(** The dictionary that the assignments of line 119 build, directory after
    directory, from the rasters that can be read. *)
Definition metas_of {meta : Type}
    (rasterio_open : string -> outcome (meta * (Q * Q)))
    (img_dirs : list string) : list (string * (meta * Q * Q)) :=
  fold_left
    (fun d directory =>
       match Images.read_tiff_meta rasterio_open
               (directory ++ "/download.R.tif") with
       | Returned m => Images.dict_set (Images.path_tail directory) m d
       | Raised _ => d
       end)
    img_dirs [].

(** More concrete data for the examples. *)
Module Example2.

(** [Example.points] restricted to a voltage in [115, 230]. *)
Definition points_115_230 : DataFrame :=
  mkDataFrame ["id"; "voltage"; "state"]
    [ (0, [("id", VInt 1); ("voltage", VNum (Num.Fin 230)); ("state", VStr "VT")]);
      (1, [("id", VInt 1); ("voltage", VNum (Num.Fin 115)); ("state", VStr "VT")]) ].

(** A table whose column ["id"] is an int64 column that holds
    [2^53 + 1]. *)
Definition big_ids : DataFrame :=
  mkDataFrame ["id"] [ (0, [("id", VInt 9007199254740993)]) ].

Definition crs_latlon : Crs.t := Crs.mk (Some 4326%Z) ["Lat"; "Lon"].

(** A stand-in for the reprojection: it moves every LineString by one
    unit to the east. *)
Definition to_crs (c : Crs.t) (rows : list Line.row) : list Line.row :=
  map (fun r =>
         Line.mk (Line.ID r) (Line.SHAPE_Leng r) (Line.VOLTAGE r) (Line.OWNER r)
                 (match Line.geometry r with
                  | LineString cs =>
                      LineString (map (fun c => (fst c + 1, snd c)%Q) cs)
                  | g => g
                  end))
      rows.

Definition gdf_without_crs : Gdf.t := Gdf.mk None [Example.line1].
Definition gdf_latlon : Gdf.t := Gdf.mk (Some crs_latlon) [Example.line1].

(** The script's state before the first line: nothing exists, nothing is
    written, the generator is at 0. *)
Definition script_start
  : Images.State ImagesExample.Image nat nat string :=
  Images.mkState (Images.mkWorld [] []) 0 [].

Definition jitter_args : Images.Args :=
  Images.mkArgs "images/JPG" "images/meta.pkl" 1300 true 70.

End Example2.

(* ================================================================== *)
(** * Properties                                                       *)
(* ================================================================== *)

Unset Implicit Arguments.

(* ------------------------------------------------------------------ *)
(** ** The order on numbers                                            *)
(* ------------------------------------------------------------------ *)

Lemma num_leb_antisym a b :
  Num.leb a b = true -> Num.leb b a = true -> Num.eqb a b = true.
Proof.
  destruct a as [| |p|], b as [| |q|]; simpl; try congruence.
  intros H1 H2. apply Qle_bool_iff in H1, H2.
  apply Qeq_bool_iff. now apply Qle_antisym.
Qed.

Lemma num_leb_trans a b c :
  Num.leb a b = true -> Num.leb b c = true -> Num.leb a c = true.
Proof.
  destruct a as [| |p|], b as [| |q|], c as [| |r|]; simpl; try congruence.
  intros H1 H2. apply Qle_bool_iff in H1, H2.
  apply Qle_bool_iff. now apply Qle_trans with q.
Qed.

Lemma num_eqb_leb a b :
  Num.eqb a b = true -> Num.leb a b = true /\ Num.leb b a = true.
Proof.
  destruct a as [| |p|], b as [| |q|]; simpl; try congruence; auto.
  intros H. apply Qeq_bool_iff in H.
  split; apply Qle_bool_iff; rewrite H; apply Qle_refl.
Qed.

(** Between [a <= b <= c], being in [[a,b]] and in [[b,c]] is being
    equal to [b]. *)
Lemma between_eqb a b c n :
  Num.leb a b = true -> Num.leb b c = true ->
  (Num.geb n a && Num.leb n b) && (Num.geb n b && Num.leb n c) = Num.eqb n b.
Proof.
  intros Hab Hbc. unfold Num.geb.
  destruct (Num.eqb n b) eqn:E.
  - destruct (num_eqb_leb _ _ E) as [Hnb Hbn].
    rewrite Hnb, Hbn.
    rewrite (num_leb_trans _ _ _ Hab Hbn), (num_leb_trans _ _ _ Hnb Hbc).
    reflexivity.
  - destruct (Num.leb n b) eqn:Hnb; [|now rewrite andb_false_r].
    destruct (Num.leb b n) eqn:Hbn; [|now rewrite andb_false_r].
    rewrite (num_leb_antisym _ _ Hnb Hbn) in E. discriminate.
Qed.

(* ------------------------------------------------------------------ *)
(** ** [df_subset]                                                     *)
(* ------------------------------------------------------------------ *)

Section SubsetFacts.

Variable f : string.


Lemma series_ge_numeric lo l :
  numeric_rows f l ->
  series_ge (map (cell_of f) l) lo
  = Ok (map (fun r => match as_float (cell_of f r) with
                      | Ok n => Num.geb n lo
                      | Raise _ => false
                      end) l).
Proof.
  unfold series_ge. induction 1 as [|r l [n Hn] _ IH]; simpl; [reflexivity|].
  unfold cell_ge at 1. unfold cell_of at 1 3. rewrite Hn. simpl.
  rewrite IH. reflexivity.
Qed.

Lemma series_le_numeric hi l :
  numeric_rows f l ->
  series_le (map (cell_of f) l) hi
  = Ok (map (fun r => match as_float (cell_of f r) with
                      | Ok n => Num.leb n hi
                      | Raise _ => false
                      end) l).
Proof.
  unfold series_le. induction 1 as [|r l [n Hn] _ IH]; simpl; [reflexivity|].
  unfold cell_le at 1. unfold cell_of at 1 3. rewrite Hn. simpl.
  rewrite IH. reflexivity.
Qed.

(** A comparison that returns has met numbers only. *)
Lemma series_ge_ok lo l m :
  series_ge (map (cell_of f) l) lo = Ok m -> numeric_rows f l.
Proof.
  unfold series_ge. revert m. induction l as [|r l IH]; intros m H.
  - constructor.
  - simpl in H. unfold cell_ge at 1 in H.
    destruct (as_float (cell_of f r)) as [n|e] eqn:Hc; simpl in H;
      [|discriminate].
    destruct (map_result (cell_ge lo) (map (cell_of f) l)) eqn:Hl; simpl in H;
      [|discriminate].
    constructor; [exists n; exact Hc | eapply IH; reflexivity].
Qed.

Lemma select_masks {A} (p q : A -> bool) (l : list A) :
  select l (series_and (map p l) (map q l)) = filter (fun r => p r && q r) l.
Proof.
  unfold series_and. induction l as [|x l IH]; simpl; [reflexivity|].
  rewrite IH. reflexivity.
Qed.

Lemma select_map {A} (p : A -> bool) (l : list A) :
  select l (map p l) = filter p l.
Proof.
  induction l as [|x l IH]; simpl; [reflexivity|]. now rewrite IH.
Qed.

Lemma in_range_masks lo hi (l : list (nat * record)) :
  filter (fun r =>
            match as_float (cell_of f r) with
            | Ok n => Num.geb n lo | Raise _ => false end
            && match as_float (cell_of f r) with
               | Ok n => Num.leb n hi | Raise _ => false end) l
  = filter (in_range f lo hi) l.
Proof.
  apply filter_ext. intros r. unfold in_range, cell_of.
  destruct (as_float (record_get f (snd r))); reflexivity.
Qed.

Lemma has_column_In (df : DataFrame) : has_column df f = true <-> In f (columns df).
Proof.
  unfold has_column. rewrite existsb_exists. split.
  - intros [x [Hx E]]. apply String.eqb_eq in E. now subst.
  - intros H. exists f. split; [exact H | apply String.eqb_refl].
Qed.

(** On a numeric column the filter returns, and what it returns is the
    rows in range, in order. *)
Lemma df_subset_numeric df lo hi :
  In f (columns df) -> numeric_column df f ->
  df_subset df f lo hi
  = Ok (mkDataFrame (columns df) (filter (in_range f lo hi) (rows df))).
Proof.
  intros Hin Hnum. unfold df_subset, getitem.
  apply has_column_In in Hin. rewrite Hin. simpl.
  unfold column_values.
  rewrite (series_ge_numeric lo _ Hnum). simpl.
  rewrite (series_le_numeric hi _ Hnum). simpl.
  unfold loc. rewrite select_masks, in_range_masks. reflexivity.
Qed.

(** When the filter returns, the column exists and is numeric. *)
Lemma df_subset_ok df lo hi t :
  df_subset df f lo hi = Ok t -> In f (columns df) /\ numeric_column df f.
Proof.
  unfold df_subset, getitem. intros H.
  destruct (has_column df f) eqn:Hc; simpl in H; [|discriminate].
  split; [now apply has_column_In|].
  unfold column_values in H.
  destruct (series_ge (map (cell_of f) (rows df)) lo) eqn:Hge; simpl in H;
    [|discriminate].
  eapply series_ge_ok. exact Hge.
Qed.

Lemma filter_idem {A} (p : A -> bool) (l : list A) :
  filter p (filter p l) = filter p l.
Proof.
  induction l as [|x l IH]; simpl; [reflexivity|].
  destruct (p x) eqn:E; simpl; [rewrite E, IH|]; auto.
Qed.

Lemma filter_filter {A} (p q : A -> bool) (l : list A) :
  filter q (filter p l) = filter (fun x => p x && q x) l.
Proof.
  induction l as [|x l IH]; simpl; [reflexivity|].
  destruct (p x); simpl; [destruct (q x); now rewrite IH | exact IH].
Qed.

Lemma numeric_filter (p : nat * record -> bool) l :
  numeric_rows f l -> numeric_rows f (filter p l).
Proof.
  unfold numeric_rows. rewrite !Forall_forall. intros H r Hr.
  apply filter_In in Hr. apply H. tauto.
Qed.

End SubsetFacts.

(** C8.  [df_subset] is idempotent.  For every table [df], attribute [f]
    and bounds, filtering the result of the filter again with the same
    attribute and bounds behaves exactly as the single application (first
    conjunct, exceptions included); and when [f] is a column of [df] that
    holds numbers, the single application returns a table [t] and the
    second application returns the identical table [t].  No relation
    between the bounds is needed, so this holds in particular for
    [min_value <= max_value]. *)
Theorem df_subset_idempotent (df : DataFrame) (f : string) (lo hi : Num.num) :
  rbind (df_subset df f lo hi) (fun t => df_subset t f lo hi)
  = df_subset df f lo hi
  /\ (In f (columns df) -> numeric_column df f ->
      exists t, df_subset df f lo hi = Ok t /\ df_subset t f lo hi = Ok t).
Proof.
  assert (Hnum : In f (columns df) -> numeric_column df f ->
      exists t, df_subset df f lo hi = Ok t /\ df_subset t f lo hi = Ok t).
  { intros Hin Hn. eexists. split; [apply df_subset_numeric; assumption|].
    rewrite df_subset_numeric; simpl.
    - now rewrite filter_idem.
    - exact Hin.
    - apply numeric_filter. exact Hn. }
  split; [|exact Hnum].
  destruct (df_subset df f lo hi) as [t|e] eqn:E; simpl; [|reflexivity].
  destruct (df_subset_ok _ _ _ _ _ E) as [Hin Hn].
  destruct (Hnum Hin Hn) as [t' [E1 E2]]. congruence.
Qed.

Lemma series_ge_not_comparable f lo (l : list (nat * record)) :
  forallb comparable (map (cell_of f) l) = false ->
  series_ge (map (cell_of f) l) lo = Raise TypeError.
Proof.
  unfold series_ge. induction l as [|r l IH]; intros H; [discriminate|].
  simpl in H |- *. unfold cell_ge at 1. unfold comparable at 1 in H.
  destruct (cell_of f r) as [n|z|s0]; simpl in H |- *;
    try (rewrite (IH H); reflexivity).
  reflexivity.
Qed.

Lemma forallb_comparable_numeric f (l : list (nat * record)) :
  forallb comparable (map (cell_of f) l) = true -> numeric_rows f l.
Proof.
  unfold numeric_rows. induction l as [|r l IH]; intros H; [constructor|].
  simpl in H. apply andb_true_iff in H. destruct H as [Hr Hl].
  constructor; [|now apply IH].
  unfold comparable, cell_of in Hr.
  destruct (as_float (record_get f (snd r))) as [n|e]; [eauto | discriminate].
Qed.

(** C9.  Composition law, as the code has it.  For a table [df], a column
    [f] of its schema and float bounds [a <= b <= c], filtering by [[a,b]]
    and then by [[b,c]] raises [TypeError] when the column holds a string,
    and otherwise returns the table with the schema of [df] whose rows
    are, in order and with their index labels, exactly the rows of [df]
    for which [df[f] == b] holds.  That is: a float cell equal to [b]; an
    integer cell whose conversion to float64 equals [b], the conversion
    being the integer itself up to [2^53] in absolute value; no string
    cell. *)
Theorem df_subset_compose (df : DataFrame) (f : string) (a b c : Num.num) :
  In f (columns df) ->
  Num.leb a b = true -> Num.leb b c = true ->
  rbind (df_subset df f a b) (fun t => df_subset t f b c)
  = (if forallb comparable (column_values df f)
     then Ok (mkDataFrame (columns df)
                (filter (fun r => cell_eq b (cell_of f r)) (rows df)))
     else Raise TypeError)
  /\ (forall n, cell_eq b (VNum n) = Num.eqb n b)
  /\ (forall z, cell_eq b (VInt z)
                = Num.eqb (Num.Fin (inject_Z (Num.float64_of_int z))) b)
  /\ (forall z, (Z.abs z <= 2 ^ 53)%Z -> Num.float64_of_int z = z)
  /\ (forall s, cell_eq b (VStr s) = false).
Proof.
  intros Hin Hab Hbc. split; [|split; [|split; [|split]]]; try reflexivity.
  - unfold column_values.
    destruct (forallb comparable (map (cell_of f) (rows df))) eqn:Hc.
    + pose proof (forallb_comparable_numeric f _ Hc) as Hnum.
      rewrite (df_subset_numeric f df a b Hin Hnum). simpl.
      rewrite df_subset_numeric; simpl;
        [|exact Hin|apply numeric_filter; exact Hnum].
      rewrite filter_filter. do 2 f_equal.
      apply filter_ext_in. intros r Hr.
      unfold numeric_rows in Hnum. rewrite Forall_forall in Hnum.
      destruct (Hnum r Hr) as [n Hn].
      unfold in_range, cell_eq, cell_of. rewrite Hn. now apply between_eqb.
    + unfold df_subset, getitem. apply has_column_In in Hin. rewrite Hin.
      simpl. unfold column_values.
      rewrite (series_ge_not_comparable f a _ Hc). reflexivity.
  - intros z Hz. unfold Num.float64_of_int.
    apply Z.leb_le in Hz. rewrite Hz. reflexivity.
Qed.

(* ------------------------------------------------------------------ *)
(** ** Loops, the log file                                             *)
(* ------------------------------------------------------------------ *)


Lemma combine_app_eq {A B} (l1 l2 : list A) (m1 m2 : list B) :
  List.length l1 = List.length m1 ->
  combine (l1 ++ l2) (m1 ++ m2) = combine l1 m1 ++ combine l2 m2.
Proof.
  revert m1. induction l1 as [|a l1 IH]; intros [|b m1] H; simpl in *;
    try discriminate; [reflexivity|].
  now rewrite IH by lia.
Qed.

Lemma indexed_from_app {A} (k : nat) (xs ys : list A) :
  indexed_from k (xs ++ ys)
  = indexed_from k xs ++ indexed_from (k + List.length xs) ys.
Proof.
  unfold indexed_from. rewrite length_app, seq_app.
  apply combine_app_eq. apply length_seq.
Qed.

Lemma indexed_from_cons {A} (k : nat) (x : A) (xs : list A) :
  indexed_from k (x :: xs) = (k, x) :: indexed_from (S k) xs.
Proof. reflexivity. Qed.

Lemma map_snd_indexed_from {A} (k : nat) (xs : list A) :
  map snd (indexed_from k xs) = xs.
Proof.
  revert k. induction xs as [|x xs IH]; intros k; [reflexivity|].
  rewrite indexed_from_cons. simpl. now rewrite IH.
Qed.

Lemma log_lines_app msgs1 msgs2 fs :
  log_lines (msgs1 ++ msgs2) fs = log_lines msgs2 (log_lines msgs1 fs).
Proof. unfold log_lines. apply fold_left_app. Qed.

(** After the messages [msgs], each flushed, a [close] leaves everything
    written on disk. *)
Lemma log_close_lines msgs fs :
  log_close (log_lines msgs fs)
  = mkFiles (mkLog (on_disk (error_log fs) ++ buffered (error_log fs) ++ msgs)
                   [] false)
            (tx_lines_csv fs) (tower_coordinates_csv fs).
Proof.
  revert fs. induction msgs as [|m msgs IH]; intros fs.
  - simpl. unfold log_close. now rewrite app_nil_r.
  - change (log_lines (m :: msgs) fs)
      with (log_lines msgs (log_flush (log_write m fs))).
    rewrite IH. simpl. now rewrite <- !app_assoc.
Qed.

Lemma combine_fst_snd {A B} (l : list (A * B)) :
  combine (map fst l) (map snd l) = l.
Proof.
  induction l as [|[a b] l IH]; simpl; [reflexivity|]. now rewrite IH.
Qed.

(* ------------------------------------------------------------------ *)
(** ** [get_tower_coords]                                              *)
(* ------------------------------------------------------------------ *)

Lemma geom_type_LineString g :
  String.eqb (geom_type g) "LineString" = true <-> exists cs, g = LineString cs.
Proof.
  split.
  - destruct g; simpl; try discriminate. intros _. eauto.
  - intros [cs ->]. reflexivity.
Qed.

(** One turn of the loop never raises; it appends the points of the row,
    or writes and flushes the row's skip line. *)
Lemma tower_step_run ir st :
  tower_step ir st
  = (Ok tt, TowerSt.mk (log_lines (row_skips ir) (TowerSt.files st))
                       (TowerSt.temp_df st ++ row_points (snd ir))
                       (TowerSt.pbar st + 1)).
Proof.
  destruct ir as [index row]. destruct st as [fs df n].
  unfold tower_step, row_skips, row_points. simpl.
  destruct (Tx.geometry row) eqn:G; cbn; rewrite ?app_nil_r; try reflexivity.
  unfold tower_frame. now rewrite combine_fst_snd.
Qed.

Lemma tower_loop_run irs st :
  for_each irs tower_step st
  = (Ok tt,
     TowerSt.mk (log_lines (flat_map row_skips irs) (TowerSt.files st))
                (TowerSt.temp_df st ++ flat_map (fun ir => row_points (snd ir)) irs)
                (TowerSt.pbar st + List.length irs)).
Proof.
  revert st. induction irs as [|ir irs IH]; intros st.
  - destruct st. simpl. unfold ret. now rewrite app_nil_r, Nat.add_0_r.
  - simpl. unfold bind. rewrite tower_step_run, IH. simpl.
    rewrite log_lines_app, <- app_assoc, <- Nat.add_assoc. reflexivity.
Qed.

Lemma flat_map_row_points_indexed k (df : list (Tx.row geometry)) :
  flat_map (fun ir => row_points (snd ir)) (indexed_from k df)
  = flat_map row_points df.
Proof.
  rewrite <- (map_snd_indexed_from k df) at 2.
  rewrite !flat_map_concat_map, map_map. reflexivity.
Qed.

Section TowerFacts.

Variable wkt_loads : string -> option geometry.

Lemma loads_geometry_app pre post pre' post' :
  loads_geometry wkt_loads pre = Ok pre' ->
  loads_geometry wkt_loads post = Ok post' ->
  loads_geometry wkt_loads (pre ++ post) = Ok (pre' ++ post').
Proof.
  unfold loads_geometry. revert pre'.
  induction pre as [|r pre IH]; intros pre' Hpre Hpost; simpl in *.
  - injection Hpre as <-. exact Hpost.
  - destruct (loads_row wkt_loads r); simpl in *; [|discriminate].
    destruct (map_result (loads_row wkt_loads) pre); simpl in *; [|discriminate].
    injection Hpre as <-. now rewrite (IH _ eq_refl Hpost).
Qed.

Lemma loads_geometry_cons r post g post' :
  wkt_loads (Tx.geometry r) = Some g ->
  loads_geometry wkt_loads post = Ok post' ->
  loads_geometry wkt_loads (r :: post) = Ok (with_geometry r g :: post').
Proof.
  unfold loads_geometry. intros Hr Hpost. simpl.
  unfold loads_row at 1. rewrite Hr. simpl. now rewrite Hpost.
Qed.

Lemma loads_geometry_length csv df :
  loads_geometry wkt_loads csv = Ok df -> List.length df = List.length csv.
Proof.
  unfold loads_geometry. revert df.
  induction csv as [|r csv IH]; intros df H; simpl in H.
  - now injection H as <-.
  - destruct (loads_row wkt_loads r); simpl in H; [|discriminate].
    destruct (map_result (loads_row wkt_loads) csv); simpl in H; [|discriminate].
    injection H as <-. simpl. now rewrite (IH _ eq_refl).
Qed.

(** The whole run when every geometry cell is well-known text. *)
Lemma get_tower_coords_run current_time csv fs df :
  loads_geometry wkt_loads csv = Ok df ->
  get_tower_coords wkt_loads current_time csv fs
  = (Ok (flat_map row_points df),
     mkFiles (mkLog (start_line current_time :: skip_entries 0 df) [] false)
             (tx_lines_csv fs)
             (Some (map snd (flat_map row_points df)))).
Proof.
  intros Hl.
  cbv [get_tower_coords get_tower_coords_body bind modify lift].
  rewrite Hl. cbv [range_index]. fold (indexed_from 0 df).
  rewrite tower_loop_run.
  cbv [get ret fst snd TowerSt.files TowerSt.temp_df TowerSt.on_files].
  rewrite flat_map_row_points_indexed, log_close_lines. reflexivity.
Qed.

(** The run when some geometry cell is not well-known text: the exception
    leaves the function with the log open and the start line unflushed. *)
Lemma get_tower_coords_raise current_time csv fs e :
  loads_geometry wkt_loads csv = Raise e ->
  get_tower_coords wkt_loads current_time csv fs
  = (Raise e,
     mkFiles (mkLog [] [start_line current_time] true)
             (tx_lines_csv fs) (tower_coordinates_csv fs)).
Proof.
  intros Hl.
  cbv [get_tower_coords get_tower_coords_body bind modify lift].
  rewrite Hl. reflexivity.
Qed.

End TowerFacts.

Lemma skip_entries_split k (pre post : list (Tx.row geometry)) row :
  skip_entries k (pre ++ row :: post)
  = skip_entries k pre ++ row_skips (k + List.length pre, row)
    ++ skip_entries (S (k + List.length pre)) post.
Proof.
  unfold skip_entries.
  rewrite indexed_from_app, indexed_from_cons, flat_map_app. reflexivity.
Qed.

Lemma length_range_index {A} (xs : list A) :
  List.length (range_index xs) = List.length xs.
Proof.
  unfold range_index. rewrite length_combine, length_seq. apply Nat.min_id.
Qed.

(** C1.  A row of the partitioned-line table whose geometry is a
    LineString with vertices [cs] (the other rows carrying well-formed
    geometry text) yields exactly [length cs] tower rows: the returned
    frame is the frame of the rows before it, then one row per vertex, then
    the frame of the rows after it.  Each of these rows carries the parent
    row's [ID], [SHAPE_Leng], [VOLTAGE], [state], [region] and [OWNER]
    unchanged, and [lon], [lat] are the vertices of [cs] in their order.
    The written [tower_coordinates.csv] holds the same rows. *)
Theorem get_tower_coords_linestring
    (wkt_loads : string -> option geometry) (current_time : string)
    (pre post : list (Tx.row string)) (r : Tx.row string) (fs : Files)
    (pre' post' : list (Tx.row geometry)) (cs : list coord) :
  loads_geometry wkt_loads pre = Ok pre' ->
  loads_geometry wkt_loads post = Ok post' ->
  wkt_loads (Tx.geometry r) = Some (LineString cs) ->
  let run := get_tower_coords wkt_loads current_time (pre ++ r :: post) fs in
  let points :=
    map (fun c => Tower.mk (Tx.ID r) (Tx.SHAPE_Leng r) (Tx.VOLTAGE r)
                           (Tx.state r) (Tx.region r) (Tx.OWNER r)
                           (fst c) (snd c)) cs in
  exists before after segment,
    fst (get_tower_coords wkt_loads current_time pre fs) = Ok before
    /\ fst (get_tower_coords wkt_loads current_time post fs) = Ok after
    /\ fst run = Ok (before ++ segment ++ after)
    /\ map snd segment = points
    /\ List.length segment = List.length cs
    /\ tower_coordinates_csv (snd run)
       = Some (map snd before ++ points ++ map snd after).
Proof.
  intros Hpre Hpost Hr run points.
  pose proof (loads_geometry_app wkt_loads _ _ _ _ Hpre
                (loads_geometry_cons wkt_loads _ _ _ _ Hr Hpost)) as Hall.
  exists (flat_map row_points pre'), (flat_map row_points post'),
         (row_points (with_geometry r (LineString cs))).
  subst run.
  rewrite (get_tower_coords_run _ _ _ _ _ Hpre),
          (get_tower_coords_run _ _ _ _ _ Hpost),
          (get_tower_coords_run _ _ _ _ _ Hall).
  cbn [fst snd tower_coordinates_csv].
  rewrite flat_map_app. cbn [flat_map].
  assert (Hseg : map snd (row_points (with_geometry r (LineString cs))) = points).
  { unfold row_points, range_index. cbn [Tx.geometry with_geometry].
    fold (indexed_from 0 (map (tower_point (with_geometry r (LineString cs))) cs)).
    rewrite map_snd_indexed_from. reflexivity. }
  split; [reflexivity|]. split; [reflexivity|]. split; [reflexivity|].
  split; [exact Hseg|]. split.
  - unfold row_points. cbn [Tx.geometry with_geometry].
    now rewrite length_range_index, length_map.
  - rewrite !map_app, Hseg. reflexivity.
Qed.

(** C4.  A row whose geometry is not a LineString (the other rows carrying
    well-formed geometry text) yields no tower row: the run returns, and
    the returned frame is the frame of the rows before it followed by the
    frame of the rows after it.  The log receives, after what the rows
    before it have written, exactly one line for this row, built from the
    row's [ID], its positional index and its geometry type, and then the
    lines of the rows after it; all of it is flushed and the file closed. *)
Theorem get_tower_coords_skip
    (wkt_loads : string -> option geometry) (current_time : string)
    (pre post : list (Tx.row string)) (r : Tx.row string) (fs : Files)
    (pre' post' : list (Tx.row geometry)) (g : geometry) :
  loads_geometry wkt_loads pre = Ok pre' ->
  loads_geometry wkt_loads post = Ok post' ->
  wkt_loads (Tx.geometry r) = Some g ->
  geom_type g <> "LineString" ->
  let run := get_tower_coords wkt_loads current_time (pre ++ r :: post) fs in
  let run_pre := get_tower_coords wkt_loads current_time pre fs in
  exists before after,
    fst run_pre = Ok before
    /\ fst (get_tower_coords wkt_loads current_time post fs) = Ok after
    /\ fst run = Ok (before ++ after)
    /\ tower_coordinates_csv (snd run) = Some (map snd (before ++ after))
    /\ on_disk (error_log (snd run))
       = on_disk (error_log (snd run_pre))
         ++ [(str_int (Tx.ID r) ++ " with index " ++ str_nat (List.length pre)
              ++ " has the following geom type: " ++ geom_type g
              ++ String "010" "")%string]
         ++ skip_entries (S (List.length pre)) post'
    /\ buffered (error_log (snd run)) = []
    /\ is_open (error_log (snd run)) = false.
Proof.
  intros Hpre Hpost Hr Hg run run_pre.
  pose proof (loads_geometry_app wkt_loads _ _ _ _ Hpre
                (loads_geometry_cons wkt_loads _ _ _ _ Hr Hpost)) as Hall.
  exists (flat_map row_points pre'), (flat_map row_points post').
  subst run run_pre.
  rewrite (get_tower_coords_run _ _ _ _ _ Hpre),
          (get_tower_coords_run _ _ _ _ _ Hpost),
          (get_tower_coords_run _ _ _ _ _ Hall).
  cbn [fst snd tower_coordinates_csv error_log on_disk buffered is_open].
  rewrite flat_map_app. cbn [flat_map].
  assert (Hpts : row_points (with_geometry r g) = []).
  { unfold row_points. cbn [Tx.geometry with_geometry].
    destruct g; try reflexivity. now elim Hg. }
  assert (Hskip : row_skips (List.length pre', with_geometry r g)
                  = [skip_message (with_geometry r g) (List.length pre')]).
  { unfold row_skips. cbn [fst snd Tx.geometry with_geometry].
    destruct g; try reflexivity. now elim Hg. }
  rewrite Hpts. cbn [app].
  rewrite skip_entries_split. cbn [Nat.add]. rewrite Hskip.
  rewrite (loads_geometry_length wkt_loads _ _ Hpre).
  split; [reflexivity|]. split; [reflexivity|]. split; [reflexivity|].
  split; [reflexivity|]. split; [reflexivity|]. split; reflexivity.
Qed.

(* ------------------------------------------------------------------ *)
(** ** [split_txlines_by_region]: one state, one region                *)
(* ------------------------------------------------------------------ *)

Lemma log_written_write m fs :
  log_written (log_write m fs) = log_written fs ++ [m].
Proof. unfold log_written. simpl. now rewrite app_assoc. Qed.

Lemma log_written_flush fs : log_written (log_flush fs) = log_written fs.
Proof. unfold log_written. simpl. now rewrite app_nil_r. Qed.

Lemma log_written_lines msgs fs :
  log_written (log_lines msgs fs) = log_written fs ++ msgs.
Proof.
  revert fs. induction msgs as [|m msgs IH]; intros fs.
  - simpl. now rewrite app_nil_r.
  - change (log_lines (m :: msgs) fs)
      with (log_lines msgs (log_flush (log_write m fs))).
    rewrite IH, log_written_flush, log_written_write, <- app_assoc.
    reflexivity.
Qed.

Lemma log_close_written fs :
  log_close fs
  = mkFiles (mkLog (log_written fs) [] false)
            (tx_lines_csv fs) (tower_coordinates_csv fs).
Proof. reflexivity. Qed.

Lemma update_app_last {A} (f : A -> A) (l : list A) (x : A) :
  update (List.length l) f (l ++ [x]) = l ++ [f x].
Proof. induction l as [|a l IH]; simpl; [reflexivity | now rewrite IH]. Qed.

Lemma update_length {A} n (f : A -> A) (l : list A) :
  List.length (update n f l) = List.length l.
Proof.
  revert n. induction l as [|a l IH]; intros [|n]; simpl; auto.
Qed.

Lemma nth_update {A} n m (f : A -> A) (l : list A) (d : A) :
  nth m (update n f l) d
  = if Nat.eqb m n
    then (if Nat.ltb n (List.length l) then f (nth m l d) else nth m l d)
    else nth m l d.
Proof.
  revert n m. induction l as [|a l IH]; intros [|n] [|m]; simpl; auto.
  now destruct (Nat.eqb m n).
Qed.

Section SplitFacts.

Variable wkt_dumps : geometry -> string.
Variable contains : geometry -> geometry -> bool.
Variable US_STATES : list UsState.row.

(** The frame built by appending is the selection of the contained rows. *)
Lemma contained_rows_filter area gdf :
  contained_rows contains area gdf
  = filter (fun ir => contains area (Line.geometry (snd ir))) gdf.
Proof.
  unfold contained_rows.
  enough (H : forall acc,
    fold_left (fun temp_df ir =>
                 if contains area (Line.geometry (snd ir))
                 then temp_df ++ [ir] else temp_df) gdf acc
    = acc ++ filter (fun ir => contains area (Line.geometry (snd ir))) gdf)
    by apply (H []).
  induction gdf as [|ir gdf IH]; intros acc; simpl.
  - now rewrite app_nil_r.
  - rewrite IH. destruct (contains area (Line.geometry (snd ir))).
    + now rewrite <- app_assoc.
    + reflexivity.
Qed.

(** The turn of the state loop for a state that resolves. *)
Lemma state_step_ok gdf s st area :
  resolve US_STATES s = Ok area ->
  state_step contains US_STATES gdf s st
  = (Ok tt,
     SplitSt.mk
       (log_flush
          (log_write
             (state_count_message s
                (List.length (state_rows contains US_STATES gdf s)))
             (SplitSt.files st)))
       (SplitSt.heap st
        ++ [List.concat (SplitSt.region_list st
                         ++ [state_rows contains US_STATES gdf s])])
       (SplitSt.region_list st ++ [state_rows contains US_STATES gdf s])
       (Some (List.length (SplitSt.heap st)))
       (SplitSt.tx_lines st)).
Proof.
  intros Hres. unfold state_rows, contained_by. rewrite Hres.
  unfold resolve in Hres. unfold state_step.
  cbv [bind lift modify get].
  destruct (state_polygon US_STATES s) as [p|e]; simpl in Hres; [|discriminate].
  rewrite Hres. rewrite contained_rows_filter. reflexivity.
Qed.

(** The turn of the state loop for a state that does not: the exception
    leaves the loop, nothing has been written or bound. *)
Lemma state_step_raise gdf s st e :
  resolve US_STATES s = Raise e ->
  state_step contains US_STATES gdf s st = (Raise e, st).
Proof.
  intros Hres. unfold resolve in Hres. unfold state_step.
  cbv [bind lift modify get].
  destruct (state_polygon US_STATES s) as [p|e']; simpl in Hres.
  - rewrite Hres. reflexivity.
  - congruence.
Qed.

(** The exceptions of [resolve]. *)
Lemma resolve_raise s e :
  resolve US_STATES s = Raise e ->
  e = IndexError \/ exists t, e = ValueError "invalid polygon:" t.
Proof.
  unfold resolve, state_polygon, valid_area_of.
  destruct (filter _ US_STATES) as [|r l]; simpl.
  - intros H. left. congruence.
  - destruct (_ || _); intros H; [discriminate|].
    right. eexists. injection H as <-. reflexivity.
Qed.

Lemma resolve_cases s :
  (exists area, resolve US_STATES s = Ok area)
  \/ (exists e, resolve US_STATES s = Raise e).
Proof. destruct (resolve US_STATES s); eauto. Qed.

(** The state loop over states that all resolve. *)
Lemma states_loop_ok gdf sts st :
  all_resolve US_STATES sts -> sts <> [] ->
  exists garbage,
    for_each sts (state_step contains US_STATES gdf) st
    = (Ok tt,
       SplitSt.mk
         (log_lines
            (map (fun s => state_count_message s
                             (List.length (state_rows contains US_STATES gdf s)))
                 sts)
            (SplitSt.files st))
         (SplitSt.heap st ++ garbage
          ++ [List.concat (SplitSt.region_list st
                           ++ map (state_rows contains US_STATES gdf) sts)])
         (SplitSt.region_list st ++ map (state_rows contains US_STATES gdf) sts)
         (Some (List.length (SplitSt.heap st) + List.length garbage))
         (SplitSt.tx_lines st)).
Proof.
  intros Hall. revert st.
  induction Hall as [|s sts Hs Hall IH]; intros st Hne; [congruence|].
  destruct (resolve US_STATES s) as [area|e] eqn:Hres; [|discriminate].
  simpl. unfold bind. rewrite (state_step_ok gdf s st area Hres).
  destruct sts as [|s' sts'].
  - exists []. simpl. unfold ret. now rewrite Nat.add_0_r.
  - destruct (IH (SplitSt.mk
       (log_flush
          (log_write
             (state_count_message s
                (List.length (state_rows contains US_STATES gdf s)))
             (SplitSt.files st)))
       (SplitSt.heap st
        ++ [List.concat (SplitSt.region_list st
                         ++ [state_rows contains US_STATES gdf s])])
       (SplitSt.region_list st ++ [state_rows contains US_STATES gdf s])
       (Some (List.length (SplitSt.heap st)))
       (SplitSt.tx_lines st))) as [garbage Hg]; [discriminate|].
    exists (List.concat (SplitSt.region_list st
                         ++ [state_rows contains US_STATES gdf s]) :: garbage).
    rewrite Hg. cbn [SplitSt.files SplitSt.heap SplitSt.region_list
                     SplitSt.tx_lines].
    rewrite <- !app_assoc, length_app. cbn [List.length app map].
    replace (List.length (SplitSt.heap st) + 1 + List.length garbage)
      with (List.length (SplitSt.heap st) + S (List.length garbage)) by lia.
    reflexivity.
Qed.

(** A state loop that returns has met states that resolve only. *)
Lemma states_loop_returns gdf sts st st' :
  for_each sts (state_step contains US_STATES gdf) st = (Ok tt, st') ->
  all_resolve US_STATES sts.
Proof.
  revert st. induction sts as [|s sts IH]; intros st H; [constructor|].
  simpl in H. unfold bind in H.
  destruct (resolve US_STATES s) as [area|e] eqn:Hres.
  - rewrite (state_step_ok gdf s st area Hres) in H.
    constructor; [now rewrite Hres | eapply IH; exact H].
  - rewrite (state_step_raise gdf s st e Hres) in H. discriminate.
Qed.

(** A region with at least one state, all of which resolve: a fresh frame
    is allocated for it, given the region's name and appended to
    [tx_lines]. *)
Lemma region_step_nonempty gdf rn sts st :
  all_resolve US_STATES sts -> sts <> [] ->
  exists garbage,
    region_step contains US_STATES gdf (rn, sts) st
    = (Ok tt,
       SplitSt.mk
         (log_lines
            (map (fun s => state_count_message s
                             (List.length (state_rows contains US_STATES gdf s)))
                 sts)
            (log_write (region_header rn) (SplitSt.files st)))
         (SplitSt.heap st ++ garbage
          ++ [region_rows contains US_STATES gdf (rn, sts)])
         (map (state_rows contains US_STATES gdf) sts)
         (Some (List.length (SplitSt.heap st) + List.length garbage))
         (SplitSt.tx_lines st
          ++ [List.length (SplitSt.heap st) + List.length garbage])).
Proof.
  intros Hall Hne. unfold region_step. cbn [fst snd].
  unfold bind at 1. unfold modify at 1.
  unfold bind at 1. unfold modify at 1.
  unfold bind at 1.
  destruct (states_loop_ok gdf sts
              (SplitSt.set_region_list []
                 (SplitSt.on_files (log_write (region_header rn)) st))
              Hall Hne) as [garbage Hg].
  rewrite Hg. exists garbage.
  cbv [bind get modify SplitSt.region_df SplitSt.set_heap SplitSt.set_tx_lines
       SplitSt.heap SplitSt.files SplitSt.region_list SplitSt.tx_lines
       SplitSt.set_region_list SplitSt.on_files].
  rewrite app_assoc, <- length_app, update_app_last, <- app_assoc.
  unfold region_rows. cbn [fst snd app]. rewrite flat_map_concat_map.
  reflexivity.
Qed.

(** A region without states: the local [region_df] still refers to the
    frame of the region before; that same object is given the new name
    and appended to [tx_lines] once more.  Before any binding, reading
    the local raises. *)
Lemma region_step_empty gdf rn st :
  region_step contains US_STATES gdf (rn, []) st
  = match SplitSt.region_df st with
    | Some r =>
        (Ok tt,
         SplitSt.mk (log_write (region_header rn) (SplitSt.files st))
                    (update r (set_region rn) (SplitSt.heap st))
                    [] (Some r) (SplitSt.tx_lines st ++ [r]))
    | None =>
        (Raise (UnboundLocalError "region_df"),
         SplitSt.mk (log_write (region_header rn) (SplitSt.files st))
                    (SplitSt.heap st) [] None (SplitSt.tx_lines st))
    end.
Proof.
  destruct st as [fs h rl [r|] tx]; reflexivity.
Qed.

(** When the turn of the region loop returns, the states resolve. *)
Lemma region_step_returns gdf rn sts st st' :
  region_step contains US_STATES gdf (rn, sts) st = (Ok tt, st') ->
  all_resolve US_STATES sts.
Proof.
  unfold region_step. cbn [fst snd].
  unfold bind at 1. unfold modify at 1.
  unfold bind at 1. unfold modify at 1.
  unfold bind at 1.
  destruct (for_each sts _ _) as [[[]|e] st1] eqn:Hloop; [|discriminate].
  intros _. eapply states_loop_returns. exact Hloop.
Qed.

(* ------------------------------------------------------------------ *)
(** ** [split_txlines_by_region]: what every run keeps                 *)
(* ------------------------------------------------------------------ *)


Lemma for_each_returns {S A} (body : A -> M S unit) (xs : list A) s s' x :
  for_each xs body s = (Ok tt, s') -> In x xs ->
  exists s1 s2, body x s1 = (Ok tt, s2).
Proof.
  revert s. induction xs as [|y xs IH]; intros s H Hin; [contradiction|].
  simpl in H. unfold bind in H.
  destruct (body y s) as [[[]|e] s1] eqn:Hy; [|discriminate].
  destruct Hin as [->|Hin]; [eauto | eapply IH; eauto].
Qed.

Lemma same_tables_refl fs : same_tables fs fs.
Proof. repeat split. Qed.


(** One turn of the state loop: it writes no table, leaves the handle as
    it is, never unbinds [region_df], and raises nothing but the
    exceptions of the look-up. *)
Lemma state_step_keeps gdf s fs0 st :
  same_tables fs0 (SplitSt.files st) ->
  let out := state_step contains US_STATES gdf s st in
  same_tables fs0 (SplitSt.files (snd out))
  /\ (SplitSt.region_df st <> None -> SplitSt.region_df (snd out) <> None)
  /\ (fst out = Ok tt -> SplitSt.region_df (snd out) <> None)
  /\ (forall e, fst out = Raise e -> resolve_error e).
Proof.
  intros Hs out. subst out.
  destruct (resolve_cases s) as [[area Hres]|[e Hres]].
  - rewrite (state_step_ok gdf s st area Hres). cbn [fst snd].
    repeat split; try discriminate; apply Hs.
  - rewrite (state_step_raise gdf s st e Hres). cbn [fst snd].
    repeat split; try discriminate; try apply Hs; auto.
    intros e' He. assert (e' = e) as -> by congruence.
    now apply resolve_raise with s.
Qed.

Lemma states_loop_keeps gdf sts fs0 st :
  same_tables fs0 (SplitSt.files st) ->
  let out := for_each sts (state_step contains US_STATES gdf) st in
  same_tables fs0 (SplitSt.files (snd out))
  /\ (SplitSt.region_df st <> None -> SplitSt.region_df (snd out) <> None)
  /\ (forall e, fst out = Raise e -> resolve_error e).
Proof.
  revert st. induction sts as [|s sts IH]; intros st Hs.
  - cbv [for_each ret fst snd].
    split; [exact Hs|]. split; [auto | discriminate].
  - simpl. unfold bind.
    destruct (state_step_keeps gdf s fs0 st Hs) as (K1 & K2 & K3 & K4).
    destruct (state_step contains US_STATES gdf s st) as [[[]|e] st1];
      cbn [fst snd] in *.
    + destruct (IH st1 K1) as (L1 & L2 & L3).
      split; [exact L1|]. split; [|exact L3].
      intros _. apply L2. now apply K3.
    + repeat split; auto; apply K1.
Qed.

(** The turn of the region loop, by the outcome of its state loop. *)
Lemma region_step_unfold gdf rs st :
  region_step contains US_STATES gdf rs st
  = match for_each (snd rs) (state_step contains US_STATES gdf)
            (SplitSt.set_region_list []
               (SplitSt.on_files (log_write (region_header (fst rs))) st)) with
    | (Ok _, st1) =>
        match SplitSt.region_df st1 with
        | Some r =>
            (Ok tt,
             SplitSt.mk (SplitSt.files st1)
                        (update r (set_region (fst rs)) (SplitSt.heap st1))
                        (SplitSt.region_list st1) (Some r)
                        (SplitSt.tx_lines st1 ++ [r]))
        | None => (Raise (UnboundLocalError "region_df"), st1)
        end
    | (Raise e, st1) => (Raise e, st1)
    end.
Proof.
  unfold region_step.
  unfold bind at 1. unfold modify at 1.
  unfold bind at 1. unfold modify at 1.
  unfold bind at 1.
  destruct (for_each (snd rs) _ _) as [[[]|e] st1]; [|reflexivity].
  unfold bind at 1. unfold get at 1.
  destruct (SplitSt.region_df st1) as [r|] eqn:Hr; [|reflexivity].
  cbv [bind modify get SplitSt.set_heap SplitSt.set_tx_lines
       SplitSt.files SplitSt.heap SplitSt.region_list SplitSt.region_df
       SplitSt.tx_lines].
  destruct st1 as [fs1 h1 rl1 rd1 tx1]. simpl in Hr. subst rd1. reflexivity.
Qed.

(** One turn of the region loop, from a state where [region_df] is
    bound. *)
Lemma region_step_keeps gdf rs fs0 st :
  same_tables fs0 (SplitSt.files st) ->
  let out := region_step contains US_STATES gdf rs st in
  same_tables fs0 (SplitSt.files (snd out))
  /\ (SplitSt.region_df st <> None ->
      SplitSt.region_df (snd out) <> None
      /\ forall e, fst out = Raise e -> resolve_error e)
  /\ (fst out = Ok tt -> SplitSt.region_df (snd out) <> None).
Proof.
  intros Hs out. subst out. rewrite region_step_unfold.
  set (st0 := SplitSt.set_region_list []
                (SplitSt.on_files (log_write (region_header (fst rs))) st)).
  assert (Hs0 : same_tables fs0 (SplitSt.files st0)).
  { destruct Hs as (A & B & C). repeat split; assumption. }
  destruct (states_loop_keeps gdf (snd rs) fs0 st0 Hs0) as (K1 & K2 & K3).
  change (SplitSt.region_df st0) with (SplitSt.region_df st) in K2.
  destruct (for_each (snd rs) _ st0) as [[[]|e] st1]; cbn [fst snd] in *.
  - destruct (SplitSt.region_df st1) as [r|] eqn:Hr; cbn [fst snd].
    + cbn [SplitSt.files SplitSt.region_df].
      split; [exact K1|]. split; [|discriminate].
      intros _. split; discriminate.
    + split; [exact K1|]. split; [|discriminate].
      intros Hb. elim (K2 Hb). reflexivity.
  - split; [exact K1|]. split; [|discriminate].
    intros Hb. split; [now apply K2 | exact K3].
Qed.

Lemma partition_loop_keeps gdf regs fs0 st :
  same_tables fs0 (SplitSt.files st) ->
  let out := for_each regs (region_step contains US_STATES gdf) st in
  same_tables fs0 (SplitSt.files (snd out))
  /\ (SplitSt.region_df st <> None ->
      forall e, fst out = Raise e -> resolve_error e).
Proof.
  revert st. induction regs as [|rs regs IH]; intros st Hs.
  - cbv [for_each ret fst snd]. split; [exact Hs | discriminate].
  - simpl. unfold bind.
    destruct (region_step_keeps gdf rs fs0 st Hs) as (K1 & K2 & K3).
    destruct (region_step contains US_STATES gdf rs st) as [[[]|e] st1];
      cbn [fst snd] in *.
    + destruct (IH st1 K1) as (L1 & L2).
      split; [exact L1|]. intros _. apply L2. now apply K3.
    + split; [exact K1|]. intros Hb. now apply K2.
Qed.

(** A region loop that returns has met states that resolve only. *)
Lemma partition_loop_returns gdf regs st st' :
  for_each regs (region_step contains US_STATES gdf) st = (Ok tt, st') ->
  Forall (fun rs => all_resolve US_STATES (snd rs)) regs.
Proof.
  intros H. apply Forall_forall. intros [rn sts] Hin.
  destruct (for_each_returns _ _ _ _ _ H Hin) as (s1 & s2 & Hb).
  eapply region_step_returns. exact Hb.
Qed.

(** The exception of one turn of the region loop: one of the look-up, or
    the unbound local, which needs a region without states. *)
Lemma region_step_raise_kind gdf rs st e :
  fst (region_step contains US_STATES gdf rs st) = Raise e ->
  resolve_error e \/ (e = UnboundLocalError "region_df" /\ snd rs = []).
Proof.
  rewrite region_step_unfold.
  set (st0 := SplitSt.set_region_list []
                (SplitSt.on_files (log_write (region_header (fst rs))) st)).
  destruct (states_loop_keeps gdf (snd rs) (SplitSt.files st0) st0
              (same_tables_refl _)) as (_ & _ & K3).
  destruct (for_each (snd rs) _ st0) as [[[]|e'] st1] eqn:Hloop;
    cbn [fst snd] in *.
  - destruct (SplitSt.region_df st1) as [r|] eqn:Hr; cbn [fst]; [discriminate|].
    intros [= <-]. right. split; [reflexivity|].
    destruct (snd rs) as [|s sts] eqn:Hsts; [reflexivity|].
    pose proof (states_loop_returns gdf _ _ _ Hloop) as Hall.
    destruct (states_loop_ok gdf (s :: sts) st0 Hall) as [garbage Hg];
      [discriminate|].
    rewrite Hg in Hloop. injection Hloop as <-. discriminate.
  - intros H. left. now apply K3.
Qed.

Lemma partition_loop_raise_kind gdf regs st e :
  fst (for_each regs (region_step contains US_STATES gdf) st) = Raise e ->
  resolve_error e
  \/ (e = UnboundLocalError "region_df"
      /\ exists rn rest, regs = (rn, []) :: rest).
Proof.
  destruct regs as [|rs regs]; [discriminate|].
  simpl. unfold bind.
  pose proof (region_step_raise_kind gdf rs st) as Hk.
  destruct (region_step_keeps gdf rs (SplitSt.files st) st
              (same_tables_refl _)) as (K1 & _ & K3).
  destruct (region_step contains US_STATES gdf rs st) as [[[]|e'] st1];
    cbn [fst snd] in *.
  - intros H. left.
    destruct (partition_loop_keeps gdf regs (SplitSt.files st1) st1
                (same_tables_refl _)) as (_ & L2).
    apply L2; [now apply K3 | exact H].
  - intros [= <-]. destruct (Hk e' eq_refl) as [Hr|[-> Hnil]]; [now left|].
    right. split; [reflexivity|]. destruct rs as [rn sts]. simpl in Hnil.
    subst sts. eauto.
Qed.

(** Lines 64-98 by the outcome of the loop and of [pd.concat]. *)
Lemma split_body_unfold current_time gdf names states st :
  split_body wkt_dumps contains US_STATES current_time gdf names states st
  = match partition_loop contains US_STATES gdf names states
            (SplitSt.set_tx_lines []
               (SplitSt.on_files (log_write (start_line current_time))
                  (SplitSt.on_files log_open st))) with
    | (Ok _, st1) =>
        match pd_concat (tx_frames st1) with
        | Ok table =>
            (Ok tt,
             SplitSt.on_files log_close
               (SplitSt.on_files
                  (write_tx_lines (map (csv_row wkt_dumps) table)) st1))
        | Raise e => (Raise e, st1)
        end
    | (Raise e, st1) => (Raise e, st1)
    end.
Proof.
  unfold split_body.
  unfold bind at 1. unfold modify at 1.
  unfold bind at 1. unfold modify at 1.
  unfold bind at 1. unfold modify at 1.
  unfold bind at 1.
  destruct (partition_loop _ _ _ _ _ _) as [[[]|e] st1]; [|reflexivity].
  unfold bind at 1. unfold get at 1.
  unfold bind at 1. unfold lift at 1.
  destruct (pd_concat (tx_frames st1)) as [table|e]; reflexivity.
Qed.

End SplitFacts.

(* ------------------------------------------------------------------ *)
(** ** The log handle                                                  *)
(* ------------------------------------------------------------------ *)

Section DiskFacts.

Variable wkt_loads : string -> option geometry.
Variable wkt_dumps : geometry -> string.
Variable contains : geometry -> geometry -> bool.
Variable US_STATES : list UsState.row.
Variable to_csv_error : string -> Files -> option exn.

(** Lines 64-98 by the outcome of the loop, of [pd.concat] and of
    [to_csv]. *)
Lemma disk_split_body_unfold current_time gdf names states st :
  Disk.split_body wkt_dumps contains US_STATES to_csv_error
    current_time gdf names states st
  = match partition_loop contains US_STATES gdf names states
            (SplitSt.set_tx_lines []
               (SplitSt.on_files (log_write (start_line current_time))
                  (SplitSt.on_files log_open st))) with
    | (Ok _, st1) =>
        match pd_concat (tx_frames st1) with
        | Ok table =>
            match to_csv_error "tx_lines.csv" (SplitSt.files st1) with
            | None =>
                (Ok tt,
                 SplitSt.on_files log_close
                   (SplitSt.on_files
                      (write_tx_lines (map (csv_row wkt_dumps) table)) st1))
            | Some e => (Raise e, st1)
            end
        | Raise e => (Raise e, st1)
        end
    | (Raise e, st1) => (Raise e, st1)
    end.
Proof.
  unfold Disk.split_body.
  unfold bind at 1. unfold modify at 1.
  unfold bind at 1. unfold modify at 1.
  unfold bind at 1. unfold modify at 1.
  unfold bind at 1.
  destruct (partition_loop _ _ _ _ _ _) as [[[]|e] st1]; [|reflexivity].
  unfold bind at 1. unfold get at 1.
  unfold bind at 1. unfold lift at 1.
  destruct (pd_concat (tx_frames st1)) as [table|e]; [|reflexivity].
  unfold bind at 1. unfold Disk.to_csv at 1.
  destruct (to_csv_error "tx_lines.csv" (SplitSt.files st1)); reflexivity.
Qed.

(** Lines 111-153 by the outcome of [wkt.loads] and of [to_csv]: the
    handle is closed before the table is written. *)
Lemma disk_get_tower_coords_unfold current_time csv fs :
  Disk.get_tower_coords wkt_loads to_csv_error current_time csv fs
  = match loads_geometry wkt_loads csv with
    | Raise e =>
        (Raise e,
         mkFiles (mkLog [] [start_line current_time] true)
                 (tx_lines_csv fs) (tower_coordinates_csv fs))
    | Ok df =>
        let closed :=
          mkFiles (mkLog (start_line current_time :: skip_entries 0 df)
                         [] false)
                  (tx_lines_csv fs) (tower_coordinates_csv fs) in
        match to_csv_error "tower_coordinates.csv" closed with
        | Some e => (Raise e, closed)
        | None =>
            (Ok (flat_map row_points df),
             write_tower_coordinates (map snd (flat_map row_points df))
                                     closed)
        end
    end.
Proof.
  cbv [Disk.get_tower_coords Disk.get_tower_coords_body bind modify lift].
  destruct (loads_geometry wkt_loads csv) as [df|e]; [|reflexivity].
  cbv [range_index]. fold (indexed_from 0 df).
  rewrite tower_loop_run.
  cbv [get ret fst snd TowerSt.files TowerSt.temp_df TowerSt.on_files
       Disk.to_csv].
  rewrite flat_map_row_points_indexed, log_close_lines.
  cbn [error_log on_disk buffered tx_lines_csv tower_coordinates_csv app].
  destruct (to_csv_error "tower_coordinates.csv" _); reflexivity.
Qed.

End DiskFacts.

(** On a directory that never refuses a table, the operations are those
    of the sections above. *)
Lemma disk_writable_split wkt_dumps contains US_STATES current_time features
    region_names region_states fs :
  Disk.split_txlines_by_region wkt_dumps contains US_STATES Disk.writable
    current_time features region_names region_states fs
  = split_txlines_by_region wkt_dumps contains US_STATES
      current_time features region_names region_states fs.
Proof.
  unfold Disk.split_txlines_by_region, split_txlines_by_region.
  rewrite disk_split_body_unfold, split_body_unfold.
  destruct (partition_loop _ _ _ _ _ _) as [[[]|e] st1]; [|reflexivity].
  destruct (pd_concat (tx_frames st1)); reflexivity.
Qed.

Lemma disk_writable_tower wkt_loads current_time csv fs :
  Disk.get_tower_coords wkt_loads Disk.writable current_time csv fs
  = get_tower_coords wkt_loads current_time csv fs.
Proof.
  rewrite disk_get_tower_coords_unfold.
  destruct (loads_geometry wkt_loads csv) as [df|e] eqn:Hl.
  - now rewrite (get_tower_coords_run wkt_loads current_time csv fs df Hl).
  - now rewrite (get_tower_coords_raise wkt_loads current_time csv fs e Hl).
Qed.

(** C7, as the code has it.  For each of the two operations, whatever the
    input is and whether or not the directory accepts the table: when the
    operation returns, the log handle opened at its start is closed and
    nothing is left in its buffer. *)
Theorem log_closed_on_return
    (wkt_loads : string -> option geometry) (wkt_dumps : geometry -> string)
    (contains : geometry -> geometry -> bool) (US_STATES : list UsState.row)
    (to_csv_error : string -> Files -> option exn)
    (current_time : string) (features : list Line.row)
    (region_names : list string) (region_states : list (list string))
    (csv : list (Tx.row string)) (fs : Files) :
  let split := Disk.split_txlines_by_region wkt_dumps contains US_STATES
                 to_csv_error current_time features region_names
                 region_states fs in
  let tower := Disk.get_tower_coords wkt_loads to_csv_error
                 current_time csv fs in
  (is_ok (fst split) = true ->
   is_open (error_log (snd split)) = false
   /\ buffered (error_log (snd split)) = [])
  /\ (is_ok (fst tower) = true ->
      is_open (error_log (snd tower)) = false
      /\ buffered (error_log (snd tower)) = []).
Proof.
  intros split tower. split.
  - subst split. unfold Disk.split_txlines_by_region.
    rewrite disk_split_body_unfold.
    destruct (partition_loop _ _ _ _ _ _) as [[[]|e] st1];
      [|discriminate].
    destruct (pd_concat (tx_frames st1)) as [table|e]; [|discriminate].
    destruct (to_csv_error "tx_lines.csv" (SplitSt.files st1));
      [discriminate|].
    intros _. split; reflexivity.
  - subst tower. rewrite disk_get_tower_coords_unfold.
    destruct (loads_geometry wkt_loads csv) as [df|e]; [|discriminate].
    cbv zeta.
    destruct (to_csv_error "tower_coordinates.csv" _); [discriminate|].
    intros _. split; reflexivity.
Qed.

(* ------------------------------------------------------------------ *)
(** ** [split_txlines_by_region]: the frames of the regions            *)
(* ------------------------------------------------------------------ *)

Lemma erase_set_region rn df : map erase (set_region rn df) = map erase df.
Proof. unfold set_region. rewrite map_map. reflexivity. Qed.

Lemma filter_index_above {A} (m k : nat) (xs : list A) :
  m < k -> filter (fun ir => Nat.eqb (fst ir) m) (indexed_from k xs) = [].
Proof.
  revert k. induction xs as [|x xs IH]; intros k Hlt; [reflexivity|].
  rewrite indexed_from_cons. simpl.
  destruct (Nat.eqb_spec k m) as [->|_]; [lia|]. apply IH. lia.
Qed.

(** The input has one row with the index label [i]: its row at position
    [i]. *)
Lemma filter_index_indexed_from {A} (xs : list A) (k i : nat) (x : A) :
  nth_error xs i = Some x ->
  filter (fun ir => Nat.eqb (fst ir) (k + i)) (indexed_from k xs) = [(k + i, x)].
Proof.
  revert k i. induction xs as [|y xs IH]; intros k [|i] H; simpl in H;
    try discriminate.
  - injection H as ->. rewrite indexed_from_cons, Nat.add_0_r. simpl.
    rewrite Nat.eqb_refl, filter_index_above by lia. reflexivity.
  - rewrite indexed_from_cons. simpl.
    destruct (Nat.eqb_spec k (k + S i)) as [E|_]; [lia|].
    replace (k + S i) with (S k + i) by lia. now apply IH.
Qed.

Lemma filter_comm {A} (p q : A -> bool) (l : list A) :
  filter p (filter q l) = filter q (filter p l).
Proof.
  rewrite !filter_filter. apply filter_ext. intros x. apply andb_comm.
Qed.

Lemma filter_flat_map {A B} (p : B -> bool) (f : A -> list B) (l : list A) :
  filter p (flat_map f l) = flat_map (fun x => filter p (f x)) l.
Proof.
  induction l as [|x l IH]; simpl; [reflexivity|].
  now rewrite filter_app, IH.
Qed.

Lemma filter_map_comm {A B} (p : B -> bool) (f : A -> B) (l : list A) :
  filter p (map f l) = map f (filter (fun x => p (f x)) l).
Proof.
  induction l as [|x l IH]; simpl; [reflexivity|].
  destruct (p (f x)); simpl; now rewrite IH.
Qed.

Section SplitBlocks.

Variable wkt_dumps : geometry -> string.
Variable contains : geometry -> geometry -> bool.
Variable US_STATES : list UsState.row.

(** The rows of a state for the input row at position [i]: one row when
    the state contains the line, none otherwise. *)
Lemma state_rows_of_line features i l s :
  nth_error features i = Some l ->
  filter (fun r => Nat.eqb (Part.index r) i)
         (state_rows contains US_STATES (range_index features) s)
  = if contained_by contains US_STATES s l
    then [Part.mk i l s None] else [].
Proof.
  intros Hl. unfold state_rows, set_state.
  rewrite filter_map_comm. cbn [Part.index].
  rewrite filter_comm.
  change (range_index features) with (indexed_from 0 features).
  pose proof (filter_index_indexed_from features 0 i l Hl) as E.
  cbn [Nat.add] in E. rewrite E. simpl.
  destruct (contained_by contains US_STATES s l); reflexivity.
Qed.

Lemma region_rows_of_line features i l sts :
  nth_error features i = Some l ->
  filter (fun r => Nat.eqb (Part.index r) i)
         (flat_map (state_rows contains US_STATES (range_index features)) sts)
  = map (fun s => Part.mk i l s None)
        (filter (fun s => contained_by contains US_STATES s l) sts).
Proof.
  intros Hl. rewrite filter_flat_map.
  induction sts as [|s sts IH]; simpl; [reflexivity|].
  rewrite IH, (state_rows_of_line features i l s Hl).
  destruct (contained_by contains US_STATES s l); reflexivity.
Qed.

(** The rows of a region for the input row at position [i], as the
    region's frame holds them when it is allocated: one row per state of
    the member list that contains the line, in list order, with the name
    of the state and of the region. *)
Lemma region_rows_of_line_stamped features i l rn sts :
  nth_error features i = Some l ->
  filter (fun r => Nat.eqb (Part.index r) i)
         (region_rows contains US_STATES (range_index features) (rn, sts))
  = map (fun s => Part.mk i l s (Some rn))
        (filter (fun s => contained_by contains US_STATES s l) sts).
Proof.
  intros Hl. unfold region_rows, set_region. cbn [fst snd].
  rewrite filter_map_comm. cbn [Part.index].
  rewrite (region_rows_of_line features i l sts Hl), map_map. reflexivity.
Qed.

(** The count that the log records for a state is the number of input
    lines the state contains. *)
Lemma state_rows_count features s :
  List.length (state_rows contains US_STATES (range_index features) s)
  = List.length (filter (contained_by contains US_STATES s) features).
Proof.
  unfold state_rows, set_state. rewrite length_map.
  change (range_index features) with (indexed_from 0 features).
  generalize 0. induction features as [|x xs IH]; intros k; [reflexivity|].
  rewrite indexed_from_cons. simpl.
  destruct (contained_by contains US_STATES s x); simpl; now rewrite IH.
Qed.

(** A turn of the region loop that returns: it appends one reference;
    the frames already in the heap keep their rows up to the [region]
    cell; for a region with states the reference is to the new frame of
    the region. *)
Lemma region_step_block gdf rn sts st st' :
  refs_valid st ->
  region_step contains US_STATES gdf (rn, sts) st = (Ok tt, st') ->
  exists r,
    SplitSt.tx_lines st' = SplitSt.tx_lines st ++ [r]
    /\ refs_valid st'
    /\ List.length (SplitSt.heap st) <= List.length (SplitSt.heap st')
    /\ (forall k, k < List.length (SplitSt.heap st) ->
          map erase (nth k (SplitSt.heap st') [])
          = map erase (nth k (SplitSt.heap st) []))
    /\ (sts <> [] ->
        nth r (SplitSt.heap st') []
        = region_rows contains US_STATES gdf (rn, sts)).
Proof.
  intros [Hv1 Hv2] Hstep.
  destruct sts as [|s sts].
  - rewrite region_step_empty in Hstep.
    destruct (SplitSt.region_df st) as [r|] eqn:Hr; [|discriminate].
    injection Hstep as <-. exists r.
    cbn [SplitSt.tx_lines SplitSt.heap SplitSt.region_df].
    rewrite update_length.
    split; [reflexivity|]. split; [|split; [lia|split]].
    + split.
      * cbn [SplitSt.tx_lines SplitSt.heap]. rewrite update_length.
        apply Forall_app. split; [exact Hv1|].
        constructor; [now apply Hv2 | constructor].
      * cbn [SplitSt.region_df SplitSt.heap]. rewrite update_length.
        intros r' [= <-]. now apply Hv2.
    + intros k Hk. rewrite nth_update.
      destruct (Nat.eqb k r); [|reflexivity].
      destruct (Nat.ltb r _); [apply erase_set_region | reflexivity].
    + congruence.
  - pose proof (region_step_returns contains US_STATES _ _ _ _ _ Hstep) as Hall.
    destruct (region_step_nonempty contains US_STATES gdf rn (s :: sts) st Hall)
      as [garbage Hg]; [discriminate|].
    rewrite Hg in Hstep. injection Hstep as <-.
    exists (List.length (SplitSt.heap st) + List.length garbage).
    cbn [SplitSt.tx_lines SplitSt.heap SplitSt.region_df].
    assert (Hlen : List.length
              (SplitSt.heap st ++ garbage
               ++ [region_rows contains US_STATES gdf (rn, s :: sts)])
            = S (List.length (SplitSt.heap st) + List.length garbage)).
    { rewrite !length_app. simpl. lia. }
    split; [reflexivity|]. split; [|split; [lia|split]].
    + split.
      * cbn [SplitSt.tx_lines SplitSt.heap]. rewrite Hlen.
        apply Forall_app. split.
        -- eapply Forall_impl; [|exact Hv1]. simpl. intros; lia.
        -- constructor; [lia | constructor].
      * cbn [SplitSt.region_df SplitSt.heap]. rewrite Hlen.
        intros r' [= <-]. lia.
    + intros k Hk. now rewrite app_nth1.
    + intros _. rewrite app_assoc, <- length_app. apply nth_middle.
Qed.

(** The region loop when it returns: it appends one reference per region,
    and the frame of a region with states holds, up to the [region] cell,
    the rows of its states in turn. *)
Lemma partition_loop_blocks gdf regs :
  forall st st',
    refs_valid st ->
    for_each regs (region_step contains US_STATES gdf) st = (Ok tt, st') ->
    exists new,
      SplitSt.tx_lines st' = SplitSt.tx_lines st ++ new
      /\ List.length new = List.length regs
      /\ refs_valid st'
      /\ List.length (SplitSt.heap st) <= List.length (SplitSt.heap st')
      /\ (forall k, k < List.length (SplitSt.heap st) ->
            map erase (nth k (SplitSt.heap st') [])
            = map erase (nth k (SplitSt.heap st) []))
      /\ (forall j rn sts,
            nth_error regs j = Some (rn, sts) -> sts <> [] ->
            map erase (nth (nth j new 0) (SplitSt.heap st') [])
            = map erase (flat_map (state_rows contains US_STATES gdf) sts)).
Proof.
  induction regs as [|[rn0 sts0] regs IH]; intros st st' Hv Hloop.
  - injection Hloop as <-. exists []. rewrite app_nil_r.
    repeat split; try apply Hv; auto.
    intros [|j] rn sts H; discriminate.
  - simpl in Hloop. unfold bind in Hloop.
    destruct (region_step contains US_STATES gdf (rn0, sts0) st)
      as [[[]|e] st1] eqn:Hstep; [|discriminate].
    destruct (region_step_block gdf rn0 sts0 st st1 Hv Hstep)
      as (r & T1 & V1 & L1 & P1 & B1).
    destruct (IH st1 st' V1 Hloop) as (new & T2 & N2 & V2 & L2 & P2 & B2).
    exists (r :: new). rewrite T2, T1, <- app_assoc.
    split; [reflexivity|]. split; [simpl; lia|]. split; [exact V2|].
    split; [lia|]. split.
    + intros k Hk. rewrite P2 by lia. now apply P1.
    + intros [|j] rn sts Hj Hne; simpl in Hj.
      * injection Hj as -> ->. cbn [nth].
        assert (Hr : r < List.length (SplitSt.heap st1)).
        { destruct V1 as [V1 _]. rewrite T1 in V1.
          apply Forall_app in V1. destruct V1 as [_ V1].
          now inversion V1. }
        rewrite (P2 r Hr), (B1 Hne).
        unfold region_rows. cbn [fst snd]. apply erase_set_region.
      * cbn [nth]. now apply (B2 j rn sts).
Qed.

End SplitBlocks.

Lemma nth_map_lt {A B} (f : A -> B) (l : list A) (j : nat) (d : A) (d' : B) :
  j < List.length l -> nth j (map f l) d' = f (nth j l d).
Proof.
  revert j. induction l as [|a l IH]; intros [|j] H; simpl in *; try lia; auto.
  apply IH. lia.
Qed.

Lemma concat_nth_split {A} (ls : list (list A)) (j : nat) :
  j < List.length ls ->
  List.concat ls
  = List.concat (firstn j ls) ++ nth j ls [] ++ List.concat (skipn (S j) ls).
Proof.
  revert j. induction ls as [|x ls IH]; intros [|j] H; simpl in *; try lia.
  - reflexivity.
  - rewrite (IH j) by lia. now rewrite <- app_assoc.
Qed.

(** C10.  When the call returns, and a line of the input (at position [i])
    is contained by two distinct states [s1], [s2] declared in the same
    region (the region at position [j] of the zip), the frame of that
    region holds for that line one row per containing state of the region,
    in the order of the member list: a row stamped [s1] and a row stamped
    [s2] among them, none overwriting the other.  The frame of the region
    is a contiguous part of the table handed to [to_csv], and the written
    file is that table. *)
Theorem overlapping_states_emit_one_row_each
    (wkt_dumps : geometry -> string) (contains : geometry -> geometry -> bool)
    (US_STATES : list UsState.row) (current_time : string)
    (features : list Line.row)
    (region_names : list string) (region_states : list (list string))
    (fs : Files) (j : nat) (rn : string) (sts : list string)
    (s1 s2 : string) (i : nat) (l : Line.row) :
  fst (split_txlines_by_region wkt_dumps contains US_STATES current_time
         features region_names region_states fs) = Ok tt ->
  nth_error (combine region_names region_states) j = Some (rn, sts) ->
  In s1 sts -> In s2 sts -> s1 <> s2 ->
  nth_error features i = Some l ->
  contained_by contains US_STATES s1 l = true ->
  contained_by contains US_STATES s2 l = true ->
  let st := split_locals wkt_dumps contains US_STATES current_time
              features region_names region_states fs in
  let block := nth j (tx_frames st) [] in
  let emitted := filter (fun r => Nat.eqb (Part.index r) i) block in
  map erase emitted
  = map (fun s => (i, l, s))
        (filter (fun s => contained_by contains US_STATES s l) sts)
  /\ In s1 (map Part.state emitted)
  /\ In s2 (map Part.state emitted)
  /\ 2 <= List.length emitted
  /\ (exists before after, output_table st = before ++ block ++ after)
  /\ tx_lines_csv (SplitSt.files st)
     = Some (map (csv_row wkt_dumps) (output_table st)).
Proof.
  intros Hok Hj H1 H2 Hne Hl C1 C2 st block emitted.
  subst emitted block st.
  unfold split_txlines_by_region in Hok. unfold split_locals.
  rewrite split_body_unfold in *. unfold partition_loop in *.
  set (st0 := SplitSt.set_tx_lines [] _) in *.
  assert (Hv0 : refs_valid st0) by (split; [constructor | discriminate]).
  destruct (for_each _ _ st0) as [[[]|e] st1] eqn:Hloop; [|discriminate].
  destruct (partition_loop_blocks contains US_STATES _ _ _ _ Hv0 Hloop)
    as (new & T & N & _ & _ & _ & B).
  cbn [SplitSt.tx_lines st0 SplitSt.set_tx_lines app] in T.
  unfold output_table.
  destruct (pd_concat (tx_frames st1)) as [table|e] eqn:Hcat; [|discriminate].
  assert (Htable : table = List.concat (tx_frames st1)).
  { unfold pd_concat in Hcat. destruct (tx_frames st1); [discriminate|].
    now injection Hcat as <-. }
  cbn [snd]. subst table.
  change (tx_frames (SplitSt.on_files log_close
            (SplitSt.on_files
               (write_tx_lines
                  (map (csv_row wkt_dumps) (List.concat (tx_frames st1))))
               st1)))
    with (tx_frames st1).
  assert (Hjlt : j < List.length new).
  { rewrite N. apply nth_error_Some. congruence. }
  assert (Hblock : nth j (tx_frames st1) []
                   = nth (nth j new 0) (SplitSt.heap st1) []).
  { unfold tx_frames. rewrite T. unfold SplitSt.deref.
    now rewrite (nth_map_lt _ new j 0 []). }
  assert (Hsts : sts <> []) by (intros ->; contradiction).
  pose proof (B j rn sts Hj Hsts) as Hb. rewrite <- Hblock in Hb.
  set (block := nth j (tx_frames st1) []) in *.
  assert (Hem : map erase (filter (fun r => Nat.eqb (Part.index r) i) block)
                = map (fun s => (i, l, s))
                    (filter (fun s => contained_by contains US_STATES s l) sts)).
  { change (fun r => Nat.eqb (Part.index r) i)
      with (fun r => (fun e : nat * Line.row * string =>
                        Nat.eqb (fst (fst e)) i) (erase r)).
    rewrite <- filter_map_comm, Hb, filter_map_comm.
    change (fun x => Nat.eqb (fst (fst (erase x))) i)
      with (fun r => Nat.eqb (Part.index r) i).
    rewrite (region_rows_of_line contains US_STATES features i l sts Hl).
    rewrite map_map. reflexivity. }
  assert (Hst : map Part.state (filter (fun r => Nat.eqb (Part.index r) i) block)
                = filter (fun s => contained_by contains US_STATES s l) sts).
  { change Part.state with (fun r => snd (erase r)).
    rewrite <- (map_map erase snd), Hem, map_map. cbn [snd]. apply map_id. }
  split; [exact Hem|].
  split; [rewrite Hst; apply filter_In; auto|].
  split; [rewrite Hst; apply filter_In; auto|].
  split.
  - rewrite <- (length_map Part.state), Hst.
    assert (Hin1 : In s1 (filter (fun s => contained_by contains US_STATES s l) sts))
      by (apply filter_In; auto).
    assert (Hin2 : In s2 (filter (fun s => contained_by contains US_STATES s l) sts))
      by (apply filter_In; auto).
    destruct (filter _ sts) as [|a [|b rest]]; simpl in *; try lia.
    destruct Hin1 as [<-|[]], Hin2 as [<-|[]]. now elim Hne.
  - split; [|reflexivity].
    exists (List.concat (firstn j (tx_frames st1))),
           (List.concat (skipn (S j) (tx_frames st1))).
    apply concat_nth_split. unfold tx_frames. rewrite length_map, T. exact Hjlt.
Qed.

(* ------------------------------------------------------------------ *)
(** ** [split_txlines_by_region]: regions that all declare states      *)
(* ------------------------------------------------------------------ *)

Section SplitRun.

Variable wkt_dumps : geometry -> string.
Variable contains : geometry -> geometry -> bool.
Variable US_STATES : list UsState.row.

Lemma partition_loop_nonempty gdf regs :
  Forall (fun rs => snd rs <> [] /\ all_resolve US_STATES (snd rs)) regs ->
  forall st,
    Forall (fun r => r < List.length (SplitSt.heap st)) (SplitSt.tx_lines st) ->
    exists st',
      for_each regs (region_step contains US_STATES gdf) st = (Ok tt, st')
      /\ tx_frames st'
         = tx_frames st ++ map (region_rows contains US_STATES gdf) regs
      /\ Forall (fun r => r < List.length (SplitSt.heap st'))
                (SplitSt.tx_lines st')
      /\ log_written (SplitSt.files st')
         = log_written (SplitSt.files st)
           ++ partition_log contains US_STATES gdf regs.
Proof.
  induction 1 as [|[rn sts] regs [Hne Hall] _ IH]; intros st Hv.
  - exists st. simpl. unfold ret, partition_log. simpl.
    now rewrite !app_nil_r.
  - cbn [snd] in Hne, Hall.
    destruct (region_step_nonempty contains US_STATES gdf rn sts st Hall Hne)
      as [garbage Hg].
    set (blk := region_rows contains US_STATES gdf (rn, sts)) in *.
    set (r := List.length (SplitSt.heap st) + List.length garbage) in *.
    match type of Hg with _ = (_, ?s) => set (st1 := s) in * end.
    assert (Hlen : List.length (SplitSt.heap st1) = S r).
    { subst st1 r. cbn [SplitSt.heap]. rewrite !length_app. simpl. lia. }
    assert (Hv1 : Forall (fun k => k < List.length (SplitSt.heap st1))
                         (SplitSt.tx_lines st1)).
    { rewrite Hlen. subst st1. cbn [SplitSt.tx_lines].
      apply Forall_app. split.
      - eapply Forall_impl; [|exact Hv]. subst r. simpl. intros; lia.
      - constructor; [lia | constructor]. }
    destruct (IH st1 Hv1) as (st' & E & F & V & L).
    exists st'. simpl. unfold bind. rewrite Hg.
    split; [exact E|]. split; [|split; [exact V|]].
    + rewrite F. unfold tx_frames at 1. subst st1.
      cbn [SplitSt.tx_lines]. rewrite map_app. cbn [map].
      rewrite <- app_assoc. cbn [app]. f_equal.
      * unfold tx_frames. apply map_ext_in. intros k Hk.
        rewrite Forall_forall in Hv. unfold SplitSt.deref.
        cbn [SplitSt.heap]. now rewrite app_nth1 by (now apply Hv).
      * f_equal. unfold SplitSt.deref. cbn [SplitSt.heap]. subst r.
        rewrite app_assoc, <- length_app. apply nth_middle.
    + rewrite L. subst st1. cbn [SplitSt.files].
      rewrite log_written_lines, log_written_write.
      unfold partition_log. cbn [flat_map]. unfold region_log at 2.
      cbn [fst snd]. rewrite <- !app_assoc. reflexivity.
Qed.

(** When [zip(region_names, region_states)] is not empty, every region
    declares at least one state and every state resolves, the call returns:
    the written table is, region after region in the order of the zip, and
    within a region state after state in the order of the member list, the
    rows of the input that the state contains, in input order, each with
    the name of the state and of the region; the log holds the start line,
    and per region its header and per state the number of contained lines;
    it is closed. *)
Theorem split_run_nonempty_regions current_time features
    region_names region_states fs :
  let regs := combine region_names region_states in
  let gdf := range_index features in
  regs <> [] ->
  Forall (fun rs => snd rs <> [] /\ all_resolve US_STATES (snd rs)) regs ->
  split_txlines_by_region wkt_dumps contains US_STATES current_time features
    region_names region_states fs
  = (Ok tt,
     mkFiles
       (mkLog (start_line current_time
               :: partition_log contains US_STATES gdf regs) [] false)
       (Some (map (csv_row wkt_dumps)
                  (flat_map (region_rows contains US_STATES gdf) regs)))
       (tower_coordinates_csv fs)).
Proof.
  intros regs gdf Hne Hregs.
  unfold split_txlines_by_region. rewrite split_body_unfold.
  unfold partition_loop. fold regs. fold gdf.
  set (st0 := SplitSt.set_tx_lines [] _).
  destruct (partition_loop_nonempty gdf regs Hregs st0 (Forall_nil _))
    as (st1 & E & F & _ & L).
  destruct (partition_loop_keeps contains US_STATES gdf regs
              (SplitSt.files st0) st0 (same_tables_refl _)) as ((_ & K & _) & _).
  rewrite E in K |- *. cbn [fst snd] in K.
  cbn [tx_frames st0 SplitSt.set_tx_lines SplitSt.tx_lines map app] in F.
  change (tx_frames st0) with (@nil (list Part.row)) in F. cbn [app] in F.
  rewrite F. unfold pd_concat.
  destruct (map (region_rows contains US_STATES gdf) regs) as [|b bs] eqn:Hm.
  { destruct regs; [now elim Hne | discriminate]. }
  rewrite <- Hm, <- flat_map_concat_map. cbn [fst snd].
  unfold SplitSt.on_files. cbn [SplitSt.files].
  rewrite log_close_written. unfold write_tx_lines at 1 2.
  cbn [tx_lines_csv tower_coordinates_csv].
  unfold log_written at 1. cbn [error_log].
  fold (log_written (SplitSt.files st1)).
  unfold write_tx_lines. cbn [tower_coordinates_csv].
  rewrite L, K. reflexivity.
Qed.

End SplitRun.

(* ------------------------------------------------------------------ *)
(** ** Runs on concrete inputs                                         *)
(* ------------------------------------------------------------------ *)

Module Runs.

Import Example.

(** C2 at [region_names = ["A"; "B"]], [region_states = [["VT"]; []]] and
    one line inside VT: the line is contained by exactly one state of
    region A, and the written table has no row with region A; it has the
    row of the line twice, both with region B, because the frame of A is
    the object that the turn of B names again and appends again. *)
Theorem split_restamps_frame_of_earlier_region :
  split_txlines_by_region dumps box_contains states "12:00:00"
    [line1] ["A"; "B"] [["VT"]; []] empty_dir
  = (Ok tt,
     mkFiles
       (mkLog [start_line "12:00:00"; region_header "A";
               state_count_message "VT" 1; region_header "B"] [] false)
       (Some [Tx.mk 1 (Num.Fin 12.5) (Num.Fin 230) "OWNER A"
                    "LINESTRING (1 1, 2 2, 3 3)" "VT" "B";
              Tx.mk 1 (Num.Fin 12.5) (Num.Fin 230) "OWNER A"
                    "LINESTRING (1 1, 2 2, 3 3)" "VT" "B"])
       None).
Proof. vm_compute. reflexivity. Qed.

(** C5 at [region_names = ["A"; "B"]], [region_states = [["VT"; "NH"]; []]]
    and the lines [line1] (in VT) and [line2] (in VT and NH): all rows of
    the written table carry region B, whose member list is empty, and the
    rows of VT are not next to each other. *)
Theorem split_order_with_empty_region :
  let run := split_txlines_by_region dumps box_contains states "12:00:00"
               [line1; line2] ["A"; "B"] [["VT"; "NH"]; []] empty_dir in
  fst run = Ok tt
  /\ option_map (map (fun r => (Tx.ID r, Tx.state r, Tx.region r)))
                (tx_lines_csv (snd run))
     = Some [(1%Z, "VT", "B"); (2%Z, "VT", "B"); (2%Z, "NH", "B");
             (1%Z, "VT", "B"); (2%Z, "VT", "B"); (2%Z, "NH", "B")].
Proof. vm_compute. split; reflexivity. Qed.

(** C6 at [region_names = ["A"; "B"]], [region_states = [["VT"]; []]] and
    one line inside VT: no state of region B contains the line (B declares
    none), the log has no count for B, and yet the frame that the loop
    appends for B holds a row of the line. *)
Theorem split_rows_in_region_without_states :
  let st := split_locals dumps box_contains states "12:00:00"
              [line1] ["A"; "B"] [["VT"]; []] empty_dir in
  nth 1 (combine ["A"; "B"] [["VT"]; @nil string]) ("", []) = ("B", [])
  /\ nth 1 (tx_frames st) [] = [Part.mk 0 line1 "VT" (Some "B")]
  /\ nth 0 (tx_frames st) [] = [Part.mk 0 line1 "VT" (Some "B")]
  /\ on_disk (error_log (SplitSt.files st))
     = [start_line "12:00:00"; region_header "A";
        state_count_message "VT" 1; region_header "B"].
Proof. vm_compute. repeat split; reflexivity. Qed.


(** C7 on the error paths: with a declared state that [US_STATES] does not
    have, [split_txlines_by_region] raises, and the log handle is open, not
    closed, with what was written still in its buffer, not on disk; with a
    geometry cell that is not well-known text, [get_tower_coords] raises
    and leaves the handle in the same state. *)
Lemma split_error_leaves_log_open :
  let run := split_txlines_by_region dumps box_contains states "12:00:00"
               [line1] ["A"] [["ZZ"]] empty_dir in
  let run' := get_tower_coords loads "12:00:00" [tx1; tx_bad] empty_dir in
  (fst run = Raise IndexError
   /\ is_open (error_log (snd run)) <> false
   /\ buffered (error_log (snd run))
      = [start_line "12:00:00"; region_header "A"]
   /\ on_disk (error_log (snd run)) = [])
  /\ (fst run' = Raise (WKTReadingError "not a geometry")
      /\ is_open (error_log (snd run')) <> false
      /\ buffered (error_log (snd run')) = [start_line "12:00:00"]
      /\ on_disk (error_log (snd run')) = []).
Proof. vm_compute. repeat split; try reflexivity; discriminate. Qed.

(** [get_tower_coords] on a directory that refuses the table: the log
    has been closed on line 150 when [to_csv] raises on line 151, so this
    exception leaves the function with the handle closed and the log
    flushed; the same refusal in [split_txlines_by_region], where [to_csv]
    comes before the close, leaves the handle open. *)
Example write_error_and_the_log :
  let tower := Disk.get_tower_coords loads Disk.read_only "12:00:00"
                 [tx1; tx2] empty_dir in
  let split := Disk.split_txlines_by_region dumps box_contains states
                 Disk.read_only "12:00:00" [line1] ["A"] [["VT"]]
                 empty_dir in
  (fst tower = Raise (OSError "Read-only file system")
   /\ is_open (error_log (snd tower)) = false
   /\ buffered (error_log (snd tower)) = []
   /\ tower_coordinates_csv (snd tower) = None)
  /\ (fst split = Raise (OSError "Read-only file system")
      /\ is_open (error_log (snd split)) = true
      /\ tx_lines_csv (snd split) = None).
Proof. vm_compute. repeat split; reflexivity. Qed.

(** C9 at an int64 column that holds [2^53 + 1], with the bounds
    [a = 0.0], [b = 2.0**53], [c = 2.0**54]: both comparisons see the
    integer as the float [2^53], so the two filters keep the row, and the
    value of the row is not [b].  And at the column ["state"] of the
    schema, which holds strings: the first filter raises, and no row is
    yielded. *)
Lemma df_subset_compose_keeps_rounded_integer :
  In "id" (columns Example2.big_ids)
  /\ Num.leb (Num.Fin 0) (Num.Fin 9007199254740992) = true
  /\ Num.leb (Num.Fin 9007199254740992) (Num.Fin 18014398509481984) = true
  /\ rbind (df_subset Example2.big_ids "id"
                      (Num.Fin 0) (Num.Fin 9007199254740992))
           (fun t => df_subset t "id" (Num.Fin 9007199254740992)
                                 (Num.Fin 18014398509481984))
     = Ok Example2.big_ids
  /\ rows Example2.big_ids = [ (0, [("id", VInt 9007199254740993)]) ]
  /\ (9007199254740993 <> 9007199254740992)%Z
  /\ ~ (inject_Z 9007199254740993 == 9007199254740992)%Q
  /\ In "state" (columns points)
  /\ rbind (df_subset points "state" (Num.Fin 115) (Num.Fin 230))
           (fun t => df_subset t "state" (Num.Fin 230) (Num.Fin 345))
     = Raise TypeError.
Proof.
  split; [simpl; auto|]. split; [reflexivity|]. split; [reflexivity|].
  split; [vm_compute; reflexivity|]. split; [reflexivity|].
  split; [discriminate|]. split; [unfold Qeq; simpl; discriminate|].
  split; [simpl; auto | reflexivity].
Qed.

(** The end-to-end example of the two stages: a line inside VT with
    [ID = 1], [VOLTAGE = 230] and three vertices. *)
Example end_to_end :
  let fs1 := snd (split_txlines_by_region dumps box_contains states "12:00:00"
                    [line1] ["NE"] [["VT"]] empty_dir) in
  tx_lines_csv fs1 = Some [tx1]
  /\ fst (get_tower_coords loads "12:00:01" [tx1] fs1)
     = Ok [(0, Tower.mk 1 (Num.Fin 12.5) (Num.Fin 230) "VT" "NE" "OWNER A" 1%Q 1%Q);
           (1, Tower.mk 1 (Num.Fin 12.5) (Num.Fin 230) "VT" "NE" "OWNER A" 2%Q 2%Q);
           (2, Tower.mk 1 (Num.Fin 12.5) (Num.Fin 230) "VT" "NE" "OWNER A" 3%Q 3%Q)].
Proof. vm_compute. split; reflexivity. Qed.

End Runs.

(* ------------------------------------------------------------------ *)
(** ** The theorems at concrete inputs                                 *)
(* ------------------------------------------------------------------ *)

Lemma points_voltage_numeric : numeric_column Example.points "voltage".
Proof.
  unfold numeric_column, numeric_rows, Example.points. simpl.
  repeat constructor; eexists; reflexivity.
Defined.

Lemma df_subset_idempotent_witness :
  rbind (df_subset Example.points "voltage" (Num.Fin 115) (Num.Fin 230))
        (fun t => df_subset t "voltage" (Num.Fin 115) (Num.Fin 230))
  = df_subset Example.points "voltage" (Num.Fin 115) (Num.Fin 230)
  /\ (In "voltage" (columns Example.points) ->
      numeric_column Example.points "voltage" ->
      exists t,
        df_subset Example.points "voltage" (Num.Fin 115) (Num.Fin 230) = Ok t
        /\ df_subset t "voltage" (Num.Fin 115) (Num.Fin 230) = Ok t).
Proof.
  exact (df_subset_idempotent Example.points "voltage" (Num.Fin 115) (Num.Fin 230)).
Defined.

Lemma df_subset_compose_witness :
  In "voltage" (columns Example.points)
  /\ Num.leb (Num.Fin 115) (Num.Fin 230) = true
  /\ Num.leb (Num.Fin 230) (Num.Fin 345) = true
  /\ rbind (df_subset Example.points "voltage" (Num.Fin 115) (Num.Fin 230))
           (fun t => df_subset t "voltage" (Num.Fin 230) (Num.Fin 345))
     = Ok (mkDataFrame ["id"; "voltage"; "state"]
             [ (0, [("id", VInt 1); ("voltage", VNum (Num.Fin 230));
                    ("state", VStr "VT")]) ]).
Proof.
  assert (Hin : In "voltage" (columns Example.points)) by (simpl; auto).
  split; [exact Hin|]. split; [reflexivity|]. split; [reflexivity|].
  exact (proj1 (df_subset_compose Example.points "voltage"
                  (Num.Fin 115) (Num.Fin 230) (Num.Fin 345)
                  Hin eq_refl eq_refl)).
Defined.

Lemma get_tower_coords_linestring_witness :
  loads_geometry Example.loads [Example.tx2]
  = Ok [with_geometry Example.tx2
          (MultiLineString [[(0, 0); (1, 1)]; [(2, 2); (3, 3)]])%Q]
  /\ loads_geometry Example.loads [Example.tx3]
     = Ok [with_geometry Example.tx3 (LineString [(6, 1); (7, 2)])%Q]
  /\ Example.loads (Tx.geometry Example.tx1)
     = Some (LineString [(1, 1); (2, 2); (3, 3)])%Q
  /\ exists before after segment,
       fst (get_tower_coords Example.loads "12:00:00" [Example.tx2]
              Example.empty_dir) = Ok before
       /\ fst (get_tower_coords Example.loads "12:00:00" [Example.tx3]
                 Example.empty_dir) = Ok after
       /\ fst (get_tower_coords Example.loads "12:00:00"
                 ([Example.tx2] ++ Example.tx1 :: [Example.tx3])
                 Example.empty_dir)
          = Ok (before ++ segment ++ after)
       /\ map snd segment
          = map (fun c => Tower.mk 1 (Num.Fin 12.5) (Num.Fin 230)
                                   "VT" "NE" "OWNER A" (fst c) (snd c))
                [(1, 1); (2, 2); (3, 3)]%Q
       /\ List.length segment = 3
       /\ tower_coordinates_csv
            (snd (get_tower_coords Example.loads "12:00:00"
                    ([Example.tx2] ++ Example.tx1 :: [Example.tx3])
                    Example.empty_dir))
          = Some (map snd before
                  ++ map (fun c => Tower.mk 1 (Num.Fin 12.5) (Num.Fin 230)
                                            "VT" "NE" "OWNER A" (fst c) (snd c))
                         [(1, 1); (2, 2); (3, 3)]%Q
                  ++ map snd after).
Proof.
  split; [reflexivity|]. split; [reflexivity|]. split; [reflexivity|].
  exact (get_tower_coords_linestring Example.loads "12:00:00"
           [Example.tx2] [Example.tx3] Example.tx1 Example.empty_dir
           _ _ _ eq_refl eq_refl eq_refl).
Defined.

Lemma get_tower_coords_skip_witness :
  loads_geometry Example.loads [Example.tx1]
  = Ok [with_geometry Example.tx1 (LineString [(1, 1); (2, 2); (3, 3)])%Q]
  /\ loads_geometry Example.loads [Example.tx3]
     = Ok [with_geometry Example.tx3 (LineString [(6, 1); (7, 2)])%Q]
  /\ Example.loads (Tx.geometry Example.tx2)
     = Some (MultiLineString [[(0, 0); (1, 1)]; [(2, 2); (3, 3)]])%Q
  /\ geom_type (MultiLineString [[(0, 0); (1, 1)]; [(2, 2); (3, 3)]])%Q
     <> "LineString"
  /\ exists before after,
       fst (get_tower_coords Example.loads "12:00:00" [Example.tx1]
              Example.empty_dir) = Ok before
       /\ fst (get_tower_coords Example.loads "12:00:00" [Example.tx3]
                 Example.empty_dir) = Ok after
       /\ fst (get_tower_coords Example.loads "12:00:00"
                 ([Example.tx1] ++ Example.tx2 :: [Example.tx3])
                 Example.empty_dir)
          = Ok (before ++ after)
       /\ tower_coordinates_csv
            (snd (get_tower_coords Example.loads "12:00:00"
                    ([Example.tx1] ++ Example.tx2 :: [Example.tx3])
                    Example.empty_dir))
          = Some (map snd (before ++ after))
       /\ on_disk (error_log
            (snd (get_tower_coords Example.loads "12:00:00"
                    ([Example.tx1] ++ Example.tx2 :: [Example.tx3])
                    Example.empty_dir)))
          = on_disk (error_log
              (snd (get_tower_coords Example.loads "12:00:00" [Example.tx1]
                      Example.empty_dir)))
            ++ [(str_int 7 ++ " with index " ++ str_nat 1
                 ++ " has the following geom type: " ++ "MultiLineString"
                 ++ String "010" "")%string]
            ++ skip_entries 2
                 [with_geometry Example.tx3 (LineString [(6, 1); (7, 2)])%Q]
       /\ buffered (error_log
            (snd (get_tower_coords Example.loads "12:00:00"
                    ([Example.tx1] ++ Example.tx2 :: [Example.tx3])
                    Example.empty_dir))) = []
       /\ is_open (error_log
            (snd (get_tower_coords Example.loads "12:00:00"
                    ([Example.tx1] ++ Example.tx2 :: [Example.tx3])
                    Example.empty_dir))) = false.
Proof.
  assert (Hg : geom_type (MultiLineString [[(0, 0); (1, 1)]; [(2, 2); (3, 3)]])%Q
               <> "LineString") by discriminate.
  split; [reflexivity|]. split; [reflexivity|]. split; [reflexivity|].
  split; [exact Hg|].
  exact (get_tower_coords_skip Example.loads "12:00:00"
           [Example.tx1] [Example.tx3] Example.tx2 Example.empty_dir
           _ _ _ eq_refl eq_refl eq_refl Hg).
Defined.

Lemma log_closed_on_return_witness :
  (is_ok (fst (Disk.split_txlines_by_region Example.dumps
                 Example.box_contains Example.states Disk.writable "12:00:00"
                 [Example.line1] ["A"] [["VT"]] Example.empty_dir)) = true
   /\ is_open (error_log
        (snd (Disk.split_txlines_by_region Example.dumps
                Example.box_contains Example.states Disk.writable "12:00:00"
                [Example.line1] ["A"] [["VT"]] Example.empty_dir))) = false
   /\ buffered (error_log
        (snd (Disk.split_txlines_by_region Example.dumps
                Example.box_contains Example.states Disk.writable "12:00:00"
                [Example.line1] ["A"] [["VT"]] Example.empty_dir))) = [])
  /\ (is_ok (fst (Disk.get_tower_coords Example.loads Disk.writable
                    "12:00:00" [Example.tx1; Example.tx2]
                    Example.empty_dir)) = true
      /\ is_open (error_log
           (snd (Disk.get_tower_coords Example.loads Disk.writable
                   "12:00:00" [Example.tx1; Example.tx2]
                   Example.empty_dir))) = false
      /\ buffered (error_log
           (snd (Disk.get_tower_coords Example.loads Disk.writable
                   "12:00:00" [Example.tx1; Example.tx2]
                   Example.empty_dir))) = []).
Proof.
  pose proof (log_closed_on_return Example.loads Example.dumps
                Example.box_contains Example.states Disk.writable "12:00:00"
                [Example.line1] ["A"] [["VT"]]
                [Example.tx1; Example.tx2] Example.empty_dir) as H.
  cbv zeta in H. destruct H as [H1 H2].
  assert (S1 : is_ok (fst (Disk.split_txlines_by_region Example.dumps
                 Example.box_contains Example.states Disk.writable "12:00:00"
                 [Example.line1] ["A"] [["VT"]] Example.empty_dir)) = true)
    by (vm_compute; reflexivity).
  assert (S2 : is_ok (fst (Disk.get_tower_coords Example.loads Disk.writable
                    "12:00:00" [Example.tx1; Example.tx2]
                    Example.empty_dir)) = true)
    by (vm_compute; reflexivity).
  split.
  - split; [exact S1 | exact (H1 S1)].
  - split; [exact S2 | exact (H2 S2)].
Defined.

Lemma overlapping_states_emit_one_row_each_witness :
  fst (split_txlines_by_region Example.dumps Example.box_contains
         Example.states "12:00:00"
         [Example.line1; Example.line2; Example.line3]
         ["NE"] [["VT"; "NH"]] Example.empty_dir) = Ok tt
  /\ nth_error (combine ["NE"] [["VT"; "NH"]]) 0 = Some ("NE", ["VT"; "NH"])
  /\ nth_error [Example.line1; Example.line2; Example.line3] 1
     = Some Example.line2
  /\ contained_by Example.box_contains Example.states "VT" Example.line2 = true
  /\ contained_by Example.box_contains Example.states "NH" Example.line2 = true
  /\ map erase
       (filter (fun r => Nat.eqb (Part.index r) 1)
          (nth 0 (tx_frames
                    (split_locals Example.dumps Example.box_contains
                       Example.states "12:00:00"
                       [Example.line1; Example.line2; Example.line3]
                       ["NE"] [["VT"; "NH"]] Example.empty_dir)) []))
     = map (fun s => (1, Example.line2, s))
           (filter (fun s => contained_by Example.box_contains Example.states
                               s Example.line2) ["VT"; "NH"]).
Proof.
  assert (H1 : In "VT" ["VT"; "NH"]) by (simpl; auto).
  assert (H2 : In "NH" ["VT"; "NH"]) by (simpl; auto).
  assert (Hne : "VT" <> "NH") by discriminate.
  split; [vm_compute; reflexivity|]. split; [reflexivity|].
  split; [reflexivity|]. split; [vm_compute; reflexivity|].
  split; [vm_compute; reflexivity|].
  apply (overlapping_states_emit_one_row_each Example.dumps
           Example.box_contains Example.states "12:00:00"
           [Example.line1; Example.line2; Example.line3]
           ["NE"] [["VT"; "NH"]] Example.empty_dir 0 "NE" ["VT"; "NH"]
           "VT" "NH" 1 Example.line2);
    [vm_compute; reflexivity | reflexivity | exact H1 | exact H2 | exact Hne
    | reflexivity | vm_compute; reflexivity | vm_compute; reflexivity].
Defined.

Lemma split_run_nonempty_regions_witness :
  fst (split_txlines_by_region Example.dumps Example.box_contains
         Example.states "12:00:00" [Example.line1; Example.line2]
         ["A"; "B"] [["VT"]; ["NH"]] Example.empty_dir) = Ok tt.
Proof.
  rewrite (split_run_nonempty_regions Example.dumps Example.box_contains
             Example.states "12:00:00" [Example.line1; Example.line2]
             ["A"; "B"] [["VT"]; ["NH"]] Example.empty_dir).
  - reflexivity.
  - discriminate.
  - repeat constructor; discriminate.
Defined.

(* ================================================================== *)
(** * Further properties of the code                                   *)
(* ================================================================== *)

(* ------------------------------------------------------------------ *)
(** ** [df_subset]                                                     *)
(* ------------------------------------------------------------------ *)

(** X1.  An attribute that is no column of the table: [df[feature]] raises
    [KeyError], whatever the rows and the bounds are, also for a table
    without rows. *)
Theorem df_subset_missing_column (df : DataFrame) (f : string) (lo hi : Num.num) :
  ~ In f (columns df) ->
  df_subset df f lo hi = Raise (KeyError f).
Proof.
  intros Hn. unfold df_subset, getitem.
  destruct (has_column df f) eqn:E; [|reflexivity].
  apply has_column_In in E. contradiction.
Qed.

Lemma float64_of_int_exact z :
  (Z.abs z <= 2 ^ 53)%Z -> Num.float64_of_int z = z.
Proof.
  intros Hz. unfold Num.float64_of_int.
  apply Z.leb_le in Hz. rewrite Hz. reflexivity.
Qed.

(** Above [2^53] the conversion rounds to 53 significant bits, a tie
    going to the even significand. *)
Example float64_of_int_rounds :
  Num.float64_of_int 9007199254740993 = 9007199254740992%Z
  /\ Num.float64_of_int 9007199254740995 = 9007199254740996%Z
  /\ Num.float64_of_int (-9007199254740993) = (-9007199254740992)%Z
  /\ Num.float64_of_int 9223372036854775807 = 9223372036854775808%Z.
Proof. vm_compute. repeat split; reflexivity. Qed.

(** X2.  When the filter returns, the schema is kept and the rows of the
    result are the rows of the table, in their order and with their index
    labels, whose value lies in [[min_value, max_value]] as pandas compares
    it with the float bounds: a float cell as it is, an integer cell after
    its conversion to float64, which is the integer itself up to [2^53] in
    absolute value.  Nothing else is kept and nothing in range is
    dropped. *)
Theorem df_subset_selects (df t : DataFrame) (f : string) (lo hi : Num.num) :
  df_subset df f lo hi = Ok t ->
  columns t = columns df
  /\ rows t = filter (in_range f lo hi) (rows df)
  /\ (forall r, In r (rows t) <->
        In r (rows df)
        /\ exists n, as_float (cell_of f r) = Ok n
                     /\ Num.leb lo n = true /\ Num.leb n hi = true)
  /\ (forall n, as_float (VNum n) = Ok n)
  /\ (forall z, as_float (VInt z)
                = Ok (Num.Fin (inject_Z (Num.float64_of_int z))))
  /\ (forall z, (Z.abs z <= 2 ^ 53)%Z -> Num.float64_of_int z = z).
Proof.
  intros H. destruct (df_subset_ok _ _ _ _ _ H) as [Hin Hnum].
  rewrite (df_subset_numeric f df lo hi Hin Hnum) in H. injection H as <-.
  cbn [columns rows]. split; [reflexivity|]. split; [reflexivity|].
  split; [|split; [reflexivity|split; [reflexivity|]]].
  - intros r. rewrite filter_In. unfold in_range, cell_of, Num.geb.
    split.
    + intros [Hr Hc]. split; [exact Hr|].
      destruct (as_float (record_get f (snd r))) as [n|e]; [|discriminate].
      apply andb_true_iff in Hc. exists n. tauto.
    + intros [Hr (n & Hn & H1 & H2)]. split; [exact Hr|].
      rewrite Hn, H1, H2. reflexivity.
  - apply float64_of_int_exact.
Qed.

Lemma leb_inf_iff n :
  Num.geb n Num.NegInf && Num.leb n Num.PosInf
  = match n with Num.NaN => false | _ => true end.
Proof. destruct n; reflexivity. Qed.

(** X3.  The call with the default bounds is not the identity: on a table whose
    column ["voltage"] holds numbers it drops exactly the rows whose
    voltage is NaN (a missing value) and keeps all others, the infinite
    ones included. *)
Theorem df_subset_default_drops_nan (df : DataFrame) :
  In "voltage" (columns df) -> numeric_column df "voltage" ->
  df_subset_default df
  = Ok (mkDataFrame (columns df)
          (filter (fun r => is_number (cell_of "voltage" r)) (rows df))).
Proof.
  intros Hin Hnum. unfold df_subset_default.
  rewrite (df_subset_numeric "voltage" df _ _ Hin Hnum). do 2 f_equal.
  apply filter_ext_in. intros r Hr.
  unfold numeric_column, numeric_rows in Hnum. rewrite Forall_forall in Hnum.
  destruct (Hnum r Hr) as [n Hn].
  unfold in_range, is_number, cell_of. rewrite Hn.
  apply leb_inf_iff.
Qed.

(** X4.  Bounds that are not ordered ([min_value <= max_value] is false: the
    lower one is larger, or one of them is NaN) select no row; the call
    returns the empty table with the same schema, it does not raise. *)
Theorem df_subset_unordered_bounds (df : DataFrame) (f : string) (lo hi : Num.num) :
  In f (columns df) -> numeric_column df f ->
  Num.leb lo hi = false ->
  df_subset df f lo hi = Ok (mkDataFrame (columns df) []).
Proof.
  intros Hin Hnum Hlh.
  rewrite (df_subset_numeric f df lo hi Hin Hnum). do 2 f_equal.
  induction (rows df) as [|r l IH]; [reflexivity|]. simpl.
  rewrite IH. unfold in_range, Num.geb.
  destruct (as_float (record_get f (snd r))) as [n|e]; [|reflexivity].
  destruct (Num.leb lo n) eqn:H1; [|reflexivity].
  destruct (Num.leb n hi) eqn:H2; [|reflexivity].
  rewrite (num_leb_trans _ _ _ H1 H2) in Hlh. discriminate.
Qed.

Lemma series_ge_string f lo (l : list (nat * record)) :
  Exists (fun r => exists s, cell_of f r = VStr s) l ->
  series_ge (map (cell_of f) l) lo = Raise TypeError.
Proof.
  unfold series_ge. induction l as [|r l IH]; intros H.
  - inversion H.
  - simpl. unfold cell_ge at 1.
    destruct (cell_of f r) as [n|z|s] eqn:Hc; [| |reflexivity];
      simpl; (rewrite IH; [reflexivity|]);
      (inversion H as [? ? [s Hs]|]; [congruence | assumption]).
Qed.

(** X5.  A column that holds a string in some row cannot be compared with the
    numeric bounds: the call raises [TypeError]. *)
Theorem df_subset_string_column (df : DataFrame) (f : string) (lo hi : Num.num) :
  In f (columns df) ->
  Exists (fun r => exists s, cell_of f r = VStr s) (rows df) ->
  df_subset df f lo hi = Raise TypeError.
Proof.
  intros Hin Hex. unfold df_subset, getitem.
  apply has_column_In in Hin. rewrite Hin. simpl.
  unfold column_values. rewrite (series_ge_string f lo _ Hex). reflexivity.
Qed.

(** X6.  Two subsettings on numeric columns commute: filtering on [f] and then
    on [g] returns the same table as filtering on [g] and then on [f]. *)
Theorem df_subset_commute (df : DataFrame) (f g : string) (a b c d : Num.num) :
  In f (columns df) -> numeric_column df f ->
  In g (columns df) -> numeric_column df g ->
  rbind (df_subset df f a b) (fun t => df_subset t g c d)
  = rbind (df_subset df g c d) (fun t => df_subset t f a b)
  /\ exists t, rbind (df_subset df f a b) (fun t => df_subset t g c d) = Ok t.
Proof.
  intros Hf Nf Hg Ng.
  rewrite (df_subset_numeric f df a b Hf Nf), (df_subset_numeric g df c d Hg Ng).
  cbn [rbind].
  rewrite (df_subset_numeric g), (df_subset_numeric f); cbn [columns rows];
    try assumption; try (apply numeric_filter; assumption).
  rewrite filter_comm. split; [reflexivity | eauto].
Qed.

(* ------------------------------------------------------------------ *)
(** ** [get_tower_coords]                                              *)
(* ------------------------------------------------------------------ *)

Lemma loads_geometry_first_bad wkt_loads pre r post pre' :
  loads_geometry wkt_loads pre = Ok pre' ->
  wkt_loads (Tx.geometry r) = None ->
  loads_geometry wkt_loads (pre ++ r :: post)
  = Raise (WKTReadingError (Tx.geometry r)).
Proof.
  unfold loads_geometry. revert pre'.
  induction pre as [|x pre IH]; intros pre' Hpre Hr; simpl in *.
  - unfold loads_row at 1. rewrite Hr. reflexivity.
  - destruct (loads_row wkt_loads x); simpl in *; [|discriminate].
    destruct (map_result (loads_row wkt_loads) pre); simpl in *; [|discriminate].
    now rewrite (IH _ eq_refl Hr).
Qed.

(** X7.  A geometry cell that is not well-known text, the cells before it being
    well-formed: the call raises the error of [wkt.loads] on that text
    before any row is decomposed.  No tower row is returned,
    [tower_coordinates.csv] and [tx_lines.csv] are as they were, and the
    log, already truncated, is left open with its start line unflushed. *)
Theorem get_tower_coords_bad_geometry
    (wkt_loads : string -> option geometry) (current_time : string)
    (pre post : list (Tx.row string)) (r : Tx.row string) (fs : Files)
    (pre' : list (Tx.row geometry)) :
  loads_geometry wkt_loads pre = Ok pre' ->
  wkt_loads (Tx.geometry r) = None ->
  get_tower_coords wkt_loads current_time (pre ++ r :: post) fs
  = (Raise (WKTReadingError (Tx.geometry r)),
     mkFiles (mkLog [] [start_line current_time] true)
             (tx_lines_csv fs) (tower_coordinates_csv fs)).
Proof.
  intros Hpre Hr. apply get_tower_coords_raise.
  now apply loads_geometry_first_bad with pre'.
Qed.

Lemma length_row_points row :
  List.length (row_points row) = vertex_count row.
Proof.
  unfold row_points, vertex_count. destruct (Tx.geometry row); try reflexivity.
  now rewrite length_range_index, length_map.
Qed.

Lemma length_flat_map_row_points df :
  List.length (flat_map row_points df) = list_sum (map vertex_count df).
Proof.
  induction df as [|row df IH]; [reflexivity|]. simpl.
  now rewrite length_app, length_row_points, IH.
Qed.

Lemma length_skip_entries k df :
  List.length (skip_entries k df)
  = List.length
      (filter (fun row => negb (String.eqb (geom_type (Tx.geometry row))
                                           "LineString")) df).
Proof.
  unfold skip_entries. revert k.
  induction df as [|row df IH]; intros k; [reflexivity|].
  rewrite indexed_from_cons. cbn [flat_map filter].
  rewrite length_app, IH. unfold row_skips. cbn [fst snd].
  destruct (Tx.geometry row); reflexivity.
Qed.

(** X8.  The accounts of a run on a table whose geometry cells are all
    well-formed: the number of tower rows returned (and written) is the
    total number of vertices of the LineString rows, and the log holds the
    start line and one line per row that is no LineString. *)
Theorem get_tower_coords_counts
    (wkt_loads : string -> option geometry) (current_time : string)
    (csv : list (Tx.row string)) (fs : Files) (df : list (Tx.row geometry)) :
  loads_geometry wkt_loads csv = Ok df ->
  let run := get_tower_coords wkt_loads current_time csv fs in
  exists out,
    fst run = Ok out
    /\ tower_coordinates_csv (snd run) = Some (map snd out)
    /\ List.length out = list_sum (map vertex_count df)
    /\ List.length (on_disk (error_log (snd run)))
       = 1 + List.length
               (filter (fun row => negb (String.eqb (geom_type (Tx.geometry row))
                                                    "LineString")) df).
Proof.
  intros Hl run. subst run.
  rewrite (get_tower_coords_run wkt_loads current_time csv fs df Hl).
  eexists. split; [reflexivity|]. split; [reflexivity|].
  split; [apply length_flat_map_row_points|].
  cbn [snd error_log on_disk List.length]. now rewrite length_skip_entries.
Qed.

(** X9.  The call replaces the log: whatever [error.log] held before (the
    counts of [split_txlines_by_region], when the table is read from its
    output directory), the log after the call is the same, and
    [tx_lines.csv] is never written. *)
Theorem get_tower_coords_replaces_log
    (wkt_loads : string -> option geometry) (current_time : string)
    (csv : list (Tx.row string)) (fs fs' : Files) :
  error_log (snd (get_tower_coords wkt_loads current_time csv fs))
  = error_log (snd (get_tower_coords wkt_loads current_time csv fs'))
  /\ tx_lines_csv (snd (get_tower_coords wkt_loads current_time csv fs))
     = tx_lines_csv fs.
Proof.
  destruct (loads_geometry wkt_loads csv) as [df|e] eqn:Hl.
  - rewrite !(get_tower_coords_run wkt_loads current_time csv _ df Hl).
    split; reflexivity.
  - rewrite !(get_tower_coords_raise wkt_loads current_time csv _ e Hl).
    split; reflexivity.
Qed.

(* ------------------------------------------------------------------ *)
(** ** [split_txlines_by_region]: edges of the configuration           *)
(* ------------------------------------------------------------------ *)

Lemma combine_surplus_l {A B} (l e : list A) (l' : list B) :
  List.length l = List.length l' -> combine (l ++ e) l' = combine l l'.
Proof.
  revert l'. induction l as [|a l IH]; intros [|b l'] H; simpl in *;
    try discriminate.
  - now destruct e.
  - now rewrite IH by lia.
Qed.

Lemma combine_surplus_r {A B} (l : list A) (l' e : list B) :
  List.length l = List.length l' -> combine l (l' ++ e) = combine l l'.
Proof.
  revert l'. induction l as [|a l IH]; intros [|b l'] H; simpl in *;
    try discriminate; [reflexivity|].
  now rewrite IH by lia.
Qed.

Section SplitEdges.

Variable wkt_dumps : geometry -> string.
Variable contains : geometry -> geometry -> bool.
Variable US_STATES : list UsState.row.

(** X15.  No region to process ([region_names] or [region_states] is empty):
    the loop does nothing and [pd.concat] of the empty list raises
    [ValueError].  [tx_lines.csv] is not written and the log is left open,
    its start line unflushed. *)
Theorem split_no_region current_time features region_names region_states fs :
  combine region_names region_states = [] ->
  split_txlines_by_region wkt_dumps contains US_STATES current_time features
    region_names region_states fs
  = (Raise (ValueError "No objects to concatenate" ""),
     mkFiles (mkLog [] [start_line current_time] true)
             (tx_lines_csv fs) (tower_coordinates_csv fs)).
Proof.
  intros H. unfold split_txlines_by_region. rewrite split_body_unfold.
  unfold partition_loop. rewrite H. reflexivity.
Qed.

(** X14.  A first region declared without states: at the end of its turn the
    local [region_df] has never been bound and reading it raises
    [UnboundLocalError], whatever regions follow.  Nothing is written but
    the start line and the header of the region, unflushed, and the log
    is left open. *)
Theorem split_first_region_without_states current_time features
    region_names region_states fs rn rest :
  combine region_names region_states = (rn, []) :: rest ->
  split_txlines_by_region wkt_dumps contains US_STATES current_time features
    region_names region_states fs
  = (Raise (UnboundLocalError "region_df"),
     mkFiles (mkLog [] [start_line current_time; region_header rn] true)
             (tx_lines_csv fs) (tower_coordinates_csv fs)).
Proof.
  intros H. unfold split_txlines_by_region. rewrite split_body_unfold.
  unfold partition_loop. rewrite H. cbn [for_each]. unfold bind at 1.
  rewrite region_step_empty. reflexivity.
Qed.

(** X16.  [zip] stops at the shorter list: region names without a member list,
    and member lists without a region name, are ignored without any
    message; the call behaves as on the lists of equal length. *)
Theorem split_ignores_surplus current_time features
    region_names region_states more_names more_states fs :
  List.length region_names = List.length region_states ->
  split_txlines_by_region wkt_dumps contains US_STATES current_time features
    (region_names ++ more_names) region_states fs
  = split_txlines_by_region wkt_dumps contains US_STATES current_time features
      region_names region_states fs
  /\ split_txlines_by_region wkt_dumps contains US_STATES current_time features
       region_names (region_states ++ more_states) fs
     = split_txlines_by_region wkt_dumps contains US_STATES current_time features
         region_names region_states fs.
Proof.
  intros Hlen.
  unfold split_txlines_by_region, split_body, partition_loop.
  now rewrite combine_surplus_l, combine_surplus_r.
Qed.

(** X17.  The look-up of a state takes the first row of [US_STATES] with that
    name; rows of the same name further down are never read. *)
Theorem state_polygon_first_match (pre post : list UsState.row)
    (r : UsState.row) (state : string) :
  Forall (fun x => UsState.STATE_NAME x <> state) pre ->
  UsState.STATE_NAME r = state ->
  state_polygon (pre ++ r :: post) state = Ok (UsState.geometry r).
Proof.
  intros Hpre Hr. unfold state_polygon. rewrite filter_app.
  replace (filter (fun x => String.eqb (UsState.STATE_NAME x) state) pre)
    with (@nil UsState.row).
  - simpl. rewrite Hr, String.eqb_refl. reflexivity.
  - symmetry. induction Hpre as [|x pre Hx _ IH]; [reflexivity|]. simpl.
    destruct (String.eqb_spec (UsState.STATE_NAME x) state); [contradiction|].
    exact IH.
Qed.

Lemma length_region_rows features rs :
  List.length (region_rows contains US_STATES (range_index features) rs)
  = list_sum
      (map (fun s => List.length
                       (filter (contained_by contains US_STATES s) features))
           (snd rs)).
Proof.
  unfold region_rows, set_region. rewrite length_map.
  induction (snd rs) as [|s sts IH]; [reflexivity|]. simpl.
  now rewrite length_app, state_rows_count, IH.
Qed.

Lemma length_partition_rows features regs :
  List.length
    (flat_map (region_rows contains US_STATES (range_index features)) regs)
  = contained_count contains US_STATES features regs.
Proof.
  unfold contained_count.
  induction regs as [|rs regs IH]; [reflexivity|]. simpl.
  now rewrite length_app, length_region_rows, IH.
Qed.

Lemma partition_log_counts features regs :
  partition_log contains US_STATES (range_index features) regs
  = flat_map
      (fun rs =>
         region_header (fst rs)
         :: map (fun s =>
                   state_count_message s
                     (List.length
                        (filter (contained_by contains US_STATES s) features)))
                (snd rs))
      regs.
Proof.
  unfold partition_log. apply flat_map_ext. intros rs. unfold region_log.
  f_equal. apply map_ext. intros s. now rewrite state_rows_count.
Qed.

(** X11.  The accounts of a run in which every region declares a state and every
    state resolves: the count that the log records for a state is the
    number of input lines the state contains, and the counts of the log
    add up to the number of rows of [tx_lines.csv].  A line that no state
    contains is counted nowhere and is in no row. *)
Theorem split_counts_add_up current_time features region_names region_states fs :
  let regs := combine region_names region_states in
  let run := split_txlines_by_region wkt_dumps contains US_STATES current_time
               features region_names region_states fs in
  regs <> [] ->
  Forall (fun rs => snd rs <> [] /\ all_resolve US_STATES (snd rs)) regs ->
  exists csv,
    fst run = Ok tt
    /\ tx_lines_csv (snd run) = Some csv
    /\ List.length csv = contained_count contains US_STATES features regs
    /\ on_disk (error_log (snd run))
       = start_line current_time
         :: flat_map
              (fun rs =>
                 region_header (fst rs)
                 :: map (fun s =>
                           state_count_message s
                             (List.length
                                (filter (contained_by contains US_STATES s)
                                        features)))
                        (snd rs))
              regs.
Proof.
  intros regs run Hne Hregs. subst run.
  rewrite (split_run_nonempty_regions wkt_dumps contains US_STATES
             current_time features region_names region_states fs Hne Hregs).
  fold regs. eexists. split; [reflexivity|]. split; [reflexivity|].
  split.
  - rewrite length_map. apply length_partition_rows.
  - cbn [snd error_log on_disk]. now rewrite partition_log_counts.
Qed.

End SplitEdges.

(* ------------------------------------------------------------------ *)
(** ** [split_txlines_by_region]: what every frame holds               *)
(* ------------------------------------------------------------------ *)

Lemma Forall_update {A} (Q : A -> Prop) (f : A -> A) (n : nat) (l : list A) :
  (forall x, Q x -> Q (f x)) -> Forall Q l -> Forall Q (update n f l).
Proof.
  intros Hf H. revert n. induction H as [|x l Hx Hl IH]; intros [|n]; simpl;
    constructor; auto.
Qed.

Lemma Forall_nth_default {A} (Q : A -> Prop) (l : list A) (n : nat) (d : A) :
  Q d -> Forall Q l -> Q (nth n l d).
Proof.
  intros Hd H. revert n. induction H as [|x l Hx _ IH]; intros [|n]; simpl; auto.
Qed.

Lemma Forall_concat {A} (Q : A -> Prop) (ls : list (list A)) :
  Forall (Forall Q) ls -> Forall Q (List.concat ls).
Proof.
  induction 1 as [|l ls Hl _ IH]; simpl; [constructor|].
  apply Forall_app. split; assumption.
Qed.

Lemma in_range_index {A} (i : nat) (x : A) (xs : list A) :
  In (i, x) (range_index xs) -> In x xs.
Proof. unfold range_index. apply in_combine_r. Qed.

Lemma for_each_snoc {S A} (xs : list A) (x : A) (body : A -> M S unit) (s : S) :
  for_each (xs ++ [x]) body s
  = match for_each xs body s with
    | (Ok _, s') => body x s'
    | (Raise e, s') => (Raise e, s')
    end.
Proof.
  revert s. induction xs as [|y xs IH]; intros s; simpl.
  - unfold bind. destruct (body x s) as [[[]|e] s']; reflexivity.
  - unfold bind. destruct (body y s) as [[[]|e] s']; [apply IH | reflexivity].
Qed.

Section SplitInvariant.

Variable wkt_dumps : geometry -> string.
Variable contains : geometry -> geometry -> bool.
Variable US_STATES : list UsState.row.
Variable gdf : frame Line.row.

Lemma state_rows_contained s :
  Forall (row_contained contains US_STATES gdf) (state_rows contains US_STATES gdf s).
Proof.
  apply Forall_forall. intros r Hr. unfold state_rows, set_state in Hr.
  apply in_map_iff in Hr. destruct Hr as [[i f] [<- Hin]].
  apply filter_In in Hin. destruct Hin as [Hin Hc].
  split; assumption.
Qed.

Lemma set_region_contained rn df : Forall (row_contained contains US_STATES gdf) df -> Forall (row_contained contains US_STATES gdf) (set_region rn df).
Proof.
  intros H. unfold set_region. apply Forall_forall. intros r Hr.
  apply in_map_iff in Hr. destruct Hr as [r0 [<- Hin]].
  rewrite Forall_forall in H. exact (H r0 Hin).
Qed.

Lemma state_step_inv s st :
  frames_contained contains US_STATES gdf st -> frames_contained contains US_STATES gdf (snd (state_step contains US_STATES gdf s st)).
Proof.
  intros [Hh Hl].
  destruct (resolve_cases US_STATES s) as [[area Hres]|[e Hres]].
  - rewrite (state_step_ok contains US_STATES gdf s st area Hres).
    assert (Hl' : Forall (Forall (row_contained contains US_STATES gdf))
                    (SplitSt.region_list st
                     ++ [state_rows contains US_STATES gdf s])).
    { apply Forall_app. split; [exact Hl|].
      constructor; [apply state_rows_contained | constructor]. }
    split; cbn [snd SplitSt.heap SplitSt.region_list]; [|exact Hl'].
    apply Forall_app. split; [exact Hh|].
    constructor; [now apply Forall_concat | constructor].
  - rewrite (state_step_raise contains US_STATES gdf s st e Hres).
    split; assumption.
Qed.

Lemma states_loop_inv sts st :
  frames_contained contains US_STATES gdf st -> frames_contained contains US_STATES gdf (snd (for_each sts (state_step contains US_STATES gdf) st)).
Proof.
  revert st. induction sts as [|s sts IH]; intros st Hst; [exact Hst|].
  simpl. unfold bind.
  pose proof (state_step_inv s st Hst) as H1.
  destruct (state_step contains US_STATES gdf s st) as [[[]|e] st1];
    [now apply IH | exact H1].
Qed.

Lemma region_step_inv rs st :
  frames_contained contains US_STATES gdf st -> frames_contained contains US_STATES gdf (snd (region_step contains US_STATES gdf rs st)).
Proof.
  intros [Hh _]. rewrite region_step_unfold.
  set (st0 := SplitSt.set_region_list [] _).
  assert (H0 : frames_contained contains US_STATES gdf st0) by (split; [exact Hh | constructor]).
  pose proof (states_loop_inv (snd rs) st0 H0) as H1.
  destruct (for_each (snd rs) _ st0) as [[[]|e] st1]; [|exact H1].
  cbn [snd] in H1.
  destruct (SplitSt.region_df st1) as [r|]; [|exact H1].
  destruct H1 as [H1 H2]. split; cbn [snd SplitSt.heap SplitSt.region_list];
    [|exact H2].
  apply Forall_update; [apply set_region_contained | exact H1].
Qed.

Lemma partition_loop_inv regs st :
  frames_contained contains US_STATES gdf st -> frames_contained contains US_STATES gdf (snd (for_each regs (region_step contains US_STATES gdf) st)).
Proof.
  revert st. induction regs as [|rs regs IH]; intros st Hst; [exact Hst|].
  simpl. unfold bind.
  pose proof (region_step_inv rs st Hst) as H1.
  destruct (region_step contains US_STATES gdf rs st) as [[[]|e] st1];
    [now apply IH | exact H1].
Qed.

Lemma output_table_contained st :
  Forall (Forall (row_contained contains US_STATES gdf)) (SplitSt.heap st) -> Forall (row_contained contains US_STATES gdf) (output_table st).
Proof.
  intros Hh. unfold output_table, tx_frames. apply Forall_concat.
  apply Forall_forall. intros df Hdf. apply in_map_iff in Hdf.
  destruct Hdf as [r [<- _]]. unfold SplitSt.deref.
  apply Forall_nth_default; [constructor | exact Hh].
Qed.

End SplitInvariant.

Lemma split_rows_contained
    (wkt_dumps : geometry -> string) (contains : geometry -> geometry -> bool)
    (US_STATES : list UsState.row) (current_time : string)
    (features : list Line.row)
    (region_names : list string) (region_states : list (list string))
    (fs : Files) :
  let st := split_locals wkt_dumps contains US_STATES current_time
              features region_names region_states fs in
  let run := split_txlines_by_region wkt_dumps contains US_STATES current_time
               features region_names region_states fs in
  Forall (row_contained contains US_STATES (range_index features))
         (output_table st)
  /\ (fst run = Ok tt ->
      tx_lines_csv (snd run) = Some (map (csv_row wkt_dumps) (output_table st))).
Proof.
  intros st run. subst st run.
  unfold split_txlines_by_region, split_locals.
  rewrite split_body_unfold. unfold partition_loop.
  set (st0 := SplitSt.set_tx_lines [] _).
  assert (H0 : frames_contained contains US_STATES (range_index features) st0)
    by (split; constructor).
  pose proof (partition_loop_inv contains US_STATES (range_index features)
                (combine region_names region_states) st0 H0) as [H1 _].
  destruct (for_each _ _ st0) as [[[]|e] st1]; cbn [fst snd] in *.
  - unfold pd_concat. destruct (tx_frames st1) as [|b bs] eqn:Hf;
      cbn [fst snd].
    + split; [now apply output_table_contained | discriminate].
    + split.
      * apply (output_table_contained contains US_STATES
                 (range_index features) st1 H1).
      * intros _. unfold output_table.
        change (tx_frames (SplitSt.on_files log_close
                  (SplitSt.on_files
                     (write_tx_lines
                        (map (csv_row wkt_dumps) (List.concat (b :: bs))))
                     st1)))
          with (tx_frames st1).
        rewrite Hf. reflexivity.
  - split; [now apply output_table_contained | discriminate].
Qed.

(** X12.  Whatever the configuration is, regions without states included, every
    row of the table that the call hands to [to_csv] is a row of the input
    (same index label, same attributes and geometry) and carries a state
    whose polygon contains its line; when the call returns, the written
    file is that table. *)
Theorem split_rows_are_contained
    (wkt_dumps : geometry -> string) (contains : geometry -> geometry -> bool)
    (US_STATES : list UsState.row) (current_time : string)
    (features : list Line.row)
    (region_names : list string) (region_states : list (list string))
    (fs : Files) :
  let st := split_locals wkt_dumps contains US_STATES current_time
              features region_names region_states fs in
  let run := split_txlines_by_region wkt_dumps contains US_STATES current_time
               features region_names region_states fs in
  Forall (row_contained contains US_STATES (range_index features))
         (output_table st)
  /\ (fst run = Ok tt ->
      tx_lines_csv (snd run) = Some (map (csv_row wkt_dumps) (output_table st))).
Proof.
  apply split_rows_contained.
Qed.

(* ------------------------------------------------------------------ *)
(** ** The two stages in sequence                                      *)
(* ------------------------------------------------------------------ *)

Lemma loads_csv_rows wkt_loads wkt_dumps (table : list Part.row) :
  Forall (fun r => wkt_loads (wkt_dumps (Line.geometry (Part.feature r)))
                   = Some (Line.geometry (Part.feature r))) table ->
  loads_geometry wkt_loads (map (csv_row wkt_dumps) table)
  = Ok (map loaded_row table).
Proof.
  unfold loads_geometry. induction 1 as [|r table Hr _ IH]; [reflexivity|].
  simpl. unfold loads_row at 1. cbn [csv_row Tx.geometry]. rewrite Hr.
  simpl. rewrite IH. reflexivity.
Qed.

Lemma in_indexed_from {A} (k : nat) (x : A) (xs : list A) :
  In x xs -> exists i, In (i, x) (indexed_from k xs).
Proof.
  revert k. induction xs as [|y xs IH]; intros k H; [contradiction|].
  rewrite indexed_from_cons. destruct H as [->|H].
  - exists k. now left.
  - destruct (IH (S k) H) as [i Hi]. exists i. now right.
Qed.

Lemma state_rows_nonempty contains US_STATES features s l :
  In l features -> contained_by contains US_STATES s l = true ->
  state_rows contains US_STATES (range_index features) s <> [].
Proof.
  intros Hin Hc. destruct (in_indexed_from 0 l features Hin) as [i Hi].
  change (indexed_from 0 features) with (range_index features) in Hi.
  unfold state_rows, set_state.
  assert (H : In (i, l)
                (filter (fun ir => contained_by contains US_STATES s (snd ir))
                        (range_index features)))
    by (apply filter_In; split; assumption).
  destruct (filter _ (range_index features)); [contradiction | discriminate].
Qed.

Lemma region_rows_contained contains US_STATES gdf regs :
  Forall (row_contained contains US_STATES gdf)
         (flat_map (region_rows contains US_STATES gdf) regs).
Proof.
  apply Forall_forall. intros r Hr. apply in_flat_map in Hr.
  destruct Hr as [[rn sts] [_ Hr]]. revert r Hr. apply Forall_forall.
  unfold region_rows. cbn [fst snd]. apply set_region_contained.
  rewrite flat_map_concat_map. apply Forall_concat.
  apply Forall_forall. intros fr Hfr. apply in_map_iff in Hfr.
  destruct Hfr as [s [<- _]]. apply state_rows_contained.
Qed.

(** X18.  [get_tower_coords] on the table that [split_txlines_by_region] has
    written, for a configuration in which every region declares states
    that resolve and every declared state contains at least one line, so
    that no frame is left without rows and [tx_lines.csv] has all its
    columns as they were.  [csv] is the table that [pd.read_csv] gets from
    the file; when it holds the cells that were written and the text of
    each geometry loads as that geometry, the second stage returns: its
    tower rows are, row of [tx_lines.csv] after row, the vertices of the
    rows that are LineStrings, with the state and region of the
    partition; it leaves [tx_lines.csv] as written and its log closed. *)
Theorem tower_coords_of_split_output
    (wkt_loads : string -> option geometry) (wkt_dumps : geometry -> string)
    (contains : geometry -> geometry -> bool) (US_STATES : list UsState.row)
    (time1 time2 : string) (features : list Line.row)
    (region_names : list string) (region_states : list (list string))
    (fs : Files) (csv : list (Tx.row string)) :
  let regs := combine region_names region_states in
  let gdf := range_index features in
  let table := flat_map (region_rows contains US_STATES gdf) regs in
  let fs1 := snd (split_txlines_by_region wkt_dumps contains US_STATES time1
                    features region_names region_states fs) in
  regs <> [] ->
  Forall (fun rs => snd rs <> [] /\ all_resolve US_STATES (snd rs)) regs ->
  every_state_has_a_line contains US_STATES features regs ->
  (forall l, In l features ->
             wkt_loads (wkt_dumps (Line.geometry l)) = Some (Line.geometry l)) ->
  csv = map (csv_row wkt_dumps) table ->
  tx_lines_csv fs1 = Some csv
  /\ Forall (fun rs =>
               Forall (fun s => state_rows contains US_STATES gdf s <> [])
                      (snd rs)) regs
  /\ csv <> []
  /\ fst (get_tower_coords wkt_loads time2 csv fs1)
     = Ok (flat_map (fun r => row_points (loaded_row r)) table)
  /\ tx_lines_csv (snd (get_tower_coords wkt_loads time2 csv fs1)) = Some csv
  /\ is_open (error_log (snd (get_tower_coords wkt_loads time2 csv fs1)))
     = false.
Proof.
  intros regs gdf table fs1 Hne Hregs Hlines Hrt Hcsv.
  assert (Hfs1 : tx_lines_csv fs1 = Some csv).
  { subst fs1 csv table regs gdf.
    rewrite (split_run_nonempty_regions wkt_dumps contains US_STATES time1
               features region_names region_states fs Hne Hregs).
    reflexivity. }
  assert (Hframes : Forall (fun rs =>
               Forall (fun s => state_rows contains US_STATES gdf s <> [])
                      (snd rs)) regs).
  { eapply Forall_impl; [|exact Hlines]. intros rs H.
    eapply Forall_impl; [|exact H]. intros s (l & Hl & Hc).
    now apply state_rows_nonempty with l. }
  split; [exact Hfs1|]. split; [exact Hframes|]. split.
  - subst csv table. destruct regs as [|[rn sts] regs']; [now elim Hne|].
    inversion Hregs as [|? ? [Hs _] _]; subst. cbn [snd] in Hs.
    inversion Hframes as [|? ? Hf _]; subst. cbn [snd] in Hf.
    destruct sts as [|s sts]; [now elim Hs|].
    inversion Hf as [|? ? Hs0 _]; subst.
    cbn [flat_map]. unfold region_rows at 1. cbn [fst snd flat_map].
    destruct (state_rows contains US_STATES gdf s); [now elim Hs0|].
    discriminate.
  - assert (Hl : loads_geometry wkt_loads csv = Ok (map loaded_row table)).
    { subst csv. apply loads_csv_rows.
      eapply Forall_impl;
        [|exact (region_rows_contained contains US_STATES gdf regs)].
      intros r [Hin _]. apply Hrt. eapply in_range_index. exact Hin. }
    rewrite (get_tower_coords_run wkt_loads time2 csv fs1 _ Hl).
    cbn [fst snd tx_lines_csv error_log is_open].
    split; [|split; [exact Hfs1 | reflexivity]].
    f_equal. rewrite flat_map_concat_map, map_map, <- flat_map_concat_map.
    reflexivity.
Qed.

(* ------------------------------------------------------------------ *)
(** ** [split_txlines_by_region]: a region without states after another *)
(* ------------------------------------------------------------------ *)

Lemma set_region_twice rn rn' df :
  set_region rn' (set_region rn df) = set_region rn' df.
Proof. unfold set_region. rewrite map_map. reflexivity. Qed.

Section SplitAlias.

Variable wkt_dumps : geometry -> string.
Variable contains : geometry -> geometry -> bool.
Variable US_STATES : list UsState.row.

(** After regions that all declare states, [region_df] refers to the frame
    of the last region, which is the last object of the heap and the last
    element of [tx_lines]; the other elements refer to older objects. *)
Lemma partition_loop_last gdf regs :
  Forall (fun rs => snd rs <> [] /\ all_resolve US_STATES (snd rs)) regs ->
  regs <> [] ->
  forall st st',
    Forall (fun r => r < List.length (SplitSt.heap st)) (SplitSt.tx_lines st) ->
    for_each regs (region_step contains US_STATES gdf) st = (Ok tt, st') ->
    exists r front,
      SplitSt.region_df st' = Some r
      /\ SplitSt.tx_lines st' = front ++ [r]
      /\ Forall (fun k => k < r) front
      /\ S r = List.length (SplitSt.heap st').
Proof.
  induction 1 as [|[rn sts] regs [Hne Hall] Hregs IH]; intros Hnn st st' Hv Hloop;
    [congruence|].
  cbn [snd] in Hne, Hall. simpl in Hloop. unfold bind in Hloop.
  destruct (region_step_nonempty contains US_STATES gdf rn sts st Hall Hne)
    as [garbage Hg].
  rewrite Hg in Hloop.
  set (r := List.length (SplitSt.heap st) + List.length garbage) in *.
  match type of Hg with _ = (_, ?s) => set (st1 := s) in * end.
  assert (Hlen : List.length (SplitSt.heap st1) = S r).
  { subst st1 r. cbn [SplitSt.heap]. rewrite !length_app. simpl. lia. }
  destruct regs as [|rs regs].
  - injection Hloop as <-. exists r, (SplitSt.tx_lines st).
    split; [reflexivity|]. split; [reflexivity|]. split; [|now rewrite Hlen].
    eapply Forall_impl; [|exact Hv]. subst r. simpl. intros; lia.
  - apply (IH ltac:(discriminate) st1 st'); [|exact Hloop].
    rewrite Hlen. subst st1. cbn [SplitSt.tx_lines].
    apply Forall_app. split.
    + eapply Forall_impl; [|exact Hv]. subst r. simpl. intros; lia.
    + constructor; [lia | constructor].
Qed.

(** X13.  When the regions of the
    zip all declare states that resolve, except the last one, which
    declares none, the call returns.  The turn of the last region names
    again the frame of the region before it and appends it again: the
    written table holds the rows of the earlier regions, then the rows of
    the region before the last twice, both times under the name of the
    last region; no row carries the name of the region before the last,
    and the log has the header of the last region and no count for it. *)
Theorem split_last_region_without_states current_time features
    region_names region_states fs pre rn sts rn' :
  let gdf := range_index features in
  combine region_names region_states = pre ++ [(rn, sts); (rn', [])] ->
  Forall (fun rs => snd rs <> [] /\ all_resolve US_STATES (snd rs))
         (pre ++ [(rn, sts)]) ->
  split_txlines_by_region wkt_dumps contains US_STATES current_time features
    region_names region_states fs
  = (Ok tt,
     mkFiles
       (mkLog (start_line current_time
               :: partition_log contains US_STATES gdf (pre ++ [(rn, sts)])
               ++ [region_header rn']) [] false)
       (Some (map (csv_row wkt_dumps)
                  (flat_map (region_rows contains US_STATES gdf) pre
                   ++ region_rows contains US_STATES gdf (rn', sts)
                   ++ region_rows contains US_STATES gdf (rn', sts))))
       (tower_coordinates_csv fs)).
Proof.
  intros gdf Hzip Hregs.
  unfold split_txlines_by_region. rewrite split_body_unfold.
  unfold partition_loop. rewrite Hzip. fold gdf.
  change (pre ++ [(rn, sts); (rn', [])])
    with (pre ++ [(rn, sts)] ++ [(rn', @nil string)]).
  rewrite app_assoc, for_each_snoc.
  set (st0 := SplitSt.set_tx_lines [] _).
  destruct (partition_loop_nonempty contains US_STATES gdf _ Hregs st0
              (Forall_nil _)) as (st1 & E & F & _ & L).
  destruct (partition_loop_last gdf _ Hregs ltac:(now destruct pre) st0 st1
              (Forall_nil _) E) as (r & front & Hr & Ht & Hfront & Hlen).
  destruct (partition_loop_keeps contains US_STATES gdf (pre ++ [(rn, sts)])
              (SplitSt.files st0) st0 (same_tables_refl _)) as ((_ & K & _) & _).
  rewrite E in K |- *. cbn [fst snd] in K.
  rewrite region_step_empty, Hr.
  (* the frames before the turn of the last region *)
  change (tx_frames st0) with (@nil (list Part.row)) in F. cbn [app] in F.
  unfold tx_frames in F. rewrite Ht, !map_app in F. cbn [map] in F.
  apply app_inj_tail in F. destruct F as [Ffront Flast].
  unfold SplitSt.deref in Ffront, Flast.
  (* the frames after it *)
  assert (Hframes :
    tx_frames (SplitSt.mk (log_write (region_header rn') (SplitSt.files st1))
                 (update r (set_region rn') (SplitSt.heap st1)) [] (Some r)
                 (SplitSt.tx_lines st1 ++ [r]))
    = map (region_rows contains US_STATES gdf) pre
      ++ [region_rows contains US_STATES gdf (rn', sts);
          region_rows contains US_STATES gdf (rn', sts)]).
  { unfold tx_frames, SplitSt.deref. cbn [SplitSt.tx_lines SplitSt.heap].
    rewrite Ht, !map_app. cbn [map]. rewrite <- app_assoc. cbn [app].
    assert (Hnr : nth r (update r (set_region rn') (SplitSt.heap st1)) []
                  = region_rows contains US_STATES gdf (rn', sts)).
    { rewrite nth_update, Nat.eqb_refl.
      replace (Nat.ltb r (List.length (SplitSt.heap st1))) with true
        by (symmetry; apply Nat.ltb_lt; lia).
      rewrite Flast. unfold region_rows. cbn [fst snd].
      apply set_region_twice. }
    rewrite Hnr. f_equal. rewrite <- Ffront.
    apply map_ext_in. intros k Hk. rewrite Forall_forall in Hfront.
    rewrite nth_update.
    destruct (Nat.eqb_spec k r) as [->|_]; [|reflexivity].
    specialize (Hfront r Hk). lia. }
  cbn [fst snd]. rewrite Hframes. unfold pd_concat.
  destruct (map (region_rows contains US_STATES gdf) pre
            ++ [region_rows contains US_STATES gdf (rn', sts);
                region_rows contains US_STATES gdf (rn', sts)])
    as [|b bs] eqn:Hm.
  { apply app_eq_nil in Hm. destruct Hm as [_ Hm]. discriminate. }
  rewrite <- Hm. cbn [fst snd].
  unfold SplitSt.on_files. cbn [SplitSt.files].
  rewrite log_close_written. unfold write_tx_lines.
  cbn [tx_lines_csv tower_coordinates_csv error_log].
  unfold log_written at 1. cbn [error_log].
  fold (log_written (log_write (region_header rn') (SplitSt.files st1))).
  change (tower_coordinates_csv
            (log_write (region_header rn') (SplitSt.files st1)))
    with (tower_coordinates_csv (SplitSt.files st1)).
  rewrite log_written_write, L, K.
  rewrite concat_app, <- flat_map_concat_map. cbn [List.concat].
  rewrite app_nil_r. reflexivity.
Qed.

End SplitAlias.

(* ------------------------------------------------------------------ *)
(** ** [split_txlines_by_region]: a state without a polygon            *)
(* ------------------------------------------------------------------ *)

Lemma filter_named_none s (T : list UsState.row) :
  (forall r, In r T -> UsState.STATE_NAME r <> s) ->
  filter (fun r => String.eqb (UsState.STATE_NAME r) s) T = [].
Proof.
  induction T as [|r T IH]; intros H; [reflexivity|]. simpl.
  destruct (String.eqb_spec (UsState.STATE_NAME r) s) as [E|E].
  - elim (H r (or_introl eq_refl) E).
  - apply IH. intros r' Hr'. apply H. now right.
Qed.

Lemma state_polygon_first pre r post s :
  (forall r', In r' pre -> UsState.STATE_NAME r' <> s) ->
  UsState.STATE_NAME r = s ->
  state_polygon (pre ++ r :: post) s = Ok (UsState.geometry r).
Proof.
  intros Hpre Hname. unfold state_polygon.
  rewrite filter_app, (filter_named_none s pre Hpre). simpl.
  apply String.eqb_eq in Hname. rewrite Hname. reflexivity.
Qed.

(** The look-up of lines 79-83 raises on a state without a polygon, with
    the exception of the case, and returns on a state that has one. *)
Lemma unusable_raises T s e : unusable T s e -> resolve T s = Raise e.
Proof.
  destruct 1 as [Hno | pre r post HT Hpre Hname Hp Hm]; unfold resolve.
  - unfold state_polygon. rewrite (filter_named_none s T Hno). reflexivity.
  - subst T. rewrite (state_polygon_first pre r post s Hpre Hname). simpl.
    unfold valid_area_of.
    destruct (String.eqb_spec (geom_type (UsState.geometry r)) "Polygon");
      [contradiction|].
    destruct (String.eqb_spec (geom_type (UsState.geometry r)) "MultiPolygon");
      [contradiction|].
    reflexivity.
Qed.

Lemma usable_resolves T s : usable T s -> is_ok (resolve T s) = true.
Proof.
  intros (pre & r & post & HT & Hpre & Hname & Hty). subst T. unfold resolve.
  rewrite (state_polygon_first pre r post s Hpre Hname). simpl.
  unfold valid_area_of. destruct Hty as [E | E]; rewrite E; reflexivity.
Qed.

Lemma usable_all_resolve T sts : Forall (usable T) sts -> all_resolve T sts.
Proof.
  unfold all_resolve. intros H. eapply Forall_impl; [|exact H].
  intros s Hs. now apply usable_resolves.
Qed.

Lemma for_each_app {S A} (xs ys : list A) (body : A -> M S unit) (st : S) :
  for_each (xs ++ ys) body st
  = match for_each xs body st with
    | (Ok _, st1) => for_each ys body st1
    | (Raise e, st1) => (Raise e, st1)
    end.
Proof.
  revert st. induction xs as [|x xs IH]; intros st; [reflexivity|].
  cbn [app for_each]. unfold bind.
  destruct (body x st) as [[[]|e] st1]; [apply IH | reflexivity].
Qed.

Section SplitAbort.

Variable wkt_dumps : geometry -> string.
Variable contains : geometry -> geometry -> bool.
Variable US_STATES : list UsState.row.

(** The state loop over states that resolve writes their counts, whether
    or not there is a state at all. *)
Lemma states_loop_files gdf sts st :
  all_resolve US_STATES sts ->
  exists st',
    for_each sts (state_step contains US_STATES gdf) st = (Ok tt, st')
    /\ SplitSt.files st'
       = log_lines
           (map (fun s => state_count_message s
                            (List.length (state_rows contains US_STATES gdf s)))
                sts)
           (SplitSt.files st).
Proof.
  intros Hall. destruct sts as [|s sts].
  - exists st. split; reflexivity.
  - destruct (states_loop_ok contains US_STATES gdf (s :: sts) st Hall)
      as [g Hg]; [discriminate|].
    eexists. split; [exact Hg | reflexivity].
Qed.

(** The region loop over regions whose states resolve returns, provided
    [region_df] is bound or the first region declares a state; the log
    holds what [partition_log] lists. *)
Lemma partition_loop_log gdf regs :
  Forall (fun rs => all_resolve US_STATES (snd rs)) regs ->
  forall st,
    (SplitSt.region_df st <> None
     \/ forall rn rest, regs <> (rn, []) :: rest) ->
    exists st',
      for_each regs (region_step contains US_STATES gdf) st = (Ok tt, st')
      /\ log_written (SplitSt.files st')
         = log_written (SplitSt.files st)
           ++ partition_log contains US_STATES gdf regs.
Proof.
  induction 1 as [|[rn sts] regs Hall _ IH]; intros st Hb.
  - exists st. split; [reflexivity|]. unfold partition_log. simpl.
    now rewrite app_nil_r.
  - cbn [snd] in Hall. destruct sts as [|s sts].
    + destruct Hb as [Hb | Hb]; [|now elim (Hb rn regs)].
      cbn [for_each]. unfold bind. rewrite region_step_empty.
      destruct (SplitSt.region_df st) as [r|] eqn:Hr; [|congruence].
      set (st1 := SplitSt.mk (log_write (region_header rn) (SplitSt.files st))
                             (update r (set_region rn) (SplitSt.heap st))
                             [] (Some r) (SplitSt.tx_lines st ++ [r])).
      destruct (IH st1) as (st' & E & L); [left; discriminate|].
      exists st'. split; [exact E|]. rewrite L. subst st1.
      cbn [SplitSt.files]. rewrite log_written_write.
      unfold partition_log. cbn [flat_map]. unfold region_log at 2.
      cbn [fst snd map]. rewrite <- app_assoc. reflexivity.
    + destruct (region_step_nonempty contains US_STATES gdf rn (s :: sts) st
                  Hall) as [g Hg]; [discriminate|].
      match type of Hg with _ = (_, ?s1) => set (st1 := s1) in * end.
      cbn [for_each]. unfold bind. rewrite Hg.
      destruct (IH st1) as (st' & E & L); [left; discriminate|].
      exists st'. split; [exact E|]. rewrite L. subst st1.
      cbn [SplitSt.files]. rewrite log_written_lines, log_written_write.
      unfold partition_log. cbn [flat_map]. unfold region_log at 2.
      cbn [fst snd]. rewrite <- !app_assoc. reflexivity.
Qed.

(** X30.  A declared state without a polygon, derived from the reference
    table.  Let [s] be the first state, in the order of the loops, that the
    table has no polygon for: every state of the regions before and every
    state before [s] in its region has a row whose geometry is a Polygon or
    a MultiPolygon, and no row is named [s], or the first row named [s]
    holds another type of geometry.  When the first region of the zip
    declares a state, the call raises at the look-up of [s]: [IndexError]
    for the missing row, [ValueError('invalid polygon:', type)] for the
    type.  It raises at once: the log holds the start line, the lines of
    the regions before, the header of the region of [s] and the counts of
    the states before [s], and nothing for [s] or after it; the states
    after [s] and the regions after are not looked at, whatever they are;
    no table is written, and the log is left open. *)
Theorem split_raises_at_first_unusable_state current_time features
    region_names region_states fs pre rn before s after post e :
  combine region_names region_states
  = pre ++ (rn, before ++ s :: after) :: post ->
  Forall (fun rs => Forall (usable US_STATES) (snd rs)) pre ->
  Forall (usable US_STATES) before ->
  (forall rn0 rest, pre <> (rn0, []) :: rest) ->
  unusable US_STATES s e ->
  let gdf := range_index features in
  let run := split_txlines_by_region wkt_dumps contains US_STATES current_time
               features region_names region_states fs in
  fst run = Raise e
  /\ tx_lines_csv (snd run) = tx_lines_csv fs
  /\ tower_coordinates_csv (snd run) = tower_coordinates_csv fs
  /\ is_open (error_log (snd run)) = true
  /\ log_written (snd run)
     = start_line current_time
       :: partition_log contains US_STATES gdf pre
       ++ region_header rn
       :: map (fun s' => state_count_message s'
                 (List.length (state_rows contains US_STATES gdf s')))
              before.
Proof.
  intros Hzip Hpre Hbefore Hfirst Hbad gdf run. subst run.
  unfold split_txlines_by_region. rewrite split_body_unfold.
  unfold partition_loop. rewrite Hzip. fold gdf.
  set (st0 := SplitSt.set_tx_lines [] _).
  assert (Hpre' : Forall (fun rs => all_resolve US_STATES (snd rs)) pre).
  { eapply Forall_impl; [|exact Hpre]. intros rs H.
    now apply usable_all_resolve. }
  destruct (partition_loop_log gdf pre Hpre' st0 (or_intror Hfirst))
    as (st1 & E1 & L1).
  set (st1' := SplitSt.set_region_list []
                 (SplitSt.on_files (log_write (region_header rn)) st1)).
  destruct (states_loop_files gdf before st1'
              (usable_all_resolve US_STATES before Hbefore))
    as (st2 & E2 & F2).
  assert (Hloop :
    for_each (pre ++ (rn, before ++ s :: after) :: post)
             (region_step contains US_STATES gdf) st0
    = (Raise e, st2)).
  { rewrite for_each_app, E1. cbn [for_each]. unfold bind at 1.
    rewrite region_step_unfold. cbn [fst snd]. fold st1'.
    rewrite for_each_app, E2. cbn [for_each]. unfold bind at 1.
    rewrite (state_step_raise contains US_STATES gdf s st2 e
               (unusable_raises US_STATES s e Hbad)).
    reflexivity. }
  destruct (partition_loop_keeps contains US_STATES gdf
              (pre ++ (rn, before ++ s :: after) :: post)
              (SplitSt.files st0) st0 (same_tables_refl _))
    as ((K1 & K2 & K3) & _).
  rewrite Hloop in K1, K2, K3 |- *. cbn [fst snd] in *.
  split; [reflexivity|]. split; [exact K1|]. split; [exact K2|].
  split; [exact K3|].
  rewrite F2, log_written_lines. subst st1'. cbn [SplitSt.files
    SplitSt.set_region_list SplitSt.on_files].
  rewrite log_written_write, L1. rewrite <- !app_assoc. reflexivity.
Qed.

End SplitAbort.

(* ------------------------------------------------------------------ *)
(** ** [split_txlines_by_region]: before the log is opened             *)
(* ------------------------------------------------------------------ *)

(** X19.  A shapefile without a reference frame: line 53 reads
    [tmp_gdf.crs.to_epsg()] and raises [AttributeError] before the output
    directory is created and before the log is opened; the directory is as
    it was. *)
Theorem split_from_file_without_crs
    (wkt_dumps : geometry -> string) (contains : geometry -> geometry -> bool)
    (US_STATES : list UsState.row)
    (to_crs : Crs.t -> list Line.row -> list Line.row) (longlat : Crs.t)
    (current_time : string) (tmp_gdf : Gdf.t)
    (region_names : list string) (region_states : list (list string))
    (dir : option Files) :
  Gdf.crs tmp_gdf = None ->
  split_txlines_by_region_from_file wkt_dumps contains US_STATES to_crs longlat
    current_time tmp_gdf region_names region_states dir
  = (Raised (Other "AttributeError"
                   "'NoneType' object has no attribute 'to_epsg'"),
     dir).
Proof.
  intros H. unfold split_txlines_by_region_from_file, normalised.
  rewrite H. reflexivity.
Qed.

(** X20.  Which table is partitioned.  With a reference frame of at least two
    axes, the rows are reprojected by [to_crs] unless the first axis is
    ['Lat'] and the second is not ['Lon']: the test of lines 55-56 is
    [(not a) or b], so a table whose axes are already (['Lat'], ['Lon'])
    is reprojected as well, and the only tables partitioned as read are
    those with a first axis ['Lat'] and another second axis. *)
Theorem split_from_file_conversion
    (wkt_dumps : geometry -> string) (contains : geometry -> geometry -> bool)
    (US_STATES : list UsState.row)
    (to_crs : Crs.t -> list Line.row -> list Line.row) (longlat : Crs.t)
    (current_time : string) (tmp_gdf : Gdf.t)
    (region_names : list string) (region_states : list (list string))
    (dir : option Files) (c : Crs.t) (a0 a1 : string) (others : list string) :
  Gdf.crs tmp_gdf = Some c ->
  Crs.axis_info c = a0 :: a1 :: others ->
  let rows := if String.eqb a0 "Lat" && negb (String.eqb a1 "Lon")
              then Gdf.rows tmp_gdf
              else to_crs c (Gdf.rows tmp_gdf) in
  let fs := match dir with Some fs => fs | None => fresh_dir end in
  let out := split_txlines_by_region wkt_dumps contains US_STATES current_time
               rows region_names region_states fs in
  split_txlines_by_region_from_file wkt_dumps contains US_STATES to_crs longlat
    current_time tmp_gdf region_names region_states dir
  = (of_result (fst out), Some (snd out))
  /\ (a0 = "Lat" -> a1 = "Lon" -> rows = to_crs c (Gdf.rows tmp_gdf)).
Proof.
  intros Hc Hax rows fs out. subst out fs rows. split.
  - unfold split_txlines_by_region_from_file, normalised, conversion_test,
      convert_to_EPSG4326.
    rewrite Hc, Hax. cbn [nth_error].
    destruct (String.eqb a0 "Lat"); cbn [negb andb];
      [destruct (String.eqb a1 "Lon")|]; reflexivity.
  - intros -> ->. reflexivity.
Qed.

(* ------------------------------------------------------------------ *)
(** ** [crop_image]                                                    *)
(* ------------------------------------------------------------------ *)

(** X21.  The crop box is a square of edge [new_squared_size], whatever the size
    of the image and the shifts are. *)
Theorem crop_box_is_square (width height new_squared_size hshift vshift : Z) :
  let b := Images.crop_box width height new_squared_size hshift vshift in
  (Images.box_right b - Images.box_left b == inject_Z new_squared_size
   /\ Images.box_bottom b - Images.box_top b == inject_Z new_squared_size)%Q.
Proof.
  unfold Images.crop_box, Images.box_right, Images.box_left,
    Images.box_bottom, Images.box_top. cbn [fst snd].
  unfold Z.sub. rewrite !inject_Z_plus, !inject_Z_opp.
  split; field.
Qed.

Lemma crop_box_inside (width height new_squared_size hshift vshift : Z) :
  inside_image width height
    (Images.crop_box width height new_squared_size hshift vshift)
  <-> (Z.abs (2 * hshift) <= width - new_squared_size
       /\ Z.abs (2 * vshift) <= height - new_squared_size)%Z.
Proof.
  unfold inside_image, Images.crop_box, Images.box_right, Images.box_left,
    Images.box_bottom, Images.box_top. cbn [fst snd].
  rewrite !Z.abs_le.
  unfold Qle, Qdiv, Qplus, Qmult, Qinv, inject_Z.
  cbn -[Z.mul Z.add Z.sub Z.opp]. lia.
Qed.

(** X22.  The box lies in the image exactly when each shift is at most half of
    the margin that the crop leaves on its axis:
    [|2 hshift| <= width - size] and [|2 vshift| <= height - size]. *)
Theorem crop_box_inside_iff (width height new_squared_size hshift vshift : Z) :
  inside_image width height
    (Images.crop_box width height new_squared_size hshift vshift)
  <-> (Z.abs (2 * hshift) <= width - new_squared_size
       /\ Z.abs (2 * vshift) <= height - new_squared_size)%Z.
Proof. apply crop_box_inside. Qed.

Section CropFacts.

Variable Image : Type.
Variable size : Image -> Z * Z.
Variable crop : Image -> Q * Q * Q * Q -> Image.
Variable rng : Type.
Variable draw : rng -> Z -> Z -> Z * rng.

(** X23.  Without [random_crop] the call returns the centred crop: the margins
    left and right of the box are equal, and so above and below; the box
    lies in the image exactly when the image is at least as large as the
    square.  [rdist] is not read (it may be negative) and the generator is
    not used. *)
Theorem crop_image_centred (img : Image) (new_squared_size rdist : Z) (g : rng) :
  let b := Images.crop_box (fst (size img)) (snd (size img))
             new_squared_size 0 0 in
  Images.crop_image size crop draw img new_squared_size false rdist g
  = (Ok (crop img b), g)
  /\ (Images.box_left b == inject_Z (fst (size img)) - Images.box_right b)%Q
  /\ (Images.box_top b == inject_Z (snd (size img)) - Images.box_bottom b)%Q
  /\ (inside_image (fst (size img)) (snd (size img)) b
      <-> (new_squared_size <= fst (size img)
           /\ new_squared_size <= snd (size img))%Z).
Proof.
  intros b. split; [reflexivity|].
  subst b. split; [|split].
  - unfold Images.crop_box, Images.box_right, Images.box_left. cbn [fst snd].
    unfold Z.sub. rewrite !inject_Z_plus, !inject_Z_opp. simpl (inject_Z 0).
    field.
  - unfold Images.crop_box, Images.box_bottom, Images.box_top. cbn [fst snd].
    unfold Z.sub. rewrite !inject_Z_plus, !inject_Z_opp. simpl (inject_Z 0).
    field.
  - rewrite crop_box_inside. simpl (Z.abs (2 * 0)). lia.
Qed.

(** X25.  With [random_crop] and a negative [rdist] the range of the draw is
    empty: [random.randint] raises [ValueError], nothing is cropped and
    the generator is not advanced. *)
Theorem crop_image_negative_rdist (img : Image) (new_squared_size rdist : Z)
    (g : rng) :
  (rdist < 0)%Z ->
  Images.crop_image size crop draw img new_squared_size true rdist g
  = (Raise (ValueError "empty range for randrange()" ""), g).
Proof.
  intros H. unfold Images.crop_image, Images.shifts, Images.randint.
  cbv [bind]. destruct (Z.leb_spec (- rdist) rdist) as [Hle|_]; [lia|].
  reflexivity.
Qed.

(** [randint(a, b)] returns a value of its range. *)
Hypothesis draw_in_range :
  forall g a b, (a <= b)%Z -> (a <= fst (draw g a b) <= b)%Z.

(** X24.  With [random_crop] and [0 <= rdist] the call returns; the generator is
    drawn from twice, first for the horizontal shift; each shift is within
    [rdist] of the centre; and when [rdist] is at most half of the margin
    on each axis ([2 rdist <= width - size], [2 rdist <= height - size])
    the box that is cropped lies in the image, whatever is drawn. *)
Theorem crop_image_jitter (img : Image) (new_squared_size rdist : Z) (g : rng) :
  (0 <= rdist)%Z ->
  let h := draw g (- rdist) rdist in
  let v := draw (snd h) (- rdist) rdist in
  let b := Images.crop_box (fst (size img)) (snd (size img))
             new_squared_size (fst h) (fst v) in
  Images.crop_image size crop draw img new_squared_size true rdist g
  = (Ok (crop img b), snd v)
  /\ (Z.abs (fst h) <= rdist /\ Z.abs (fst v) <= rdist)%Z
  /\ ((2 * rdist <= fst (size img) - new_squared_size)%Z ->
      (2 * rdist <= snd (size img) - new_squared_size)%Z ->
      inside_image (fst (size img)) (snd (size img)) b).
Proof.
  intros Hr h v b.
  assert (Hle : (- rdist <= rdist)%Z) by lia.
  pose proof (draw_in_range g _ _ Hle) as Hh.
  pose proof (draw_in_range (snd h) _ _ Hle) as Hv.
  fold h in Hh. fold v in Hv.
  split; [|split].
  - unfold Images.crop_image, Images.shifts, Images.randint. cbv [bind ret].
    destruct (Z.leb_spec (- rdist) rdist) as [_|Hlt]; [|lia].
    reflexivity.
  - lia.
  - intros Hw Hht. subst b. apply crop_box_inside. lia.
Qed.

End CropFacts.

(* ------------------------------------------------------------------ *)
(** ** The script of [stack_and_format_images.py]                      *)
(* ------------------------------------------------------------------ *)

Lemma has_sep_app (d p : string) :
  Images.has_sep (d ++ p) = Images.has_sep d || Images.has_sep p.
Proof.
  induction d as [|c d IH]; simpl; [reflexivity|].
  now rewrite IH, orb_assoc.
Qed.

(** X26.  The name under which a directory is processed.  For a path
    [d/name], as [glob] returns it, where [name] has no ['/'], it is
    [name], whatever [d] is; and the name never contains a ['/']. *)
Theorem path_tail_of_join (d name : string) :
  Images.has_sep name = false ->
  Images.path_tail (d ++ "/" ++ name) = name
  /\ forall p, Images.has_sep (Images.path_tail p) = false.
Proof.
  intros Hn. split.
  - induction d as [|c d IH]; simpl.
    + now rewrite Hn.
    + rewrite has_sep_app. simpl. rewrite orb_true_r. exact IH.
  - induction p as [|c p IH]; [reflexivity|]. simpl.
    destruct (Images.has_sep p) eqn:Hp; [exact IH|].
    destruct (Ascii.eqb c "/") eqn:Hc; [exact Hp|].
    simpl. now rewrite Hc, Hp.
Qed.

Lemma string_length_app (a b : string) :
  String.length (a ++ b) = String.length a + String.length b.
Proof. induction a as [|c a IH]; simpl; [reflexivity | now rewrite IH]. Qed.

Lemma dict_get_set_same {V} (k : string) (v : V) (d : list (string * V)) :
  Images.dict_get k (Images.dict_set k v d) = Some v.
Proof.
  induction d as [|[k' v'] d IH]; simpl.
  - now rewrite String.eqb_refl.
  - destruct (String.eqb k' k) eqn:E; simpl.
    + now rewrite String.eqb_refl.
    + now rewrite E.
Qed.

Lemma dict_get_set_other {V} (k k' : string) (v : V) (d : list (string * V)) :
  k <> k' ->
  Images.dict_get k (Images.dict_set k' v d) = Images.dict_get k d.
Proof.
  intros Hne. induction d as [|[k0 v0] d IH]; simpl.
  - destruct (String.eqb_spec k' k); [congruence | reflexivity].
  - destruct (String.eqb_spec k0 k') as [->|Hk]; simpl.
    + destruct (String.eqb_spec k' k); [congruence|].
      destruct (String.eqb_spec k' k); [congruence | reflexivity].
    + destruct (String.eqb_spec k0 k); [reflexivity | exact IH].
Qed.

Lemma jpg_path_not_infrared (out name : string) :
  (out ++ "/" ++ name ++ ".jpg")%string
  <> (out ++ "/infrared" ++ "/" ++ name ++ "_N.jpg")%string.
Proof.
  intros H. apply (f_equal String.length) in H.
  rewrite !string_length_app in H. simpl in H. lia.
Qed.

Section ScriptFacts.

Variable Image : Type.
Variable size : Image -> Z * Z.
Variable crop : Image -> Q * Q * Q * Q -> Image.
Variable rng : Type.
Variable draw : rng -> Z -> Z -> Z * rng.
Variable band : Type.
Variable array : Type.
Variable meta : Type.
Variable imread : string -> outcome band.
Variable np_stack : list band -> outcome array.
Variable fromarray : array -> outcome Image.
Variable rasterio_open : string -> outcome (meta * (Q * Q)).
Variable save_error : Images.World Image band meta -> string -> Image -> option exn_ext.
Variable imsave_error : Images.World Image band meta -> string -> band -> option exn_ext.
Variable makedirs_error : Images.World Image band meta -> string -> option exn_ext.
Variable open_error : Images.World Image band meta -> string -> option exn_ext.

(** The [try] of lines 109-116 as a whole: it returns whatever happens in
    it; the generator and the dictionary are as before; the only file it
    can write is the infrared file; it writes no pickle. *)
Lemma infrared_effect (a : Images.Args) (directory filename : string)
    (st : Images.State Image rng band meta) :
  exists w',
    try_pass (Images.infrared (rng:=rng) imread imsave_error makedirs_error
                a directory filename) st
    = (Returned tt, Images.mkState w' (Images.gen st) (Images.meta_dict st))
    /\ (forall p,
          p <> (Images.out_dir a ++ "/infrared" ++ "/" ++ filename ++ "_N.jpg")%string ->
          Images.dict_get p (Images.written w')
          = Images.dict_get p (Images.written (Images.world st)))
    /\ (forall p d,
          Images.dict_get p (Images.written w') = Some (Images.Pickle Image band d) ->
          Images.dict_get p (Images.written (Images.world st))
          = Some (Images.Pickle Image band d)).
Proof.
  destruct st as [w g md].
  unfold try_pass, Images.infrared, Images.makedirs, Images.imsave,
    Images.write_file, Images.exists_.
  cbv [bindx getx retx liftx].
  cbn [Images.world Images.gen Images.meta_dict Images.written Images.existing].
  set (path := (Images.out_dir a ++ "/infrared" ++ "/" ++ filename ++ "_N.jpg")%string).
  assert (Hsame : forall q (b : band) (d : list (string * (meta * Q * Q))),
            Images.dict_get q
              (Images.dict_set path (Images.JpegBand Image meta b)
                 (Images.written w))
            = Some (Images.Pickle Image band d) ->
            Images.dict_get q (Images.written w)
            = Some (Images.Pickle Image band d)).
  { intros q b d Hd. destruct (String.eqb_spec q path) as [->|Hq].
    - rewrite dict_get_set_same in Hd. discriminate.
    - now rewrite dict_get_set_other in Hd. }
  match goal with |- context [negb ?c] => destruct (negb c) end;
    [match goal with
     | |- context [makedirs_error ?w1 ?p1] => destruct (makedirs_error w1 p1)
     end|];
    cbn [Images.world Images.gen Images.meta_dict Images.written Images.existing];
    try (destruct (imread (directory ++ "/download.N.tif")) as [b|e];
         [match goal with
          | |- context [imsave_error ?w1 ?p1 ?b1] =>
              destruct (imsave_error w1 p1 b1)
          end|]);
    cbn [Images.world Images.gen Images.meta_dict Images.written Images.existing];
    (eexists; split; [reflexivity|];
     cbn [Images.written]; split;
     [ intros q Hq; try reflexivity; now apply dict_get_set_other
     | intros q d Hd; try exact Hd; now apply Hsame with b ]).
Qed.

(** X27.  One directory with readable red, green and blue bands, an array that
    PIL accepts, a crop that returns, a JPEG that can be saved and a raster
    header that can be read: the turn of the loop returns, whatever
    happens to the infrared band (no such file, a directory that cannot
    be created, a file that cannot be written).  The cropped image is in
    [out_dir/name.jpg], the dictionary has the metadata of the red band
    under [name], and the generator is where the crop has left it. *)
Theorem process_returns (a : Images.Args) (directory : string)
    (st : Images.State Image rng band meta)
    (arr : array) (img img' : Image) (g' : rng) (m : meta * Q * Q) :
  Images.stack_RGB_bands imread np_stack directory = Returned arr ->
  fromarray arr = Returned img ->
  Images.crop_image size crop draw img (Images.image_size a)
    (Images.random_crop a) (Images.rdist a) (Images.gen st) = (Ok img', g') ->
  save_error (Images.world st)
    (Images.out_dir a ++ "/" ++ Images.path_tail directory ++ ".jpg") img' = None ->
  Images.read_tiff_meta rasterio_open (directory ++ "/download.R.tif")
  = Returned m ->
  exists w',
    Images.process size crop draw imread np_stack fromarray rasterio_open
      save_error imsave_error makedirs_error a directory st
    = (Returned tt,
       Images.mkState w' g'
         (Images.dict_set (Images.path_tail directory) m (Images.meta_dict st)))
    /\ Images.dict_get
         (Images.out_dir a ++ "/" ++ Images.path_tail directory ++ ".jpg")
         (Images.written w')
       = Some (Images.Jpeg band meta img').
Proof.
  intros Hstack Hfrom Hcrop Hsave Hmeta.
  unfold Images.process. cbv [bindx liftx].
  rewrite Hstack, Hfrom.
  unfold Images.crop_image_x. rewrite Hcrop. cbn [fst snd of_result].
  unfold Images.save. cbn [Images.world]. rewrite Hsave.
  set (st2 := Images.write_file _ _ _).
  destruct (infrared_effect a directory (Images.path_tail directory) st2)
    as (w' & Ht & Hkeep & _).
  rewrite Ht, Hmeta. exists w'. split; [reflexivity|].
  rewrite Hkeep by apply jpg_path_not_infrared.
  subst st2. unfold Images.write_file. cbn [Images.world Images.written].
  apply dict_get_set_same.
Qed.

(** What one turn of the loop does to the dictionary and to the pickles
    of the file system. *)
Lemma process_cases (a : Images.Args) (directory : string)
    (st : Images.State Image rng band meta) :
  let out := Images.process size crop draw imread np_stack fromarray
               rasterio_open save_error imsave_error makedirs_error
               a directory st in
  (fst out = Returned tt ->
   exists m,
     Images.read_tiff_meta rasterio_open (directory ++ "/download.R.tif")
     = Returned m
     /\ Images.meta_dict (snd out)
        = Images.dict_set (Images.path_tail directory) m (Images.meta_dict st))
  /\ (forall w0, no_new_pickle w0 (Images.world st) ->
                 no_new_pickle w0 (Images.world (snd out))).
Proof.
  intros out. subst out. unfold Images.process. cbv [bindx liftx].
  destruct (Images.stack_RGB_bands imread np_stack directory) as [arr|e];
    [|split; [discriminate | auto]].
  destruct (fromarray arr) as [img|e]; [|split; [discriminate | auto]].
  unfold Images.crop_image_x.
  destruct (Images.crop_image size crop draw img (Images.image_size a)
              (Images.random_crop a) (Images.rdist a) (Images.gen st))
    as [[img'|e] g']; cbn [fst snd of_result Images.world];
    [|split; [discriminate | auto]].
  unfold Images.save. cbn [Images.world].
  destruct (save_error (Images.world st) _ img') as [e|];
    [split; [discriminate | auto]|].
  set (st2 := Images.write_file _ _ _).
  destruct (infrared_effect a directory (Images.path_tail directory) st2)
    as (w' & Ht & _ & Hpick).
  rewrite Ht.
  assert (Hnp : forall w0, no_new_pickle w0 (Images.world st) ->
                           no_new_pickle w0 w').
  { intros w0 H0 q d Hd. apply H0. apply Hpick in Hd.
    subst st2. unfold Images.write_file in Hd.
    cbn [Images.world Images.written] in Hd.
    match type of Hd with
    | Images.dict_get q (Images.dict_set ?k _ _) = _ =>
        destruct (String.eqb_spec q k) as [->|Hq]
    end.
    - rewrite dict_get_set_same in Hd. discriminate.
    - now rewrite dict_get_set_other in Hd. }
  destruct (Images.read_tiff_meta rasterio_open (directory ++ "/download.R.tif"))
    as [m|e]; cbn [fst snd Images.world Images.meta_dict modifyx].
  - split; [|exact Hnp]. intros _. exists m. split; reflexivity.
  - split; [discriminate | exact Hnp].
Qed.

Lemma loop_cases (a : Images.Args) (img_dirs : list string) :
  forall st : Images.State Image rng band meta,
    let out := for_eachx img_dirs
                 (Images.process size crop draw imread np_stack fromarray
                    rasterio_open save_error imsave_error makedirs_error a) st in
    (fst out = Returned tt ->
     Images.meta_dict (snd out)
     = fold_left
         (fun d directory =>
            match Images.read_tiff_meta rasterio_open
                    (directory ++ "/download.R.tif") with
            | Returned m => Images.dict_set (Images.path_tail directory) m d
            | Raised _ => d
            end)
         img_dirs (Images.meta_dict st)
     /\ Forall (fun directory =>
                  returned (Images.read_tiff_meta rasterio_open
                              (directory ++ "/download.R.tif")) = true)
               img_dirs)
    /\ (forall w0, no_new_pickle w0 (Images.world st) ->
                   no_new_pickle w0 (Images.world (snd out))).
Proof.
  induction img_dirs as [|directory dirs IH]; intros st out; subst out.
  - cbn [for_eachx retx fst snd fold_left]. split; auto.
  - cbn [for_eachx]. unfold bindx.
    destruct (process_cases a directory st) as [Hok Hnp].
    destruct (Images.process size crop draw imread np_stack fromarray
                rasterio_open save_error imsave_error makedirs_error
                a directory st) as [[[]|e] st1]; cbn [fst snd] in *.
    + destruct (Hok eq_refl) as (m & Hm & Hd).
      destruct (IH st1) as [IHok IHnp]. split.
      * intros Hret. destruct (IHok Hret) as [Hfold Hall].
        cbn [fold_left]. rewrite Hm, <- Hd. split; [exact Hfold|].
        constructor; [now rewrite Hm | exact Hall].
      * intros w0 H0. apply IHnp. now apply Hnp.
    + split; [discriminate | exact Hnp].
Qed.

Lemma main_cases (a : Images.Args) (img_dirs : list string)
    (st : Images.State Image rng band meta) :
  let out := Images.main size crop draw imread np_stack fromarray rasterio_open
               save_error imsave_error makedirs_error open_error
               a img_dirs st in
  (fst out = Returned tt ->
   Images.meta_dict (snd out) = metas_of rasterio_open img_dirs
   /\ Forall (fun directory =>
                returned (Images.read_tiff_meta rasterio_open
                            (directory ++ "/download.R.tif")) = true)
             img_dirs
   /\ Images.dict_get (Images.meta_file a)
        (Images.written (Images.world (snd out)))
      = Some (Images.Pickle Image band (metas_of rasterio_open img_dirs)))
  /\ (returned (fst out) = false ->
      no_new_pickle (Images.world st) (Images.world (snd out))).
Proof.
  intros out. subst out. unfold Images.main.
  cbv [bindx modifyx getx]. cbn [Images.world Images.gen].
  assert (H0 : no_new_pickle (Images.world st) (Images.world st))
    by (intros q d Hd; exact Hd).
  assert (Hloop : forall st0 : Images.State Image rng band meta,
            Images.meta_dict st0 = [] ->
            no_new_pickle (Images.world st) (Images.world st0) ->
            let out := match for_eachx img_dirs
                               (Images.process size crop draw imread np_stack
                                  fromarray rasterio_open save_error
                                  imsave_error makedirs_error a) st0 with
                       | (Returned _, s') => Images.dump_meta open_error a s'
                       | (Raised e, s') => (Raised e, s')
                       end in
            (fst out = Returned tt ->
             Images.meta_dict (snd out) = metas_of rasterio_open img_dirs
             /\ Forall (fun directory =>
                          returned (Images.read_tiff_meta rasterio_open
                                      (directory ++ "/download.R.tif")) = true)
                       img_dirs
             /\ Images.dict_get (Images.meta_file a)
                  (Images.written (Images.world (snd out)))
                = Some (Images.Pickle Image band
                          (metas_of rasterio_open img_dirs)))
            /\ (returned (fst out) = false ->
                no_new_pickle (Images.world st) (Images.world (snd out)))).
  { intros st0 Hmd Hnp0 out. subst out.
    destruct (loop_cases a img_dirs st0) as [Hok Hnp].
    destruct (for_eachx img_dirs _ st0) as [[[]|e] st1]; cbn [fst snd] in *.
    - destruct (Hok eq_refl) as [Hfold Hall]. rewrite Hmd in Hfold.
      fold (metas_of rasterio_open img_dirs) in Hfold.
      unfold Images.dump_meta.
      destruct (open_error (Images.world st1) (Images.meta_file a)) as [e|];
        cbn [fst snd returned].
      + split; [discriminate|]. intros _. now apply Hnp.
      + split; [|discriminate]. intros _.
        unfold Images.write_file.
        cbn [Images.meta_dict Images.world Images.written].
        split; [exact Hfold|]. split; [exact Hall|].
        rewrite Hfold. apply dict_get_set_same.
    - split; [discriminate|]. intros _. now apply Hnp. }
  destruct (negb (Images.exists_ (Images.out_dir a)
                    (Images.mkState (Images.world st) (Images.gen st) []))).
  - unfold Images.makedirs. cbn [Images.world Images.gen Images.meta_dict].
    destruct (makedirs_error (Images.world st) (Images.out_dir a)) as [e|].
    + cbn [fst snd returned]. split; [discriminate | auto].
    + apply Hloop; [reflexivity | exact H0].
  - cbv [retx]. apply Hloop; [reflexivity | exact H0].
Qed.

(** X28.  The metadata file is written exactly when the script runs to its end.
    If it returns, every directory had a readable raster header, the
    dictionary is the one built directory after directory, and
    [meta_file] holds its pickle.  If it raises (a directory without a
    red band, an image that cannot be saved, ...), no pickle has been
    written: the metadata of the directories processed so far is lost,
    while their JPEGs have been written. *)
Theorem main_writes_meta_at_the_end (a : Images.Args) (img_dirs : list string)
    (st : Images.State Image rng band meta) :
  let out := Images.main size crop draw imread np_stack fromarray rasterio_open
               save_error imsave_error makedirs_error open_error
               a img_dirs st in
  (fst out = Returned tt ->
   Images.meta_dict (snd out) = metas_of rasterio_open img_dirs
   /\ Forall (fun directory =>
                returned (Images.read_tiff_meta rasterio_open
                            (directory ++ "/download.R.tif")) = true)
             img_dirs
   /\ Images.dict_get (Images.meta_file a)
        (Images.written (Images.world (snd out)))
      = Some (Images.Pickle Image band (metas_of rasterio_open img_dirs)))
  /\ (returned (fst out) = false ->
      no_new_pickle (Images.world st) (Images.world (snd out))).
Proof.
  apply main_cases.
Qed.

Lemma dict_set_new_key {V} (k : string) (v : V) (d : list (string * V)) :
  ~ In k (map fst d) -> map fst (Images.dict_set k v d) = map fst d ++ [k].
Proof.
  induction d as [|[k' v'] d IH]; intros Hn; simpl; [reflexivity|].
  simpl in Hn. destruct (String.eqb_spec k' k) as [->|_]; [tauto|].
  simpl. rewrite IH; [reflexivity | tauto].
Qed.

Lemma metas_keys (img_dirs : list string) :
  forall d0 : list (string * (meta * Q * Q)),
    Forall (fun directory =>
              returned (Images.read_tiff_meta rasterio_open
                          (directory ++ "/download.R.tif")) = true) img_dirs ->
    NoDup (map Images.path_tail img_dirs) ->
    (forall directory, In directory img_dirs ->
                       ~ In (Images.path_tail directory) (map fst d0)) ->
    map fst
      (fold_left
         (fun d directory =>
            match Images.read_tiff_meta rasterio_open
                    (directory ++ "/download.R.tif") with
            | Returned m => Images.dict_set (Images.path_tail directory) m d
            | Raised _ => d
            end)
         img_dirs d0)
    = map fst d0 ++ map Images.path_tail img_dirs.
Proof.
  induction img_dirs as [|directory dirs IH]; intros d0 Hall Hnd Hfresh.
  - simpl. now rewrite app_nil_r.
  - inversion Hall as [|? ? Hr Hall']; subst.
    inversion Hnd as [|? ? Hnotin Hnd']; subst.
    cbn [fold_left map].
    destruct (Images.read_tiff_meta rasterio_open
                (directory ++ "/download.R.tif")) as [m|e]; [|discriminate].
    rewrite IH; [| exact Hall' | exact Hnd' |].
    + rewrite dict_set_new_key by (apply Hfresh; now left).
      now rewrite <- app_assoc.
    + intros dir' Hin'.
      rewrite dict_set_new_key by (apply Hfresh; now left).
      intros Hk. apply in_app_or in Hk. destruct Hk as [Hk|[Hk|[]]].
      * apply (Hfresh dir'); [now right | exact Hk].
      * apply Hnotin. rewrite Hk. now apply in_map.
Qed.

(** X29.  When the script returns and no two directories have the same name, the
    dictionary that is pickled has one key per directory, the name of the
    directory, in the order in which the directories were processed. *)
Theorem main_meta_keys (a : Images.Args) (img_dirs : list string)
    (st : Images.State Image rng band meta) :
  fst (Images.main size crop draw imread np_stack fromarray rasterio_open
         save_error imsave_error makedirs_error open_error a img_dirs st)
  = Returned tt ->
  NoDup (map Images.path_tail img_dirs) ->
  exists d,
    Images.dict_get (Images.meta_file a)
      (Images.written
         (Images.world
            (snd (Images.main size crop draw imread np_stack fromarray
                    rasterio_open save_error imsave_error makedirs_error
                    open_error a img_dirs st))))
    = Some (Images.Pickle Image band d)
    /\ map fst d = map Images.path_tail img_dirs.
Proof.
  intros Hret Hnd.
  destruct (main_cases a img_dirs st) as [Hok _].
  destruct (Hok Hret) as (_ & Hall & Hfile).
  exists (metas_of rasterio_open img_dirs). split; [exact Hfile|].
  unfold metas_of. now rewrite metas_keys by auto.
Qed.

End ScriptFacts.

(** X10.  The table and the log of a run on a well-formed configuration.  When
    the zip of [region_names] and [region_states] is not empty, every
    region declares at least one state and every state resolves, the call
    returns, and the written table is, region after region in the order
    of the zip and state after state in the order of the member list, the
    rows of the input that the state contains, in input order, each with
    the name of the state and the name of the region; a line contained by
    several states of a region has a row for each.  The log, flushed and
    closed, has the start line, then per region its header and per state
    its count. *)
Theorem split_writes_regions_in_turn
    (wkt_dumps : geometry -> string) (contains : geometry -> geometry -> bool)
    (US_STATES : list UsState.row) (current_time : string)
    (features : list Line.row)
    (region_names : list string) (region_states : list (list string))
    (fs : Files) :
  let regs := combine region_names region_states in
  let gdf := range_index features in
  regs <> [] ->
  Forall (fun rs => snd rs <> [] /\ all_resolve US_STATES (snd rs)) regs ->
  split_txlines_by_region wkt_dumps contains US_STATES current_time features
    region_names region_states fs
  = (Ok tt,
     mkFiles
       (mkLog (start_line current_time
               :: partition_log contains US_STATES gdf regs) [] false)
       (Some (map (csv_row wkt_dumps)
                  (flat_map
                     (fun rs =>
                        set_region (fst rs)
                          (flat_map
                             (fun s =>
                                set_state s
                                  (filter
                                     (fun ir =>
                                        contained_by contains US_STATES s (snd ir))
                                     gdf))
                             (snd rs)))
                     regs)))
       (tower_coordinates_csv fs)).
Proof.
  intros regs gdf Hne Hregs.
  exact (split_run_nonempty_regions wkt_dumps contains US_STATES current_time
           features region_names region_states fs Hne Hregs).
Qed.

(* ------------------------------------------------------------------ *)
(** ** The further properties at concrete inputs                       *)
(* ------------------------------------------------------------------ *)

Module Witnesses.

Import Example.

Lemma df_subset_missing_column_witness :
  ~ In "owner" (columns points)
  /\ df_subset points "owner" Num.NegInf Num.PosInf = Raise (KeyError "owner").
Proof.
  assert (H : ~ In "owner" (columns points))
    by (simpl; intros [H|[H|[H|[]]]]; discriminate).
  split; [exact H|].
  exact (df_subset_missing_column points "owner" Num.NegInf Num.PosInf H).
Defined.

Lemma df_subset_selects_witness :
  df_subset points "voltage" (Num.Fin 115) (Num.Fin 230)
  = Ok Example2.points_115_230
  /\ columns Example2.points_115_230 = columns points
  /\ rows Example2.points_115_230
     = filter (in_range "voltage" (Num.Fin 115) (Num.Fin 230)) (rows points).
Proof.
  assert (H : df_subset points "voltage" (Num.Fin 115) (Num.Fin 230)
              = Ok Example2.points_115_230) by reflexivity.
  split; [exact H|].
  destruct (df_subset_selects points Example2.points_115_230 "voltage"
              (Num.Fin 115) (Num.Fin 230) H) as (H1 & H2 & _).
  split; assumption.
Defined.

Lemma voltage_is_column : In "voltage" (columns points).
Proof. simpl. auto. Defined.

Lemma id_is_column : In "id" (columns points).
Proof. simpl. auto. Defined.

Lemma points_id_numeric : numeric_column points "id".
Proof.
  unfold numeric_column, numeric_rows, points. simpl.
  repeat constructor; eexists; reflexivity.
Defined.

Lemma df_subset_default_drops_nan_witness :
  In "voltage" (columns points)
  /\ numeric_column points "voltage"
  /\ df_subset_default points
     = Ok (mkDataFrame (columns points)
             (filter (fun r => is_number (cell_of "voltage" r)) (rows points))).
Proof.
  split; [exact voltage_is_column|]. split; [exact points_voltage_numeric|].
  exact (df_subset_default_drops_nan points voltage_is_column
           points_voltage_numeric).
Defined.

Lemma df_subset_unordered_bounds_witness :
  In "voltage" (columns points)
  /\ numeric_column points "voltage"
  /\ Num.leb (Num.Fin 230) (Num.Fin 115) = false
  /\ df_subset points "voltage" (Num.Fin 230) (Num.Fin 115)
     = Ok (mkDataFrame (columns points) []).
Proof.
  split; [exact voltage_is_column|]. split; [exact points_voltage_numeric|].
  split; [reflexivity|].
  exact (df_subset_unordered_bounds points "voltage" (Num.Fin 230) (Num.Fin 115)
           voltage_is_column points_voltage_numeric eq_refl).
Defined.

Lemma df_subset_string_column_witness :
  In "state" (columns points)
  /\ Exists (fun r => exists s, cell_of "state" r = VStr s) (rows points)
  /\ df_subset points "state" (Num.Fin 115) (Num.Fin 230) = Raise TypeError.
Proof.
  assert (H1 : In "state" (columns points)) by (simpl; auto).
  assert (H2 : Exists (fun r => exists s, cell_of "state" r = VStr s)
                      (rows points))
    by (apply Exists_cons_hd; exists "VT"; reflexivity).
  split; [exact H1|]. split; [exact H2|].
  exact (df_subset_string_column points "state" (Num.Fin 115) (Num.Fin 230)
           H1 H2).
Defined.

Lemma df_subset_commute_witness :
  In "voltage" (columns points) /\ numeric_column points "voltage"
  /\ In "id" (columns points) /\ numeric_column points "id"
  /\ rbind (df_subset points "voltage" (Num.Fin 115) (Num.Fin 345))
           (fun t => df_subset t "id" (Num.Fin 2) (Num.Fin 2))
     = rbind (df_subset points "id" (Num.Fin 2) (Num.Fin 2))
             (fun t => df_subset t "voltage" (Num.Fin 115) (Num.Fin 345)).
Proof.
  split; [exact voltage_is_column|]. split; [exact points_voltage_numeric|].
  split; [exact id_is_column|]. split; [exact points_id_numeric|].
  exact (proj1 (df_subset_commute points "voltage" "id"
                  (Num.Fin 115) (Num.Fin 345) (Num.Fin 2) (Num.Fin 2)
                  voltage_is_column points_voltage_numeric
                  id_is_column points_id_numeric)).
Defined.

Lemma get_tower_coords_bad_geometry_witness :
  loads_geometry loads [tx1]
  = Ok [with_geometry tx1 (LineString [(1, 1); (2, 2); (3, 3)])%Q]
  /\ loads (Tx.geometry tx_bad) = None
  /\ get_tower_coords loads "12:00:00" ([tx1] ++ tx_bad :: [tx3]) empty_dir
     = (Raise (WKTReadingError (Tx.geometry tx_bad)),
        mkFiles (mkLog [] [start_line "12:00:00"] true)
                (tx_lines_csv empty_dir) (tower_coordinates_csv empty_dir)).
Proof.
  split; [reflexivity|]. split; [reflexivity|].
  exact (get_tower_coords_bad_geometry loads "12:00:00" [tx1] [tx3] tx_bad
           empty_dir _ eq_refl eq_refl).
Defined.

Lemma get_tower_coords_counts_witness :
  loads_geometry loads [tx1; tx2; tx3]
  = Ok [with_geometry tx1 (LineString [(1, 1); (2, 2); (3, 3)])%Q;
        with_geometry tx2
          (MultiLineString [[(0, 0); (1, 1)]; [(2, 2); (3, 3)]])%Q;
        with_geometry tx3 (LineString [(6, 1); (7, 2)])%Q]
  /\ exists out,
       fst (get_tower_coords loads "12:00:00" [tx1; tx2; tx3] empty_dir) = Ok out
       /\ tower_coordinates_csv
            (snd (get_tower_coords loads "12:00:00" [tx1; tx2; tx3] empty_dir))
          = Some (map snd out)
       /\ List.length out = 5
       /\ List.length
            (on_disk (error_log
               (snd (get_tower_coords loads "12:00:00" [tx1; tx2; tx3]
                       empty_dir)))) = 2.
Proof.
  split; [reflexivity|].
  exact (get_tower_coords_counts loads "12:00:00" [tx1; tx2; tx3] empty_dir
           _ eq_refl).
Defined.

Lemma split_no_region_witness :
  combine (@nil string) [["VT"]] = []
  /\ split_txlines_by_region dumps box_contains states "12:00:00" [line1]
       [] [["VT"]] empty_dir
     = (Raise (ValueError "No objects to concatenate" ""),
        mkFiles (mkLog [] [start_line "12:00:00"] true)
                (tx_lines_csv empty_dir) (tower_coordinates_csv empty_dir)).
Proof.
  split; [reflexivity|].
  exact (split_no_region dumps box_contains states "12:00:00" [line1]
           [] [["VT"]] empty_dir eq_refl).
Defined.

Lemma split_first_region_without_states_witness :
  combine ["A"; "B"] [[]; ["VT"]] = ("A", []) :: [("B", ["VT"])]
  /\ split_txlines_by_region dumps box_contains states "12:00:00" [line1]
       ["A"; "B"] [[]; ["VT"]] empty_dir
     = (Raise (UnboundLocalError "region_df"),
        mkFiles (mkLog [] [start_line "12:00:00"; region_header "A"] true)
                (tx_lines_csv empty_dir) (tower_coordinates_csv empty_dir)).
Proof.
  split; [reflexivity|].
  exact (split_first_region_without_states dumps box_contains states
           "12:00:00" [line1] ["A"; "B"] [[]; ["VT"]] empty_dir
           "A" [("B", ["VT"])] eq_refl).
Defined.

Lemma split_ignores_surplus_witness :
  List.length ["A"] = List.length [["VT"]]
  /\ split_txlines_by_region dumps box_contains states "12:00:00" [line1]
       (["A"] ++ ["B"]) [["VT"]] empty_dir
     = split_txlines_by_region dumps box_contains states "12:00:00" [line1]
         ["A"] [["VT"]] empty_dir
  /\ split_txlines_by_region dumps box_contains states "12:00:00" [line1]
       ["A"] ([["VT"]] ++ [["ZZ"]]) empty_dir
     = split_txlines_by_region dumps box_contains states "12:00:00" [line1]
         ["A"] [["VT"]] empty_dir.
Proof.
  split; [reflexivity|].
  exact (split_ignores_surplus dumps box_contains states "12:00:00" [line1]
           ["A"] [["VT"]] ["B"] [["ZZ"]] empty_dir eq_refl).
Defined.

Lemma state_polygon_first_match_witness :
  Forall (fun x => UsState.STATE_NAME x <> "NH")
         [UsState.mk "VT" (square 0 0 10 10)]
  /\ UsState.STATE_NAME (UsState.mk "NH" (square 5 0 15 10)) = "NH"
  /\ state_polygon
       ([UsState.mk "VT" (square 0 0 10 10)]
        ++ UsState.mk "NH" (square 5 0 15 10)
           :: [UsState.mk "NH" (Point (0, 0)%Q)]) "NH"
     = Ok (square 5 0 15 10).
Proof.
  assert (H : Forall (fun x => UsState.STATE_NAME x <> "NH")
                     [UsState.mk "VT" (square 0 0 10 10)])
    by (constructor; [discriminate | constructor]).
  split; [exact H|]. split; [reflexivity|].
  exact (state_polygon_first_match [UsState.mk "VT" (square 0 0 10 10)]
           [UsState.mk "NH" (Point (0, 0)%Q)]
           (UsState.mk "NH" (square 5 0 15 10)) "NH" H eq_refl).
Defined.

Lemma two_regions_resolve :
  Forall (fun rs : string * list string =>
            snd rs <> [] /\ all_resolve states (snd rs))
         (combine ["A"; "B"] [["VT"]; ["NH"]]).
Proof.
  repeat constructor; discriminate.
Defined.

Lemma two_regions_not_empty : combine ["A"; "B"] [["VT"]; ["NH"]] <> [].
Proof. discriminate. Defined.

Lemma split_counts_add_up_witness :
  combine ["A"; "B"] [["VT"]; ["NH"]] <> []
  /\ Forall (fun rs : string * list string =>
               snd rs <> [] /\ all_resolve states (snd rs))
            (combine ["A"; "B"] [["VT"]; ["NH"]])
  /\ exists csv,
       fst (split_txlines_by_region dumps box_contains states "12:00:00"
              [line1; line2; line3] ["A"; "B"] [["VT"]; ["NH"]] empty_dir)
       = Ok tt
       /\ tx_lines_csv
            (snd (split_txlines_by_region dumps box_contains states "12:00:00"
                    [line1; line2; line3] ["A"; "B"] [["VT"]; ["NH"]]
                    empty_dir)) = Some csv
       /\ List.length csv = 3
       /\ on_disk (error_log
            (snd (split_txlines_by_region dumps box_contains states "12:00:00"
                    [line1; line2; line3] ["A"; "B"] [["VT"]; ["NH"]]
                    empty_dir)))
          = [start_line "12:00:00";
             region_header "A"; state_count_message "VT" 2;
             region_header "B"; state_count_message "NH" 1].
Proof.
  split; [exact two_regions_not_empty|]. split; [exact two_regions_resolve|].
  exact (split_counts_add_up dumps box_contains states "12:00:00"
           [line1; line2; line3] ["A"; "B"] [["VT"]; ["NH"]] empty_dir
           two_regions_not_empty two_regions_resolve).
Defined.

Lemma split_writes_regions_in_turn_witness :
  combine ["A"; "B"] [["VT"]; ["NH"]] <> []
  /\ Forall (fun rs : string * list string =>
               snd rs <> [] /\ all_resolve states (snd rs))
            (combine ["A"; "B"] [["VT"]; ["NH"]])
  /\ tx_lines_csv
       (snd (split_txlines_by_region dumps box_contains states "12:00:00"
               [line1; line2; line3] ["A"; "B"] [["VT"]; ["NH"]] empty_dir))
     = Some
         [Tx.mk 1 (Num.Fin 12.5) (Num.Fin 230) "OWNER A"
                "LINESTRING (1 1, 2 2, 3 3)" "VT" "A";
          Tx.mk 2 (Num.Fin 3) (Num.Fin 115) "OWNER B"
                "LINESTRING (6 1, 7 2)" "VT" "A";
          Tx.mk 2 (Num.Fin 3) (Num.Fin 115) "OWNER B"
                "LINESTRING (6 1, 7 2)" "NH" "B"].
Proof.
  split; [exact two_regions_not_empty|]. split; [exact two_regions_resolve|].
  rewrite (split_writes_regions_in_turn dumps box_contains states "12:00:00"
             [line1; line2; line3] ["A"; "B"] [["VT"]; ["NH"]] empty_dir
             two_regions_not_empty two_regions_resolve).
  vm_compute. reflexivity.
Defined.

Lemma example_round_trip :
  forall l, In l [line1; line2] ->
            loads (dumps (Line.geometry l)) = Some (Line.geometry l).
Proof.
  intros l [<-|[<-|[]]]; reflexivity.
Defined.

Lemma example_every_state_has_a_line :
  every_state_has_a_line box_contains states [line1; line2]
    (combine ["NE"] [["VT"; "NH"]]).
Proof.
  repeat constructor.
  - exists line1. split; [simpl; auto | vm_compute; reflexivity].
  - exists line2. split; [simpl; auto | vm_compute; reflexivity].
Defined.

Lemma example_one_region :
  Forall (fun rs : string * list string =>
            snd rs <> [] /\ all_resolve states (snd rs))
         (combine ["NE"] [["VT"; "NH"]]).
Proof. repeat constructor; discriminate. Defined.

Lemma tower_coords_of_split_output_witness :
  combine ["NE"] [["VT"; "NH"]] <> []
  /\ every_state_has_a_line box_contains states [line1; line2]
       (combine ["NE"] [["VT"; "NH"]])
  /\ (forall l, In l [line1; line2] ->
                loads (dumps (Line.geometry l)) = Some (Line.geometry l))
  /\ tx_lines_csv
       (snd (split_txlines_by_region dumps box_contains states "12:00:00"
               [line1; line2] ["NE"] [["VT"; "NH"]] empty_dir))
     = Some (map (csv_row dumps)
               (flat_map (region_rows box_contains states
                            (range_index [line1; line2]))
                         (combine ["NE"] [["VT"; "NH"]])))
  /\ returned
       (of_result
          (fst (get_tower_coords loads "12:00:01"
                  (map (csv_row dumps)
                     (flat_map (region_rows box_contains states
                                  (range_index [line1; line2]))
                               (combine ["NE"] [["VT"; "NH"]])))
                  (snd (split_txlines_by_region dumps box_contains states
                          "12:00:00" [line1; line2] ["NE"]
                          [["VT"; "NH"]] empty_dir))))) = true.
Proof.
  assert (Hne : combine ["NE"] [["VT"; "NH"]] <> []) by discriminate.
  split; [exact Hne|]. split; [exact example_every_state_has_a_line|].
  split; [exact example_round_trip|].
  destruct (tower_coords_of_split_output loads dumps box_contains states
              "12:00:00" "12:00:01" [line1; line2] ["NE"] [["VT"; "NH"]]
              empty_dir _ Hne example_one_region
              example_every_state_has_a_line example_round_trip eq_refl)
    as (H1 & _ & _ & H3 & _).
  split; [exact H1|]. rewrite H3. reflexivity.
Defined.

Lemma example_vt_usable : usable states "VT".
Proof.
  exists [], (UsState.mk "VT" (square 0 0 10 10)),
         [UsState.mk "NH" (square 5 0 15 10); UsState.mk "XX" (Point (0, 0)%Q)].
  split; [reflexivity|]. split; [intros r' []|].
  split; [reflexivity|]. left. reflexivity.
Defined.

Lemma example_nh_usable : usable states "NH".
Proof.
  exists [UsState.mk "VT" (square 0 0 10 10)],
         (UsState.mk "NH" (square 5 0 15 10)),
         [UsState.mk "XX" (Point (0, 0)%Q)].
  split; [reflexivity|]. split; [intros r' [<-|[]]; discriminate|].
  split; [reflexivity|]. left. reflexivity.
Defined.

Lemma example_xx_unusable :
  unusable states "XX" (ValueError "invalid polygon:" "Point").
Proof.
  apply (@invalid_polygon_type states "XX"
           [UsState.mk "VT" (square 0 0 10 10);
            UsState.mk "NH" (square 5 0 15 10)]
           (UsState.mk "XX" (Point (0, 0)%Q)) []).
  - reflexivity.
  - intros r' [<-|[<-|[]]]; discriminate.
  - reflexivity.
  - discriminate.
  - discriminate.
Defined.

Lemma split_raises_at_first_unusable_state_witness :
  combine ["A"; "B"] [["VT"]; ["NH"; "XX"; "VT"]]
  = [("A", ["VT"])] ++ ("B", ["NH"] ++ "XX" :: ["VT"]) :: []
  /\ Forall (fun rs : string * list string => Forall (usable states) (snd rs))
            [("A", ["VT"])]
  /\ Forall (usable states) ["NH"]
  /\ unusable states "XX" (ValueError "invalid polygon:" "Point")
  /\ fst (split_txlines_by_region dumps box_contains states "12:00:00"
            [line1; line2] ["A"; "B"] [["VT"]; ["NH"; "XX"; "VT"]] empty_dir)
     = Raise (ValueError "invalid polygon:" "Point")
  /\ tx_lines_csv
       (snd (split_txlines_by_region dumps box_contains states "12:00:00"
               [line1; line2] ["A"; "B"] [["VT"]; ["NH"; "XX"; "VT"]]
               empty_dir)) = None
  /\ log_written
       (snd (split_txlines_by_region dumps box_contains states "12:00:00"
               [line1; line2] ["A"; "B"] [["VT"]; ["NH"; "XX"; "VT"]]
               empty_dir))
     = [start_line "12:00:00"; region_header "A";
        state_count_message "VT" 2; region_header "B";
        state_count_message "NH" 1].
Proof.
  assert (H1 : Forall (fun rs : string * list string =>
                         Forall (usable states) (snd rs)) [("A", ["VT"])])
    by (repeat constructor; exact example_vt_usable).
  assert (H2 : Forall (usable states) ["NH"])
    by (repeat constructor; exact example_nh_usable).
  assert (H3 : forall rn0 rest, [("A", ["VT"])] <> (rn0, []) :: rest)
    by (intros rn0 rest; discriminate).
  split; [reflexivity|]. split; [exact H1|]. split; [exact H2|].
  split; [exact example_xx_unusable|].
  destruct (split_raises_at_first_unusable_state dumps box_contains states
              "12:00:00" [line1; line2] ["A"; "B"]
              [["VT"]; ["NH"; "XX"; "VT"]] empty_dir
              [("A", ["VT"])] "B" ["NH"] "XX" ["VT"] []
              (ValueError "invalid polygon:" "Point")
              eq_refl H1 H2 H3 example_xx_unusable)
    as (R1 & R2 & _ & _ & R5).
  split; [exact R1|]. split; [exact R2|]. rewrite R5.
  vm_compute. reflexivity.
Defined.

Lemma split_last_region_without_states_witness :
  combine ["A"; "B"] [["VT"]; []] = [] ++ [("A", ["VT"]); ("B", [])]
  /\ Forall (fun rs : string * list string =>
               snd rs <> [] /\ all_resolve states (snd rs))
            ([] ++ [("A", ["VT"])])
  /\ tx_lines_csv
       (snd (split_txlines_by_region dumps box_contains states "12:00:00"
               [line1] ["A"; "B"] [["VT"]; []] empty_dir))
     = Some (map (csv_row dumps)
               (flat_map (region_rows box_contains states (range_index [line1]))
                         []
                ++ region_rows box_contains states (range_index [line1])
                     ("B", ["VT"])
                ++ region_rows box_contains states (range_index [line1])
                     ("B", ["VT"]))).
Proof.
  assert (H : Forall (fun rs : string * list string =>
                        snd rs <> [] /\ all_resolve states (snd rs))
                     ([] ++ [("A", ["VT"])]))
    by (repeat constructor; discriminate).
  split; [reflexivity|]. split; [exact H|].
  rewrite (split_last_region_without_states dumps box_contains states
             "12:00:00" [line1] ["A"; "B"] [["VT"]; []] empty_dir
             [] "A" ["VT"] "B" eq_refl H).
  reflexivity.
Defined.

Lemma split_from_file_without_crs_witness :
  Gdf.crs Example2.gdf_without_crs = None
  /\ split_txlines_by_region_from_file dumps box_contains states
       Example2.to_crs Example2.crs_latlon "12:00:00" Example2.gdf_without_crs
       ["A"] [["VT"]] None
     = (Raised (Other "AttributeError"
                      "'NoneType' object has no attribute 'to_epsg'"),
        None).
Proof.
  split; [reflexivity|].
  exact (split_from_file_without_crs dumps box_contains states
           Example2.to_crs Example2.crs_latlon "12:00:00"
           Example2.gdf_without_crs ["A"] [["VT"]] None eq_refl).
Defined.

Lemma split_from_file_conversion_witness :
  Gdf.crs Example2.gdf_latlon = Some Example2.crs_latlon
  /\ Crs.axis_info Example2.crs_latlon = "Lat" :: "Lon" :: []
  /\ split_txlines_by_region_from_file dumps box_contains states
       Example2.to_crs Example2.crs_latlon "12:00:00" Example2.gdf_latlon
       ["A"] [["VT"]] None
     = (of_result
          (fst (split_txlines_by_region dumps box_contains states "12:00:00"
                  (Example2.to_crs Example2.crs_latlon [line1])
                  ["A"] [["VT"]] fresh_dir)),
        Some
          (snd (split_txlines_by_region dumps box_contains states "12:00:00"
                  (Example2.to_crs Example2.crs_latlon [line1])
                  ["A"] [["VT"]] fresh_dir))).
Proof.
  split; [reflexivity|]. split; [reflexivity|].
  exact (proj1 (split_from_file_conversion dumps box_contains states
                  Example2.to_crs Example2.crs_latlon "12:00:00"
                  Example2.gdf_latlon ["A"] [["VT"]] None
                  Example2.crs_latlon "Lat" "Lon" [] eq_refl eq_refl)).
Defined.

Lemma example_draw_in_range :
  forall (g : nat) (a b : Z),
    (a <= b)%Z -> (a <= fst (ImagesExample.draw g a b) <= b)%Z.
Proof. intros g a b H. simpl. lia. Defined.

Lemma crop_image_negative_rdist_witness :
  (-1 < 0)%Z
  /\ Images.crop_image ImagesExample.size ImagesExample.crop ImagesExample.draw
       (2000, 1500)%Z 1300 true (-1) 0
     = (Raise (ValueError "empty range for randrange()" ""), 0).
Proof.
  assert (H : (-1 < 0)%Z) by lia.
  split; [exact H|].
  exact (crop_image_negative_rdist ImagesExample.Image ImagesExample.size
           ImagesExample.crop nat ImagesExample.draw
           (2000, 1500)%Z 1300%Z (-1)%Z 0 H).
Defined.

Lemma crop_image_jitter_witness :
  (0 <= 70)%Z
  /\ (2 * 70 <= 2000 - 1300)%Z
  /\ (2 * 70 <= 1500 - 1300)%Z
  /\ Images.crop_image ImagesExample.size ImagesExample.crop ImagesExample.draw
       (2000, 1500)%Z 1300 true 70 0
     = (Ok (ImagesExample.crop (2000, 1500)%Z
              (Images.crop_box 2000 1500 1300 (-70) (-70))), 2)
  /\ inside_image 2000 1500 (Images.crop_box 2000 1500 1300 (-70) (-70)).
Proof.
  assert (H0 : (0 <= 70)%Z) by lia.
  assert (H1 : (2 * 70 <= 2000 - 1300)%Z) by lia.
  assert (H2 : (2 * 70 <= 1500 - 1300)%Z) by lia.
  split; [exact H0|]. split; [exact H1|]. split; [exact H2|].
  destruct (crop_image_jitter ImagesExample.Image ImagesExample.size
              ImagesExample.crop nat ImagesExample.draw example_draw_in_range
              (2000, 1500)%Z 1300%Z 70%Z 0 H0) as (E & _ & Hin).
  split; [exact E | exact (Hin H1 H2)].
Defined.

Lemma path_tail_of_join_witness :
  Images.has_sep "forest_17" = false
  /\ Images.path_tail ("data/raw" ++ "/" ++ "forest_17") = "forest_17".
Proof.
  split; [reflexivity|].
  exact (proj1 (path_tail_of_join "data/raw" "forest_17" eq_refl)).
Defined.

Lemma process_returns_witness :
  Images.stack_RGB_bands ImagesExample.imread ImagesExample.np_stack "in/b"
  = Returned [19; 19; 19]
  /\ ImagesExample.fromarray [19; 19; 19] = Returned (2000, 1500)%Z
  /\ Images.crop_image ImagesExample.size ImagesExample.crop ImagesExample.draw
       (2000, 1500)%Z (Images.image_size ImagesExample.args)
       (Images.random_crop ImagesExample.args) (Images.rdist ImagesExample.args)
       (Images.gen Example2.script_start)
     = (Ok (1300, 1300)%Z, 0)
  /\ Images.read_tiff_meta ImagesExample.rasterio_open
       ("in/b" ++ "/download.R.tif")
     = Returned ("in/b/download.R.tif", 0.6%Q, 0.6%Q)
  /\ ImagesExample.imread "in/b/download.N.tif"
     = Raised (Other "FileNotFoundError" "in/b/download.N.tif")
  /\ exists w',
       Images.process ImagesExample.size ImagesExample.crop ImagesExample.draw
         ImagesExample.imread ImagesExample.np_stack ImagesExample.fromarray
         ImagesExample.rasterio_open (@ImagesExample.no_error _ _ _)
         (@ImagesExample.no_error _ _ _) (@ImagesExample.no_error2 _ _)
         ImagesExample.args "in/b" Example2.script_start
       = (Returned tt,
          Images.mkState w' 0
            (Images.dict_set (Images.path_tail "in/b")
               ("in/b/download.R.tif", 0.6%Q, 0.6%Q)
               (Images.meta_dict Example2.script_start)))
       /\ Images.dict_get
            (Images.out_dir ImagesExample.args ++ "/"
             ++ Images.path_tail "in/b" ++ ".jpg")
            (Images.written w')
          = Some (Images.Jpeg nat string (1300, 1300)%Z).
Proof.
  split; [reflexivity|]. split; [reflexivity|]. split; [reflexivity|].
  split; [reflexivity|]. split; [reflexivity|].
  exact (process_returns ImagesExample.Image ImagesExample.size
           ImagesExample.crop nat ImagesExample.draw nat (list nat) string
           ImagesExample.imread ImagesExample.np_stack ImagesExample.fromarray
           ImagesExample.rasterio_open (@ImagesExample.no_error _ _ _)
           (@ImagesExample.no_error _ _ _) (@ImagesExample.no_error2 _ _)
           ImagesExample.args "in/b" Example2.script_start
           [19; 19; 19] (2000, 1500)%Z (1300, 1300)%Z 0
           ("in/b/download.R.tif", 0.6%Q, 0.6%Q)
           eq_refl eq_refl eq_refl eq_refl eq_refl).
Defined.

Lemma main_meta_keys_witness :
  fst (Images.main ImagesExample.size ImagesExample.crop ImagesExample.draw
         ImagesExample.imread ImagesExample.np_stack ImagesExample.fromarray
         ImagesExample.rasterio_open (@ImagesExample.no_error _ _ _)
         (@ImagesExample.no_error _ _ _) (@ImagesExample.no_error2 _ _)
         (@ImagesExample.no_error2 _ _)
         ImagesExample.args ["in/a"; "in/b"] Example2.script_start)
  = Returned tt
  /\ NoDup (map Images.path_tail ["in/a"; "in/b"])
  /\ exists d,
       Images.dict_get (Images.meta_file ImagesExample.args)
         (Images.written
            (Images.world
               (snd (Images.main ImagesExample.size ImagesExample.crop
                       ImagesExample.draw ImagesExample.imread
                       ImagesExample.np_stack ImagesExample.fromarray
                       ImagesExample.rasterio_open
                       (@ImagesExample.no_error _ _ _)
                       (@ImagesExample.no_error _ _ _)
                       (@ImagesExample.no_error2 _ _)
                       (@ImagesExample.no_error2 _ _)
                       ImagesExample.args ["in/a"; "in/b"]
                       Example2.script_start))))
       = Some (Images.Pickle ImagesExample.Image nat d)
       /\ map fst d = ["a"; "b"].
Proof.
  assert (H1 : fst (Images.main ImagesExample.size ImagesExample.crop
                      ImagesExample.draw ImagesExample.imread
                      ImagesExample.np_stack ImagesExample.fromarray
                      ImagesExample.rasterio_open
                      (@ImagesExample.no_error _ _ _)
                      (@ImagesExample.no_error _ _ _)
                      (@ImagesExample.no_error2 _ _)
                      (@ImagesExample.no_error2 _ _)
                      ImagesExample.args ["in/a"; "in/b"]
                      Example2.script_start) = Returned tt)
    by (vm_compute; reflexivity).
  assert (H2 : NoDup (map Images.path_tail ["in/a"; "in/b"])).
  { simpl. repeat constructor; simpl; intuition discriminate. }
  split; [exact H1|]. split; [exact H2|].
  exact (main_meta_keys ImagesExample.Image ImagesExample.size
           ImagesExample.crop nat ImagesExample.draw nat (list nat) string
           ImagesExample.imread ImagesExample.np_stack ImagesExample.fromarray
           ImagesExample.rasterio_open (@ImagesExample.no_error _ _ _)
           (@ImagesExample.no_error _ _ _) (@ImagesExample.no_error2 _ _)
           (@ImagesExample.no_error2 _ _)
           ImagesExample.args ["in/a"; "in/b"] Example2.script_start H1 H2).
Defined.

(** The script on three directories of which the second has no red band:
    it raises at the second, the JPEG of the first is written, and no
    metadata file is. *)
Example main_stops_at_missing_band :
  let out := Images.main ImagesExample.size ImagesExample.crop
               ImagesExample.draw ImagesExample.imread ImagesExample.np_stack
               ImagesExample.fromarray ImagesExample.rasterio_open
               (@ImagesExample.no_error _ _ _) (@ImagesExample.no_error _ _ _)
               (@ImagesExample.no_error2 _ _) (@ImagesExample.no_error2 _ _)
               ImagesExample.args ["in/a"; "in/c"; "in/b"]
               Example2.script_start in
  fst out = Raised (Other "FileNotFoundError" "in/c/download.R.tif")
  /\ map fst (Images.written (Images.world (snd out)))
     = ["images/JPG/a.jpg"; "images/JPG/infrared/a_N.jpg"].
Proof. vm_compute. split; reflexivity. Qed.

End Witnesses.
